(** * Payment service: transfer submission and payment-intent repository

    A shallow embedding of

    - [app/payin/repository/cart_payment_repo.py]
      (class [CartPaymentRepository]: the status updates of payment intents,
      the combined PaymentIntent / PgpPaymentIntent update and the
      adjustment history), and
    - [app/payout/core/transfer/processors/submit_transfer.py]
      (class [SubmitTransfer]: the orchestration of one transfer submission),

    followed by the properties of these operations.

    Coroutines are modelled as computations in a state-and-exception monad:
    a Python exception leaves the rows written so far in place, so a
    computation returns its outcome together with the store it reached. *)

From Stdlib Require Import ZArith List String Ascii Bool Lia DecimalString.
Import ListNotations.
Open Scope string_scope.
Open Scope Z_scope.

Set Implicit Arguments.

(* ===================================================================== *)
(** ** Computations that read and write a store and may raise            *)
(* ===================================================================== *)

(** The outcome of a call: a returned value or a raised exception. *)
Inductive outcome (E A : Type) : Type :=
| Returned (a : A)
| Raised (e : E).
Arguments Returned {E A} a.
Arguments Raised {E A} e.

Definition M (S E A : Type) : Type := S -> outcome E A * S.

Definition ret {S E A} (a : A) : M S E A := fun s => (Returned a, s).

Definition bind {S E A B} (c : M S E A) (k : A -> M S E B) : M S E B :=
  fun s =>
    match c s with
    | (Returned a, s') => k a s'
    | (Raised e, s') => (Raised e, s')
    end.

Definition raise {S E A} (e : E) : M S E A := fun s => (Raised e, s).

Definition get {S E} : M S E S := fun s => (Returned s, s).

Definition modify {S E} (f : S -> S) : M S E unit := fun s => (Returned tt, f s).

(** [try: c except h]: the handler runs in the store the body reached. *)
Definition try_except {S E A} (c : M S E A) (h : E -> M S E A) : M S E A :=
  fun s =>
    match c s with
    | (Returned a, s') => (Returned a, s')
    | (Raised e, s') => h e s'
    end.

Declare Scope monad_scope.
Delimit Scope monad_scope with monad.
Notation "x <- c ;; k" := (bind c (fun x => k))
  (at level 61, c at next level, right associativity) : monad_scope.
Notation "c ;;; k" := (bind c (fun _ => k))
  (at level 61, right associativity) : monad_scope.
Open Scope monad_scope.

(** Python truthiness of the optional values the code tests with [if x] /
    [if not x]: [None] is false, an [int] is false when it is [0], a [str]
    when it is empty, a row or a [datetime] is always true. *)
Definition truthy_int (x : option Z) : bool :=
  match x with Some n => negb (n =? 0) | None => false end.

Definition truthy_str (x : option string) : bool :=
  match x with Some s => negb (s =? "")%string | None => false end.

Definition truthy_obj {A} (x : option A) : bool :=
  match x with Some _ => true | None => false end.

(** SQL statements over a table kept as the list of its rows:
    [UPDATE .. WHERE p SET f RETURNING *] rewrites every row that satisfies
    [p] and returns the rewritten rows; [fetch_one] takes the first row of a
    result, [None] when there is none. *)
Definition sql_update {R} (p : R -> bool) (f : R -> R) (t : list R) : list R :=
  map (fun r => if p r then f r else r) t.

Definition sql_returning {R} (p : R -> bool) (f : R -> R) (t : list R) : list R :=
  map f (filter p t).

Definition sql_select {R} (p : R -> bool) (t : list R) : list R := filter p t.

Definition fetch_one {R} (rows : list R) : option R := hd_error rows.

Definition option_eqb {A} (eqb : A -> A -> bool) (x y : option A) : bool :=
  match x, y with
  | Some a, Some b => eqb a b
  | None, None => true
  | _, _ => false
  end.

(* ===================================================================== *)
(** ** Payin: [CartPaymentRepository]                                    *)
(* ===================================================================== *)

Module Payin.

(** UUID primary keys and [datetime] values are opaque to the repository;
    they are compared for equality (keys) and order (timestamps) only. *)
Definition UUID := Z.
Definition datetime := Z.

(** Modelled from the spec: the members of [IntentStatus]
    ([app/payin/core/cart_payment/types.py] is absent); the data model lists
    REQUIRES_CAPTURE, CAPTURING, SUCCEEDED, CANCELLED and FAILED, and the
    repository names the first four. *)
Inductive IntentStatus : Type :=
| REQUIRES_CAPTURE | CAPTURING | SUCCEEDED | CANCELLED | FAILED.

Definition IntentStatus_eqb (a b : IntentStatus) : bool :=
  match a, b with
  | REQUIRES_CAPTURE, REQUIRES_CAPTURE | CAPTURING, CAPTURING
  | SUCCEEDED, SUCCEEDED | CANCELLED, CANCELLED | FAILED, FAILED => true
  | _, _ => false
  end.

(** A row of [payment_intents], as [to_payment_intent] reads it. *)
Record PaymentIntent : Type := {
  pi_id : UUID;
  pi_cart_payment_id : UUID;
  pi_idempotency_key : string;
  pi_amount_initiated : Z;
  pi_amount : Z;
  pi_application_fee_amount : option Z;
  pi_capture_method : string;
  pi_country : string;
  pi_currency : string;
  pi_status : IntentStatus;
  pi_statement_descriptor : option string;
  pi_payment_method_id : option UUID;
  pi_legacy_consumer_charge_id : Z;
  pi_created_at : datetime;
  pi_updated_at : datetime;
  pi_captured_at : option datetime;
  pi_cancelled_at : option datetime;
  pi_capture_after : option datetime
}.

(** A row of [pgp_payment_intents], as [to_pgp_payment_intent] reads it. *)
Record PgpPaymentIntent : Type := {
  pgpi_id : UUID;
  pgpi_payment_intent_id : UUID;
  pgpi_idempotency_key : string;
  pgpi_pgp_code : string;
  pgpi_resource_id : option string;
  pgpi_status : IntentStatus;
  pgpi_invoice_resource_id : option string;
  pgpi_charge_resource_id : option string;
  pgpi_payment_method_resource_id : string;
  pgpi_customer_resource_id : option string;
  pgpi_currency : string;
  pgpi_amount : Z;
  pgpi_amount_capturable : option Z;
  pgpi_amount_received : option Z;
  pgpi_application_fee_amount : option Z;
  pgpi_capture_method : string;
  pgpi_payout_account_id : option string;
  pgpi_created_at : datetime;
  pgpi_updated_at : datetime;
  pgpi_captured_at : option datetime;
  pgpi_cancelled_at : option datetime
}.

(** A row of [payment_intents_adjustment_history]. *)
Record PaymentIntentAdjustmentHistory : Type := {
  adj_id : UUID;
  adj_payer_id : option UUID;
  adj_payment_intent_id : UUID;
  adj_amount : Z;
  adj_amount_original : Z;
  adj_amount_delta : Z;
  adj_currency : string;
  adj_idempotency_key : string;
  adj_created_at : datetime
}.

(** The payment database: the three tables these operations touch. The
    master and the replica connection read the same rows. *)
Record Database : Type := {
  payment_intents : list PaymentIntent;
  pgp_payment_intents : list PgpPaymentIntent;
  payment_intents_adjustment_history : list PaymentIntentAdjustmentHistory
}.

(** The exceptions these operations raise. [TypeError] is what Python
    raises when a [to_*] converter subscripts a [None] row. *)
Inductive Exn : Type :=
| PaymentIntentCouldNotBeUpdatedError
| ValueError (msg : string) (payment_intent_id : UUID)
| TypeError.

Definition Op (A : Type) : Type := M Database Exn A.

Definition set_payment_intents (t : list PaymentIntent) (db : Database) : Database :=
  {| payment_intents := t;
     pgp_payment_intents := pgp_payment_intents db;
     payment_intents_adjustment_history := payment_intents_adjustment_history db |}.

Definition set_pgp_payment_intents (t : list PgpPaymentIntent) (db : Database) : Database :=
  {| payment_intents := payment_intents db;
     pgp_payment_intents := t;
     payment_intents_adjustment_history := payment_intents_adjustment_history db |}.

Definition set_adjustment_history (t : list PaymentIntentAdjustmentHistory)
    (db : Database) : Database :=
  {| payment_intents := payment_intents db;
     pgp_payment_intents := pgp_payment_intents db;
     payment_intents_adjustment_history := t |}.

(** The [.values(...)] clauses of the update statements. *)
Definition pi_values (status : option IntentStatus) (amount : option Z)
    (captured_at : option datetime) (updated_at : datetime)
    (r : PaymentIntent) : PaymentIntent :=
  {| pi_id := pi_id r;
     pi_cart_payment_id := pi_cart_payment_id r;
     pi_idempotency_key := pi_idempotency_key r;
     pi_amount_initiated := pi_amount_initiated r;
     pi_amount := match amount with Some a => a | None => pi_amount r end;
     pi_application_fee_amount := pi_application_fee_amount r;
     pi_capture_method := pi_capture_method r;
     pi_country := pi_country r;
     pi_currency := pi_currency r;
     pi_status := match status with Some s => s | None => pi_status r end;
     pi_statement_descriptor := pi_statement_descriptor r;
     pi_payment_method_id := pi_payment_method_id r;
     pi_legacy_consumer_charge_id := pi_legacy_consumer_charge_id r;
     pi_created_at := pi_created_at r;
     pi_updated_at := updated_at;
     pi_captured_at :=
       match captured_at with Some c => Some c | None => pi_captured_at r end;
     pi_cancelled_at := pi_cancelled_at r;
     pi_capture_after := pi_capture_after r |}.

Definition pgp_values (status : IntentStatus) (updated_at : datetime)
    (r : PgpPaymentIntent) : PgpPaymentIntent :=
  {| pgpi_id := pgpi_id r;
     pgpi_payment_intent_id := pgpi_payment_intent_id r;
     pgpi_idempotency_key := pgpi_idempotency_key r;
     pgpi_pgp_code := pgpi_pgp_code r;
     pgpi_resource_id := pgpi_resource_id r;
     pgpi_status := status;
     pgpi_invoice_resource_id := pgpi_invoice_resource_id r;
     pgpi_charge_resource_id := pgpi_charge_resource_id r;
     pgpi_payment_method_resource_id := pgpi_payment_method_resource_id r;
     pgpi_customer_resource_id := pgpi_customer_resource_id r;
     pgpi_currency := pgpi_currency r;
     pgpi_amount := pgpi_amount r;
     pgpi_amount_capturable := pgpi_amount_capturable r;
     pgpi_amount_received := pgpi_amount_received r;
     pgpi_application_fee_amount := pgpi_application_fee_amount r;
     pgpi_capture_method := pgpi_capture_method r;
     pgpi_payout_account_id := pgpi_payout_account_id r;
     pgpi_created_at := pgpi_created_at r;
     pgpi_updated_at := updated_at;
     pgpi_captured_at := pgpi_captured_at r;
     pgpi_cancelled_at := pgpi_cancelled_at r |}.

(** [to_payment_intent], [to_pgp_payment_intent] and
    [to_payment_intent_adjustment_history] copy the columns of a row into
    the domain object; on [None] the first subscript raises. *)
Definition to_payment_intent (row : option PaymentIntent) : Op PaymentIntent :=
  match row with Some r => ret r | None => raise TypeError end.

Definition to_pgp_payment_intent (row : option PgpPaymentIntent) : Op PgpPaymentIntent :=
  match row with Some r => ret r | None => raise TypeError end.

Definition to_payment_intent_adjustment_history
    (row : option PaymentIntentAdjustmentHistory) : Op PaymentIntentAdjustmentHistory :=
  match row with Some r => ret r | None => raise TypeError end.

(** Running one update statement on a table and fetching its first
    returned row. *)
Definition execute_update_payment_intents (p : PaymentIntent -> bool)
    (f : PaymentIntent -> PaymentIntent) : Op (option PaymentIntent) :=
  fun db =>
    (Returned (fetch_one (sql_returning p f (payment_intents db))),
     set_payment_intents (sql_update p f (payment_intents db)) db).

Definition execute_update_pgp_payment_intents (p : PgpPaymentIntent -> bool)
    (f : PgpPaymentIntent -> PgpPaymentIntent) : Op (option PgpPaymentIntent) :=
  fun db =>
    (Returned (fetch_one (sql_returning p f (pgp_payment_intents db))),
     set_pgp_payment_intents (sql_update p f (pgp_payment_intents db)) db).

(** [update_payment_intent_status]: the update is keyed on the id and on
    the status the intent is transitioning from. *)
Definition update_payment_intent_status (id : UUID)
    (new_status previous_status : IntentStatus) (now : datetime) : Op PaymentIntent :=
  row <- execute_update_payment_intents
           (fun r => (pi_id r =? id) && IntentStatus_eqb (pi_status r) previous_status)
           (pi_values (Some new_status) None None now) ;;
  match row with
  | None => raise PaymentIntentCouldNotBeUpdatedError
  | Some _ => to_payment_intent row
  end.

(** [update_payment_intent_capture_state]: keyed on the id alone. *)
Definition update_payment_intent_capture_state (id : UUID) (status : IntentStatus)
    (captured_at : datetime) (now : datetime) : Op PaymentIntent :=
  row <- execute_update_payment_intents
           (fun r => pi_id r =? id)
           (pi_values (Some status) None (Some captured_at) now) ;;
  to_payment_intent row.

(** [update_payment_intent_amount]: keyed on the id alone. *)
Definition update_payment_intent_amount (id : UUID) (amount : Z)
    (now : datetime) : Op PaymentIntent :=
  row <- execute_update_payment_intents
           (fun r => pi_id r =? id)
           (pi_values None (Some amount) None now) ;;
  to_payment_intent row.

Definition get_payment_intent_by_id (id : UUID) : Op (option PaymentIntent) :=
  fun db =>
    (Returned (fetch_one (sql_select (fun r => pi_id r =? id) (payment_intents db))), db).

(** [get_payment_intent_adjustment_history]: the first row for the pair
    (payment intent, idempotency key), or [None]. *)
Definition get_payment_intent_adjustment_history (payment_intent_id : UUID)
    (idempotency_key : string) : Op (option PaymentIntentAdjustmentHistory) :=
  fun db =>
    let row :=
      fetch_one
        (sql_select
           (fun r => (adj_payment_intent_id r =? payment_intent_id)
                     && (adj_idempotency_key r =? idempotency_key)%string)
           (payment_intents_adjustment_history db)) in
    (Returned row, db).

(** [insert_payment_intent_adjustment_history]: appends the row; the
    server fills [created_at]. *)
Definition insert_payment_intent_adjustment_history (id : UUID) (payer_id : option UUID)
    (payment_intent_id : UUID) (amount amount_original amount_delta : Z)
    (currency idempotency_key : string) (now : datetime)
  : Op PaymentIntentAdjustmentHistory :=
  let row :=
    {| adj_id := id;
       adj_payer_id := payer_id;
       adj_payment_intent_id := payment_intent_id;
       adj_amount := amount;
       adj_amount_original := amount_original;
       adj_amount_delta := amount_delta;
       adj_currency := currency;
       adj_idempotency_key := idempotency_key;
       adj_created_at := now |} in
  modify (fun db =>
            set_adjustment_history (payment_intents_adjustment_history db ++ [row]) db) ;;;
  to_payment_intent_adjustment_history (Some row).

(** Modelled from the spec: [payment_database_transaction], the scoped
    transaction of the row store ([app/payin/repository/base.py] is absent):
    the statements of the body commit as one unit when the body returns and
    are rolled back when it raises. *)
Definition payment_database_transaction {A} (body : Op A) : Op A :=
  fun db =>
    match body db with
    | (Returned a, db') => (Returned a, db')
    | (Raised e, _) => (Raised e, db)
    end.

(** [update_payment_and_pgp_payment_intent_status]. The [return None] in
    the scope leaves it normally, so the (empty) transaction commits. *)
Definition update_payment_and_pgp_payment_intent_status (new_status : IntentStatus)
    (payment_intent_id pgp_payment_intent_id : UUID) (now : datetime)
  : Op (option (PaymentIntent * PgpPaymentIntent)) :=
  let updated_at := now in
  let update_payment_intent_stmt :=
    execute_update_payment_intents
      (fun r => pi_id r =? payment_intent_id)
      (pi_values (Some new_status) None None updated_at) in
  let update_pgp_payment_intent_stmt :=
    execute_update_pgp_payment_intents
      (fun r => (pgpi_id r =? pgp_payment_intent_id)
                && (pgpi_payment_intent_id r =? payment_intent_id))
      (pgp_values new_status updated_at) in
  rows <- payment_database_transaction
            (pgp_payment_intent_row <- update_pgp_payment_intent_stmt ;;
             match pgp_payment_intent_row with
             | None => ret None
             | Some _ =>
                 payment_intent_row <- update_payment_intent_stmt ;;
                 match payment_intent_row with
                 | None => raise (ValueError "not found" payment_intent_id)
                 | Some _ => ret (Some (payment_intent_row, pgp_payment_intent_row))
                 end
             end) ;;
  match rows with
  | None => ret None
  | Some (payment_intent_row, pgp_payment_intent_row) =>
      i <- to_payment_intent payment_intent_row ;;
      p <- to_pgp_payment_intent pgp_payment_intent_row ;;
      ret (Some (i, p))
  end.

(** Modelled from the spec: the adjustment operation of the payment-intent
    state machine (the cart-payment processor that drives the repository is
    absent). Given the payment intent id, the amount delta and the
    idempotency key it looks up an adjustment row for that key first and
    returns it when there is one; otherwise it updates the amount of the
    payment intent and inserts the history row as one atomic unit. *)
Definition adjust_payment_intent_amount (id : UUID) (payer_id : option UUID)
    (payment_intent_id : UUID) (amount_delta : Z) (idempotency_key : string)
    (now : datetime) : Op PaymentIntentAdjustmentHistory :=
  existing <- get_payment_intent_adjustment_history payment_intent_id idempotency_key ;;
  match existing with
  | Some adjustment => ret adjustment
  | None =>
      payment_database_transaction
        (intent <- get_payment_intent_by_id payment_intent_id ;;
         intent <- to_payment_intent intent ;;
         updated <- update_payment_intent_amount payment_intent_id
                      (pi_amount intent + amount_delta) now ;;
         insert_payment_intent_adjustment_history id payer_id payment_intent_id
           (pi_amount updated) (pi_amount intent) amount_delta
           (pi_currency intent) idempotency_key now)
  end.

End Payin.

(* ===================================================================== *)
(** ** Payout: [SubmitTransfer]                                          *)
(* ===================================================================== *)

Module Payout.

Definition datetime := Z.

(** *** Enumerations *)

(** Modelled from the spec: the statuses of a transfer
    ([app/payout/types.py] is absent): NEW, PENDING, PAID, FAILED, ERROR. *)
Inductive TransferStatusType : Type := NEW | PENDING | PAID | FAILED | ERROR.

Definition TransferStatusType_eqb (a b : TransferStatusType) : bool :=
  match a, b with
  | NEW, NEW | PENDING, PENDING | PAID, PAID | FAILED, FAILED | ERROR, ERROR => true
  | _, _ => false
  end.

(** The error codes of [PayoutErrorCode] that the processor raises. *)
Inductive PayoutErrorCode : Type :=
| TRANSFER_NOT_FOUND
| INVALID_PAYMENT_ACCOUNT_ID
| MISMATCHED_TRANSFER_AMOUNT
| TRANSFER_INVALID_STATE
| TRANSFER_ALREADY_DELETED
| DUPLICATE_TRANSFER
| TRANSFER_DISABLED_ERROR
| DUMMY_TRANSFER_CREATION_FAILED
| TRANSFER_PROCESSING
| INVALID_STRIPE_ACCOUNT_ID
| MISMATCHED_TRANSFER_PAYMENT_ACCOUNT
| DUPLICATE_STRIPE_TRANSFER
| INVALID_STRIPE_ACCOUNT
| UNSUPPORTED_COUNTRY
| STRIPE_PAYOUT_ACCT_MISSING
| STRIPE_PAYOUT_DISALLOWED
| STRIPE_INVALID_REQUEST_ERROR
| STRIPE_SUBMISSION_ERROR.

Definition PayoutErrorCode_eq_dec (a b : PayoutErrorCode) : {a = b} + {a <> b}.
Proof. decide equality. Defined.

Definition PayoutErrorCode_eqb (a b : PayoutErrorCode) : bool :=
  if PayoutErrorCode_eq_dec a b then true else false.

(** The values written to [transfer.status_code]: the members of
    [TransferStatusCodeType] that the processor names, and the error code of
    a [PayoutError] when the submission is recorded as failed. *)
Inductive TransferStatusCodeType : Type :=
| ERROR_AMOUNT_MISMATCH
| ERROR_INVALID_STATE
| ERROR_NO_GATEWAY_ACCOUNT
| ERROR_ACCOUNT_ID_MISMATCH
| ERROR_SUBMISSION
| UNKNOWN_ERROR
| error_code_as_status_code (c : PayoutErrorCode).

Inductive StripeTransferSubmissionStatus : Type :=
| SUBMITTING | SUBMITTED | FAILED_TO_SUBMIT.

(** *** Rows *)

Record Transfer : Type := {
  t_id : Z;
  t_payment_account_id : option Z;
  t_subtotal : Z;
  t_adjustments : string;
  t_amount : Z;
  t_currency : option string;
  t_method : option string;
  t_status : TransferStatusType;
  t_status_code : option TransferStatusCodeType;
  t_submitted_at : option datetime;
  t_submitted_by_id : option Z;
  t_deleted_at : option datetime;
  t_should_retry_on_failure : option bool
}.

Record PaymentAccount : Type := {
  pa_id : Z;
  pa_account_type : option string;
  pa_account_id : option Z;
  pa_entity : option string;
  pa_transfers_enabled : bool
}.

Record StripeManagedAccount : Type := {
  sma_id : Z;
  sma_stripe_id : string;
  sma_country_shortname : string
}.

Record StripeTransfer : Type := {
  st_id : Z;
  st_transfer_id : Z;
  st_stripe_status : string;
  st_stripe_id : option string;
  st_stripe_request_id : option string;
  st_stripe_account_id : option string;
  st_stripe_account_type : option string;
  st_country_shortname : option string;
  st_bank_name : option string;
  st_bank_last_four : option string;
  st_submission_status : option StripeTransferSubmissionStatus;
  st_submission_error_type : option string;
  st_submission_error_code : option string;
  st_submitted_at : option datetime;
  st_created_at : datetime
}.

Record ManagedAccountTransfer : Type := {
  mat_id : Z;
  mat_amount : Z;
  mat_transfer_id : Z;
  mat_payment_account_id : option Z;
  mat_currency : option string;
  mat_stripe_id : option string;
  mat_stripe_status : option string;
  mat_submitted_at : option datetime
}.

Record TransactionDBEntity : Type := { txn_id : Z; txn_amount : Z }.

(** The constants and tables of [app/payout/types.py] and the two helpers
    of [app/payout/core/account/utils.py] whose values the processor only
    compares or passes on, the membership tests of the gateway's
    [CountryCode] and [Currency] types, and the filter of the repository
    query for the submissions that are still going on; the modules are
    absent, so they are parameters of the development.

    So are the two functions of the interpreter whose answers depend on
    its character database and its version. A [str] is kept as the bytes
    of its UTF-8 encoding: an ASCII character is its own single byte and
    occurs nowhere else.
    - [py_int s] is [int(s)]: [Some n] when it returns [n], [None] when it
      raises [ValueError];
    - [re_fullmatch_word s] tells whether [s] is one or more word
      characters, [re.fullmatch("\\w+", s) is not None]. *)
Record PayoutTypes : Type := {
  TransferMethodType_STRIPE : string;
  TransferMethodType_DOORDASH_PAY : string;
  TransferMethodType_COD_INVOICE : string;
  PayoutMethodType_STRIPE : string;
  TRANSFER_METHOD_CHOICES : list (string * string);
  ACCOUNT_TYPE_STRIPE_MANAGED_ACCOUNT : string;
  PayoutAccountTargetType_DASHER : string;
  NO_EXT_ACCOUNT_IN_CURRENCY : string;
  PAYOUT_NOT_ALLOWED : string;
  INVALID_REQUEST_ERROR : string;
  STRIPE_TRANSFER_FAILED_STATUS : string;
  ManagedAccountTransferStatus_PAID : string;
  UNKNOWN_ERROR_STR : string;
  TRANSFER_ERROR_TYPE_TO_FAILED_STATUS : list PayoutErrorCode;
  get_currency_code : string -> string;
  is_CountryCode : option string -> bool;
  is_Currency : option string -> bool;
  ongoing_stripe_transfer : StripeTransfer -> bool;
  py_int : string -> option Z;
  re_fullmatch_word : string -> bool
}.

(** *** The gateway *)

Record BankAccount : Type := {
  bank_name : option string;
  last4 : option string
}.

Record Payout : Type := {
  payout_id : string;
  payout_status : string;
  bank_account : option BankAccount
}.

(** Modelled from the spec: the structured error of the gateway client
    ([stripe.error.StripeError] is an external class): its JSON body and
    the request id. An error that did not come with a response of the
    gateway (a failure of the connection) has no body: [json_body] is
    [None]. A body is a dictionary that has an entry ["error"] or not; the
    entry is a dictionary with the optional keys [message], [code] and
    [type], or a value of another type, whose name is kept. *)
Record StripeErrorBody : Type := {
  err_message : option string;
  err_code : option string;
  err_type : option string
}.

Inductive ErrorEntry : Type :=
| ErrorAbsent
| ErrorDict (error : StripeErrorBody)
| ErrorOther (type_name : string).

Record StripeErrorData : Type := {
  json_body : option ErrorEntry;
  request_id : option string
}.

(** [error_info = e.json_body.get("error", {})] followed by
    [error_info.get(..)]: a body without the entry gives the empty
    dictionary, which has none of the keys; no body, or an entry that is no
    dictionary, has no [get]. *)
Definition error_info_of (e : StripeErrorData) : StripeErrorBody + string :=
  match json_body e with
  | None => inr "'NoneType' object has no attribute 'get'"
  | Some ErrorAbsent =>
      inl {| err_message := None; err_code := None; err_type := None |}
  | Some (ErrorDict error) => inl error
  | Some (ErrorOther type_name) =>
      inr ("'" ++ type_name ++ "' object has no attribute 'get'")
  end.

Record PayoutErrorData : Type := {
  http_status_code : Z;
  error_code : PayoutErrorCode;
  retryable : bool;
  error_message : option string
}.

(** The exceptions that travel through the processor. All of them are
    instances of [Exception]; [AttributeError] is what the interpreter
    raises for [x.get] on an [x] that has no [get]; [GatewayException]
    stands for whatever else the gateway client raises (a timeout of the
    call, a cancelled call). *)
Inductive Exn : Type :=
| PayoutError (e : PayoutErrorData)
| StripeError (e : StripeErrorData)
| AssertionError (msg : string)
| ValueError (msg : string)
| ValidationError
| AttributeError (msg : string)
| GatewayException (what : string).

Definition HTTP_400_BAD_REQUEST : Z := 400.

Definition is_PayoutError (e : Exn) : bool :=
  match e with PayoutError _ => true | _ => false end.

(** A value of the metadata dictionary sent with a payout. *)
Inductive MetaValue : Type :=
| MInt (n : Z)
| MStr (s : string).

(** The calls made to the gateway, in the order they are made. *)
Inductive GatewayCall : Type :=
| RetrieveBalance (account : option StripeManagedAccount)
| CreateTransfer (amount : Z) (currency : option string) (destination : string)
    (country : option string)
| CreatePayout (amount : Z) (currency : string) (country : string)
    (stripe_account : string) (statement_descriptor : string)
    (metadata : list (string * MetaValue)).

(** Modelled from the spec: the contract of the gateway client
    ([StripeAsyncClient] and [get_account_balance] are absent): creating a
    payout or a transfer returns the created object or raises, and the
    balance of an account is an amount. What the gateway answers is not
    determined by the processor, so it is a parameter. *)
Record StripeAsyncClient : Type := {
  account_balance : option StripeManagedAccount -> Z;
  create_transfer_result :
    Z -> option string -> string -> option string -> outcome Exn string;
  create_payout_result :
    Z -> string -> string -> string -> string -> list (string * MetaValue) ->
    outcome Exn Payout
}.

(** *** The store *)

Record Store : Type := {
  transfers : list Transfer;
  payment_accounts : list PaymentAccount;
  stripe_managed_accounts : list StripeManagedAccount;
  stripe_transfers : list StripeTransfer;
  managed_account_transfers : list ManagedAccountTransfer;
  gateway_calls : list GatewayCall;
  clock : datetime
}.

Definition Op (A : Type) : Type := M Store Exn A.

Definition set_transfers (t : list Transfer) (s : Store) : Store :=
  {| transfers := t;
     payment_accounts := payment_accounts s;
     stripe_managed_accounts := stripe_managed_accounts s;
     stripe_transfers := stripe_transfers s;
     managed_account_transfers := managed_account_transfers s;
     gateway_calls := gateway_calls s;
     clock := clock s |}.

Definition set_stripe_transfers (t : list StripeTransfer) (s : Store) : Store :=
  {| transfers := transfers s;
     payment_accounts := payment_accounts s;
     stripe_managed_accounts := stripe_managed_accounts s;
     stripe_transfers := t;
     managed_account_transfers := managed_account_transfers s;
     gateway_calls := gateway_calls s;
     clock := clock s |}.

Definition set_managed_account_transfers (t : list ManagedAccountTransfer)
    (s : Store) : Store :=
  {| transfers := transfers s;
     payment_accounts := payment_accounts s;
     stripe_managed_accounts := stripe_managed_accounts s;
     stripe_transfers := stripe_transfers s;
     managed_account_transfers := t;
     gateway_calls := gateway_calls s;
     clock := clock s |}.

Definition log_gateway_call (c : GatewayCall) (s : Store) : Store :=
  {| transfers := transfers s;
     payment_accounts := payment_accounts s;
     stripe_managed_accounts := stripe_managed_accounts s;
     stripe_transfers := stripe_transfers s;
     managed_account_transfers := managed_account_transfers s;
     gateway_calls := gateway_calls s ++ [c];
     clock := clock s |}.

Definition tick (s : Store) : Store :=
  {| transfers := transfers s;
     payment_accounts := payment_accounts s;
     stripe_managed_accounts := stripe_managed_accounts s;
     stripe_transfers := stripe_transfers s;
     managed_account_transfers := managed_account_transfers s;
     gateway_calls := gateway_calls s;
     clock := clock s + 1 |}.

(** [datetime.utcnow()] and [datetime.now(timezone.utc)]: a reading of a
    clock that moves on. *)
Definition utcnow : Op datetime := fun s => (Returned (clock s), tick s).


(** *** Update and create requests

    A field of an update request is either left out ([None]: the column is
    kept) or given ([Some v]: the column becomes [v], which for a nullable
    column may itself be [None]). *)

Record TransferUpdate : Type := {
  u_status : option TransferStatusType;
  u_status_code : option (option TransferStatusCodeType);
  u_currency : option (option string);
  u_method : option (option string);
  u_submitted_at : option (option datetime);
  u_submitted_by_id : option (option Z);
  u_should_retry_on_failure : option (option bool)
}.

Definition given {A} (field : option A) (old : A) : A :=
  match field with Some v => v | None => old end.

Definition apply_TransferUpdate (data : TransferUpdate) (r : Transfer) : Transfer :=
  {| t_id := t_id r;
     t_payment_account_id := t_payment_account_id r;
     t_subtotal := t_subtotal r;
     t_adjustments := t_adjustments r;
     t_amount := t_amount r;
     t_currency := given (u_currency data) (t_currency r);
     t_method := given (u_method data) (t_method r);
     t_status := given (u_status data) (t_status r);
     t_status_code := given (u_status_code data) (t_status_code r);
     t_submitted_at := given (u_submitted_at data) (t_submitted_at r);
     t_submitted_by_id := given (u_submitted_by_id data) (t_submitted_by_id r);
     t_deleted_at := t_deleted_at r;
     t_should_retry_on_failure :=
       given (u_should_retry_on_failure data) (t_should_retry_on_failure r) |}.

Record StripeTransferCreate : Type := {
  c_transfer_id : Z;
  c_submission_status : option StripeTransferSubmissionStatus;
  c_stripe_status : string
}.

Record StripeTransferUpdate : Type := {
  su_country_shortname : option (option string);
  su_stripe_account_id : option (option string);
  su_stripe_account_type : option (option string);
  su_stripe_status : option string;
  su_stripe_id : option (option string);
  su_stripe_request_id : option (option string);
  su_bank_name : option (option string);
  su_bank_last_four : option (option string);
  su_submission_status : option (option StripeTransferSubmissionStatus);
  su_submission_error_type : option (option string);
  su_submission_error_code : option (option string);
  su_submitted_at : option (option datetime)
}.

Definition apply_StripeTransferUpdate (data : StripeTransferUpdate)
    (r : StripeTransfer) : StripeTransfer :=
  {| st_id := st_id r;
     st_transfer_id := st_transfer_id r;
     st_stripe_status := given (su_stripe_status data) (st_stripe_status r);
     st_stripe_id := given (su_stripe_id data) (st_stripe_id r);
     st_stripe_request_id := given (su_stripe_request_id data) (st_stripe_request_id r);
     st_stripe_account_id := given (su_stripe_account_id data) (st_stripe_account_id r);
     st_stripe_account_type :=
       given (su_stripe_account_type data) (st_stripe_account_type r);
     st_country_shortname := given (su_country_shortname data) (st_country_shortname r);
     st_bank_name := given (su_bank_name data) (st_bank_name r);
     st_bank_last_four := given (su_bank_last_four data) (st_bank_last_four r);
     st_submission_status := given (su_submission_status data) (st_submission_status r);
     st_submission_error_type :=
       given (su_submission_error_type data) (st_submission_error_type r);
     st_submission_error_code :=
       given (su_submission_error_code data) (st_submission_error_code r);
     st_submitted_at := given (su_submitted_at data) (st_submitted_at r);
     st_created_at := st_created_at r |}.

Record ManagedAccountTransferCreate : Type := {
  mc_amount : Z;
  mc_transfer_id : Z;
  mc_payment_account_id : option Z;
  mc_currency : option string
}.

Record ManagedAccountTransferUpdate : Type := {
  mu_amount : option Z;
  mu_stripe_id : option (option string);
  mu_stripe_status : option (option string);
  mu_submitted_at : option (option datetime)
}.

Definition apply_ManagedAccountTransferUpdate (data : ManagedAccountTransferUpdate)
    (r : ManagedAccountTransfer) : ManagedAccountTransfer :=
  {| mat_id := mat_id r;
     mat_amount := given (mu_amount data) (mat_amount r);
     mat_transfer_id := mat_transfer_id r;
     mat_payment_account_id := mat_payment_account_id r;
     mat_currency := mat_currency r;
     mat_stripe_id := given (mu_stripe_id data) (mat_stripe_id r);
     mat_stripe_status := given (mu_stripe_status data) (mat_stripe_status r);
     mat_submitted_at := given (mu_submitted_at data) (mat_submitted_at r) |}.

(** *** The repositories

    The repository classes of [app/payout/repository/maindb] behind
    [transfer_repo], [payment_account_repo], [stripe_transfer_repo] and
    [managed_account_transfer_repo] are absent. Their operations follow the
    contract of the row store: point lookups by key, updates by primary key
    that return the row after the update or [None] when there is none, and
    inserts that return the created row with its server-assigned key and
    timestamp. *)

(** Modelled from the spec: the key a serial column assigns to a created
    row, above every key of the table. *)
Definition next_id {R} (key : R -> Z) (t : list R) : Z :=
  fold_right (fun r m => Z.max (key r) m) 0 t + 1.

(** Modelled from the spec: [transfer_repo.get_transfer_by_id], a point
    lookup; [None] when there is no such transfer. *)
Definition get_transfer_by_id (transfer_id : Z) : Op (option Transfer) :=
  fun s =>
    (Returned (fetch_one (sql_select (fun r => t_id r =? transfer_id) (transfers s))), s).

(** Modelled from the spec: [transfer_repo.update_transfer_by_id], an
    update by primary key of the columns the request gives; it returns the
    row after the update, [None] when there is no such transfer. *)
Definition update_transfer_by_id (transfer_id : Z) (data : TransferUpdate)
  : Op (option Transfer) :=
  fun s =>
    let p := fun r => t_id r =? transfer_id in
    (Returned (fetch_one (sql_returning p (apply_TransferUpdate data) (transfers s))),
     set_transfers (sql_update p (apply_TransferUpdate data) (transfers s)) s).

(** Modelled from the spec: [payment_account_repo.get_payment_account_by_id],
    a point lookup. *)
Definition get_payment_account_by_id (payment_account_id : Z)
  : Op (option PaymentAccount) :=
  fun s =>
    (Returned (fetch_one (sql_select (fun r => pa_id r =? payment_account_id)
                            (payment_accounts s))), s).

(** Modelled from the spec:
    [payment_account_repo.get_stripe_managed_account_by_id], a point lookup. *)
Definition get_stripe_managed_account_by_id (account_id : Z)
  : Op (option StripeManagedAccount) :=
  fun s =>
    (Returned (fetch_one (sql_select (fun r => sma_id r =? account_id)
                            (stripe_managed_accounts s))), s).

(** Modelled from the spec:
    [stripe_transfer_repo.get_latest_stripe_transfer_by_transfer_id]: the
    latest submission record of a transfer is the one created last. *)
Definition get_latest_stripe_transfer_by_transfer_id (transfer_id : Z)
  : Op (option StripeTransfer) :=
  fun s =>
    (Returned (fetch_one (rev (sql_select (fun r => st_transfer_id r =? transfer_id)
                                 (stripe_transfers s)))), s).

(** Modelled from the spec: [stripe_transfer_repo.create_stripe_transfer],
    an insert that returns the created row with its key and timestamp. *)
Definition create_stripe_transfer (data : StripeTransferCreate) : Op StripeTransfer :=
  fun s =>
    let row :=
      {| st_id := next_id st_id (stripe_transfers s);
         st_transfer_id := c_transfer_id data;
         st_stripe_status := c_stripe_status data;
         st_stripe_id := None;
         st_stripe_request_id := None;
         st_stripe_account_id := None;
         st_stripe_account_type := None;
         st_country_shortname := None;
         st_bank_name := None;
         st_bank_last_four := None;
         st_submission_status := c_submission_status data;
         st_submission_error_type := None;
         st_submission_error_code := None;
         st_submitted_at := None;
         st_created_at := clock s |} in
    (Returned row, set_stripe_transfers (stripe_transfers s ++ [row]) s).

(** Modelled from the spec:
    [stripe_transfer_repo.update_stripe_transfer_by_id], an update by
    primary key that returns the row after the update or [None]. *)
Definition update_stripe_transfer_by_id (stripe_transfer_id : Z)
    (data : StripeTransferUpdate) : Op (option StripeTransfer) :=
  fun s =>
    let p := fun r => st_id r =? stripe_transfer_id in
    (Returned (fetch_one (sql_returning p (apply_StripeTransferUpdate data)
                            (stripe_transfers s))),
     set_stripe_transfers
       (sql_update p (apply_StripeTransferUpdate data) (stripe_transfers s)) s).

(** Modelled from the spec:
    [managed_account_transfer_repo.get_managed_account_transfer_by_transfer_id],
    the record of a transfer, [None] when it has none. *)
Definition get_managed_account_transfer_by_transfer_id (transfer_id : Z)
  : Op (option ManagedAccountTransfer) :=
  fun s =>
    (Returned (fetch_one (sql_select (fun r => mat_transfer_id r =? transfer_id)
                            (managed_account_transfers s))), s).

(** Modelled from the spec:
    [managed_account_transfer_repo.create_managed_account_transfer], an
    insert that returns the created row. *)
Definition create_managed_account_transfer (data : ManagedAccountTransferCreate)
  : Op ManagedAccountTransfer :=
  fun s =>
    let row :=
      {| mat_id := next_id mat_id (managed_account_transfers s);
         mat_amount := mc_amount data;
         mat_transfer_id := mc_transfer_id data;
         mat_payment_account_id := mc_payment_account_id data;
         mat_currency := mc_currency data;
         mat_stripe_id := None;
         mat_stripe_status := None;
         mat_submitted_at := None |} in
    (Returned row,
     set_managed_account_transfers (managed_account_transfers s ++ [row]) s).

(** Modelled from the spec:
    [managed_account_transfer_repo.update_managed_account_transfer_by_id],
    an update by primary key that returns the row after the update or
    [None]. *)
Definition update_managed_account_transfer_by_id (managed_account_transfer_id : Z)
    (data : ManagedAccountTransferUpdate) : Op (option ManagedAccountTransfer) :=
  fun s =>
    let p := fun r => mat_id r =? managed_account_transfer_id in
    (Returned (fetch_one (sql_returning p (apply_ManagedAccountTransferUpdate data)
                            (managed_account_transfers s))),
     set_managed_account_transfers
       (sql_update p (apply_ManagedAccountTransferUpdate data)
          (managed_account_transfers s)) s).


(** *** Python built-ins the processor relies on *)

(** [str(n)] for an integer. *)
Definition py_str_int (n : Z) : string := NilZero.string_of_int (Z.to_int n).

Fixpoint drop_prefix (p s : string) : option string :=
  match p, s with
  | EmptyString, _ => Some s
  | String a p', String b s' => if Ascii.eqb a b then drop_prefix p' s' else None
  | String _ _, EmptyString => None
  end.

(** Whether [rest] continues the characters [w] to one or more word
    characters that a closing parenthesis follows: what is left of the
    pattern [(\w+)\)] after [w]. The parenthesis is an ASCII character,
    so that the text before one is a text of whole characters. *)
Fixpoint word_then_closing (fullmatch_word : string -> bool) (w rest : string)
  : bool :=
  match rest with
  | EmptyString => false
  | String c rest' =>
      (Ascii.eqb c ")" && fullmatch_word w)
      || word_then_closing fullmatch_word (w ++ String c EmptyString) rest'
  end.

(** [re.compile("Sorry, you don't have any external accounts in that
    currency \\((\\w+)\\)").match(message)]: the message begins with the
    sentence, an opening parenthesis, one or more word characters and a
    closing parenthesis. *)
Definition no_external_account_pattern_match (fullmatch_word : string -> bool)
    (message : string) : bool :=
  match drop_prefix
          "Sorry, you don't have any external accounts in that currency (" message with
  | Some rest => word_then_closing fullmatch_word EmptyString rest
  | None => false
  end.

(** A coroutine object that is tested without being awaited is not run,
    and like every object that defines neither [__bool__] nor [__len__] it
    is true. *)
Definition unawaited_is_true {A} (coroutine : Op A) : bool := true.

Definition assert_ (condition : bool) (msg : string) : Op unit :=
  if condition then ret tt else raise (AssertionError msg).

Definition payout_error (code : PayoutErrorCode) (message : option string) : Exn :=
  PayoutError {| http_status_code := HTTP_400_BAD_REQUEST;
                 error_code := code;
                 retryable := false;
                 error_message := message |}.

(** [str(e)], the text an exception carries. *)
Definition exn_str (e : Exn) : string :=
  match e with
  | PayoutError d => match error_message d with Some m => m | None => "" end
  | StripeError d =>
      match error_info_of d with
      | inl error_info =>
          match err_message error_info with Some m => m | None => "" end
      | inr _ => ""
      end
  | AssertionError msg => msg
  | ValueError msg => msg
  | ValidationError => "validation error"
  | AttributeError msg => msg
  | GatewayException what => what
  end.


(** *** The processor *)

Record SubmitTransferRequest : Type := {
  req_transfer_id : Z;
  req_statement_descriptor : string;
  req_target_id : option string;
  req_target_type : option string;
  req_method : option string;
  req_retry : option bool;
  req_submitted_by : option Z
}.

Inductive SubmitTransferResponse : Type := SubmitTransferResponse_.

Definition no_TransferUpdate : TransferUpdate :=
  {| u_status := None; u_status_code := None; u_currency := None; u_method := None;
     u_submitted_at := None; u_submitted_by_id := None;
     u_should_retry_on_failure := None |}.

(** [TransferUpdate(status=.., status_code=..)]. *)
Definition TransferUpdate_status (status : TransferStatusType)
    (status_code : option TransferStatusCodeType) : TransferUpdate :=
  {| u_status := Some status; u_status_code := Some status_code; u_currency := None;
     u_method := None; u_submitted_at := None; u_submitted_by_id := None;
     u_should_retry_on_failure := None |}.

(** [TransferUpdate(status_code=None, should_retry_on_failure=False)]. *)
Definition TransferUpdate_clear : TransferUpdate :=
  {| u_status := None; u_status_code := Some None; u_currency := None;
     u_method := None; u_submitted_at := None; u_submitted_by_id := None;
     u_should_retry_on_failure := Some (Some false) |}.

Section SubmitTransfer.

(** [self.request], [self.stripe] and the constants of the absent modules. *)
Variable K : PayoutTypes.
Variable stripe : StripeAsyncClient.
Variable request : SubmitTransferRequest.

Definition str_eq (x : option string) (constant : string) : bool :=
  option_eqb String.eqb x (Some constant).

(** Modelled from the spec: [get_country_shortname]
    ([app/payout/core/account/utils.py] is absent): the country derived
    from the payment account, that is the country of the gateway
    sub-account the account links to, and [None] without one. *)
Definition get_country_shortname (payment_account : PaymentAccount)
  : Op (option string) :=
  match pa_account_id payment_account with
  | Some account_id =>
      if truthy_int (pa_account_id payment_account) then
        stripe_managed_account <- get_stripe_managed_account_by_id account_id ;;
        ret (option_map sma_country_shortname stripe_managed_account)
      else ret None
  | None => ret None
  end.

(** Modelled from the spec: [get_account_balance]: asks the gateway for
    the balance of the sub-account. *)
Definition get_account_balance (stripe_managed_account : option StripeManagedAccount)
  : Op Z :=
  fun s =>
    (Returned (account_balance stripe stripe_managed_account),
     log_gateway_call (RetrieveBalance stripe_managed_account) s).

(** Modelled from the spec: [self.stripe.create_transfer], a call that
    reaches the gateway, which answers with the id of the created transfer
    or raises. *)
Definition create_transfer (amount : Z) (currency : option string)
    (destination : string) (country : option string) : Op string :=
  fun s =>
    (create_transfer_result stripe amount currency destination country,
     log_gateway_call (CreateTransfer amount currency destination country) s).

(** Modelled from the spec: [self.stripe.create_payout], a call that
    reaches the gateway, which answers with the created payout or raises. *)
Definition create_payout (amount : Z) (currency country stripe_account : string)
    (statement_descriptor : string) (metadata : list (string * MetaValue))
  : Op Payout :=
  fun s =>
    (create_payout_result stripe amount currency country stripe_account
       statement_descriptor metadata,
     log_gateway_call
       (CreatePayout amount currency country stripe_account statement_descriptor
          metadata) s).

(** Modelled from the spec:
    [stripe_transfer_repo.get_all_ongoing_stripe_transfers_by_transfer_id],
    the submission records of a transfer that are still going on. *)
Definition get_all_ongoing_stripe_transfers_by_transfer_id (transfer_id : Z)
  : Op (list StripeTransfer) :=
  fun s =>
    (Returned (sql_select (fun r => (st_transfer_id r =? transfer_id)
                                    && ongoing_stripe_transfer K r)
                 (stripe_transfers s)), s).

Definition handle_dummy_transfer (transfer_id : Z) (method : option string)
  : Op bool :=
  try_except
    (submitted_at <- utcnow ;;
     let update_request :=
       {| u_status := Some PAID; u_status_code := Some None; u_currency := None;
          u_method := Some method; u_submitted_at := Some (Some submitted_at);
          u_submitted_by_id := None; u_should_retry_on_failure := None |} in
     update_transfer_by_id transfer_id update_request ;;;
     ret true)
    (fun e =>
       raise (payout_error DUMMY_TRANSFER_CREATION_FAILED
                (Some ("Failed to create dummy transfer because: " ++ exn_str e)))).

Definition get_latest_transfer_submission (transfer_id : Z) (method : option string)
  : Op (option StripeTransfer) :=
  if str_eq method (TransferMethodType_STRIPE K) then
    get_latest_stripe_transfer_by_transfer_id transfer_id
  else ret None.

Definition is_processing_or_processed_for_method (transfer_id : Z)
    (method : option string) : Op bool :=
  if str_eq method (PayoutMethodType_STRIPE K) then
    stripe_transfers <- get_all_ongoing_stripe_transfers_by_transfer_id transfer_id ;;
    ret (0 <? Z.of_nat (List.length stripe_transfers))
  else ret false.

Definition has_stripe_managed_account (payment_account : PaymentAccount)
    (transfer_id : Z) : Op bool :=
  found <-
    match pa_account_id payment_account with
    | Some account_id =>
        if truthy_int (pa_account_id payment_account) then
          stripe_managed_account <- get_stripe_managed_account_by_id account_id ;;
          ret (truthy_obj stripe_managed_account)
        else ret false
    | None => ret false
    end ;;
  if (found : bool) then ret true
  else
    update_transfer_by_id transfer_id
      (TransferUpdate_status FAILED (Some ERROR_NO_GATEWAY_ACCOUNT)) ;;;
    raise (payout_error INVALID_STRIPE_ACCOUNT_ID None).

Definition validate_payment_account_of_managed_account_transfer
    (payment_account : PaymentAccount) (transfer_id : Z)
    (managed_account_transfer : option ManagedAccountTransfer) : Op bool :=
  match managed_account_transfer with
  | Some mat =>
      match mat_payment_account_id mat with
      | Some mat_payment_account_id =>
          if truthy_int (Some mat_payment_account_id)
             && negb (pa_id payment_account =? mat_payment_account_id) then
            update_transfer_by_id transfer_id
              (TransferUpdate_status ERROR (Some ERROR_ACCOUNT_ID_MISMATCH)) ;;;
            raise (payout_error MISMATCHED_TRANSFER_PAYMENT_ACCOUNT
                     (Some ("Transfer: " ++ py_str_int (pa_id payment_account)
                            ++ "; Managed Account Transfer: "
                            ++ py_str_int mat_payment_account_id)))
          else ret true
      | None => ret true
      end
  | None => ret true
  end.

(** The sub-account behind [payment_account.account_id], when the id is
    set: the conditional expression of [managed_account_balance_check] and
    [submit_managed_account_transfer]. *)
Definition stripe_managed_account_of (payment_account : PaymentAccount)
  : Op (option StripeManagedAccount) :=
  match pa_account_id payment_account with
  | Some account_id =>
      if truthy_int (pa_account_id payment_account) then
        get_stripe_managed_account_by_id account_id
      else ret None
  | None => ret None
  end.

Definition managed_account_balance_check (payment_account : PaymentAccount)
    (transfer_id : Z) (amount : Z) : Op unit :=
  amount_still_needed <-
    (if str_eq (pa_entity payment_account) (PayoutAccountTargetType_DASHER K) then
       ret amount
     else
       stripe_managed_account <- stripe_managed_account_of payment_account ;;
       account_balance <- get_account_balance stripe_managed_account ;;
       ret (amount - account_balance)) ;;
  managed_account_transfer <- get_managed_account_transfer_by_transfer_id transfer_id ;;
  validate_payment_account_of_managed_account_transfer payment_account transfer_id
    managed_account_transfer ;;;
  if 0 <? amount_still_needed then
    match managed_account_transfer with
    | Some mat =>
        if mat_amount mat <? amount_still_needed then
          update_managed_account_transfer_by_id (mat_id mat)
            {| mu_amount := Some amount_still_needed; mu_stripe_id := None;
               mu_stripe_status := None; mu_submitted_at := None |} ;;;
          ret tt
        else ret tt
    | None =>
        country_shortname <- get_country_shortname payment_account ;;
        let create_request :=
          {| mc_amount := amount_still_needed;
             mc_transfer_id := transfer_id;
             mc_payment_account_id := Some (pa_id payment_account);
             mc_currency :=
               match country_shortname with
               | Some c => if truthy_str country_shortname
                           then Some (get_currency_code K c) else None
               | None => None
               end |} in
        create_managed_account_transfer create_request ;;;
        ret tt
    end
  else
    match managed_account_transfer with
    | Some mat =>
        update_managed_account_transfer_by_id (mat_id mat)
          {| mu_amount := Some 0; mu_stripe_id := None;
             mu_stripe_status := None; mu_submitted_at := None |} ;;;
        ret tt
    | None => ret tt
    end.

Definition submit_managed_account_transfer
    (managed_account_transfer : ManagedAccountTransfer)
    (payment_account : PaymentAccount) : Op unit :=
  if mat_amount managed_account_transfer <=? 0 then ret tt
  else
    stripe_managed_account <- stripe_managed_account_of payment_account ;;
    match stripe_managed_account with
    | None => raise (payout_error INVALID_STRIPE_ACCOUNT_ID None)
    | Some sma =>
        let stripe_destination_id := sma_stripe_id sma in
        country <- get_country_shortname payment_account ;;
        (if is_Currency K (mat_currency managed_account_transfer) then ret tt
         else raise (ValueError "not a valid Currency")) ;;;
        (if is_CountryCode K country then ret tt
         else raise (ValueError "not a valid CountryCode")) ;;;
        transfer <- create_transfer (mat_amount managed_account_transfer)
                      (mat_currency managed_account_transfer)
                      stripe_destination_id country ;;
        submitted_at <- utcnow ;;
        update_managed_account_transfer_by_id (mat_id managed_account_transfer)
          {| mu_amount := None;
             mu_stripe_id := Some (Some transfer);
             mu_stripe_status := Some (Some (ManagedAccountTransferStatus_PAID K));
             mu_submitted_at := Some (Some submitted_at) |} ;;;
        ret tt
    end.

Definition get_stripe_transfer_metadata (transfer_id : Z)
    (payment_account : PaymentAccount) (target_type target_id : option string)
  : Op (list (string * MetaValue)) :=
  let transfer_metadata := [("transfer_id", MInt transfer_id)] in
  let transfer_metadata :=
    (transfer_metadata ++ [("account_id", MInt (pa_id payment_account))])%list in
  let transfer_metadata :=
    match target_type with
    | Some tt_ => if truthy_str target_type
                  then (transfer_metadata ++ [("target_type", MStr tt_)])%list
                  else transfer_metadata
    | None => transfer_metadata
    end in
  match target_id with
  | Some tid =>
      if truthy_str target_id then
        match py_int K tid with
        | Some n => ret (transfer_metadata ++ [("target_id", MInt n)])%list
        | None => raise (ValueError "invalid literal for int() with base 10")
        end
      else ret transfer_metadata
  | None => ret transfer_metadata
  end.

Definition extract_failure_code_from_exception_message (message : option string)
  : string :=
  match message with
  | Some m =>
      if truthy_str message
         && no_external_account_pattern_match (re_fullmatch_word K) m
      then NO_EXT_ACCOUNT_IN_CURRENCY K
      else UNKNOWN_ERROR_STR K
  | None => UNKNOWN_ERROR_STR K
  end.

Definition get_stripe_account_id (payment_account : PaymentAccount) : Op string :=
  stripe_managed_account <- stripe_managed_account_of payment_account ;;
  match stripe_managed_account with
  | Some sma => ret (sma_stripe_id sma)
  | None => raise (payout_error INVALID_STRIPE_ACCOUNT None)
  end.

Definition create_for_managed_account (amount transfer_id : Z)
    (payment_account : PaymentAccount) (stripe_account_id : string)
    (statement_descriptor : string) (target_type target_id : option string)
  : Op Payout :=
  managed_account_transfer <- get_managed_account_transfer_by_transfer_id transfer_id ;;
  match managed_account_transfer with
  | Some mat =>
      if 0 <? mat_amount mat then submit_managed_account_transfer mat payment_account
      else ret tt
  | None => ret tt
  end ;;;
  country_shortname <- get_country_shortname payment_account ;;
  match country_shortname with
  | Some country =>
      if truthy_str country_shortname then
        metadata <- get_stripe_transfer_metadata transfer_id payment_account
                      target_type target_id ;;
        let currency := get_currency_code K country in
        (if is_Currency K (Some currency) then ret tt
         else raise (ValueError "not a valid Currency")) ;;;
        (if is_CountryCode K country_shortname then ret tt
         else raise (ValueError "not a valid CountryCode")) ;;;
        create_payout amount currency country stripe_account_id statement_descriptor
          metadata
      else raise (payout_error UNSUPPORTED_COUNTRY None)
  | None => raise (payout_error UNSUPPORTED_COUNTRY None)
  end.

(** [except StripeError as e]: other exceptions pass through. *)
Definition except_StripeError {A} (body : Op A) (handler : StripeErrorData -> Op A)
  : Op A :=
  try_except body
    (fun e => match e with StripeError d => handler d | _ => raise e end).

Definition _submit_stripe_transfer (stripe_transfer : StripeTransfer)
    (payment_account : PaymentAccount) (amount transfer_id : Z)
    (statement_descriptor : string) (target_type target_id : option string)
  : Op unit :=
  if truthy_str (st_stripe_id stripe_transfer) then
    raise (payout_error DUPLICATE_STRIPE_TRANSFER None)
  else
    stripe_account_id <- get_stripe_account_id payment_account ;;
    if negb (str_eq (pa_account_type payment_account)
               (ACCOUNT_TYPE_STRIPE_MANAGED_ACCOUNT K)) then
      raise (payout_error INVALID_STRIPE_ACCOUNT None)
    else
      except_StripeError
        (payout_of_stripe <- create_for_managed_account amount transfer_id
                               payment_account stripe_account_id
                               statement_descriptor target_type target_id ;;
         let stripe_bank_account := bank_account payout_of_stripe in
         country_shortname <- get_country_shortname payment_account ;;
         submitted_at <- utcnow ;;
         updated_stripe_transfer <-
           update_stripe_transfer_by_id (st_id stripe_transfer)
             {| su_country_shortname := Some country_shortname;
                su_stripe_account_id := Some (Some stripe_account_id);
                su_stripe_account_type :=
                  Some (Some (ACCOUNT_TYPE_STRIPE_MANAGED_ACCOUNT K));
                su_stripe_status := Some (payout_status payout_of_stripe);
                su_stripe_id := Some (Some (payout_id payout_of_stripe));
                su_stripe_request_id := None;
                su_bank_name :=
                  Some (match stripe_bank_account with
                        | Some b => bank_name b | None => None end);
                su_bank_last_four :=
                  Some (match stripe_bank_account with
                        | Some b => last4 b | None => None end);
                su_submission_status := Some (Some SUBMITTED);
                su_submission_error_type := None;
                su_submission_error_code := None;
                su_submitted_at := Some (Some submitted_at) |} ;;
         assert_ (truthy_obj updated_stripe_transfer)
           "failed to update stripe_transfer" ;;;
         update_transfer_by_id transfer_id (TransferUpdate_status PENDING None) ;;;
         ret tt)
        (fun e =>
           match error_info_of e with
           | inr msg => raise (AttributeError msg)
           | inl error_info =>
           let stripe_error_message := err_message error_info in
           let submission_error_code :=
             if truthy_str (err_code error_info) then err_code error_info
             else Some (extract_failure_code_from_exception_message
                          stripe_error_message) in
           country_shortname <- get_country_shortname payment_account ;;
           updated_stripe_transfer <-
             update_stripe_transfer_by_id (st_id stripe_transfer)
               {| su_country_shortname := Some country_shortname;
                  su_stripe_account_id := Some (Some stripe_account_id);
                  su_stripe_account_type :=
                    Some (Some (ACCOUNT_TYPE_STRIPE_MANAGED_ACCOUNT K));
                  su_stripe_status := Some (STRIPE_TRANSFER_FAILED_STATUS K);
                  su_stripe_id := None;
                  su_stripe_request_id := Some (request_id e);
                  su_bank_name := None;
                  su_bank_last_four := None;
                  su_submission_status :=
                    Some (Some (if truthy_str (request_id e)
                                then SUBMITTED else FAILED_TO_SUBMIT));
                  su_submission_error_type := Some (err_type error_info);
                  su_submission_error_code := Some submission_error_code;
                  su_submitted_at := None |} ;;
           match updated_stripe_transfer with
           | None => raise (AssertionError "failed to update stripe_transfer")
           | Some updated =>
               if str_eq (st_submission_error_code updated)
                    (NO_EXT_ACCOUNT_IN_CURRENCY K) then
                 raise (payout_error STRIPE_PAYOUT_ACCT_MISSING stripe_error_message)
               else if str_eq (st_submission_error_code updated)
                         (PAYOUT_NOT_ALLOWED K) then
                 raise (payout_error STRIPE_PAYOUT_DISALLOWED stripe_error_message)
               else if str_eq (st_submission_error_type updated)
                         (INVALID_REQUEST_ERROR K) then
                 raise (payout_error STRIPE_INVALID_REQUEST_ERROR stripe_error_message)
               else
                 raise (payout_error STRIPE_SUBMISSION_ERROR stripe_error_message)
           end
           end).

(** The [try] block of [submit_stripe_transfer]: the submission record is
    created in state SUBMITTING, the payout is submitted, and the time of
    the submission is recorded on the transfer. *)
Definition submit_stripe_transfer_try (transfer_id : Z)
    (payment_account : PaymentAccount) (amount : Z) (statement_descriptor : string)
    (target_type target_id : option string) (submitted_by : option Z) : Op unit :=
  stripe_transfer <-
    create_stripe_transfer
      {| c_transfer_id := transfer_id;
         c_submission_status := Some SUBMITTING;
         c_stripe_status := "" |} ;;
  _submit_stripe_transfer stripe_transfer payment_account amount transfer_id
    statement_descriptor target_type target_id ;;;
  submitted_at <- utcnow ;;
  update_transfer_by_id transfer_id
    {| u_status := None; u_status_code := None; u_currency := None;
       u_method := None; u_submitted_at := Some (Some submitted_at);
       u_submitted_by_id := Some submitted_by;
       u_should_retry_on_failure := None |} ;;;
  ret tt.

Definition submit_stripe_transfer (transfer_id : Z)
    (payment_account : PaymentAccount) (amount : Z) (statement_descriptor : string)
    (target_type target_id : option string) (submitted_by : option Z) : Op unit :=
  update_transfer_by_id transfer_id TransferUpdate_clear ;;;
  try_except
    (submit_stripe_transfer_try transfer_id payment_account amount
       statement_descriptor target_type target_id submitted_by)
    (fun e =>
       match e with
       | PayoutError d =>
           retrieved_stripe_transfer <-
             get_latest_stripe_transfer_by_transfer_id transfer_id ;;
           (if existsb (PayoutErrorCode_eqb (error_code d))
                 (TRANSFER_ERROR_TYPE_TO_FAILED_STATUS K) then
              submitted_at <- utcnow ;;
              update_transfer_by_id transfer_id
                {| u_status := Some FAILED;
                   u_status_code :=
                     Some (Some (error_code_as_status_code (error_code d)));
                   u_currency := None; u_method := None;
                   u_submitted_at := Some (Some submitted_at);
                   u_submitted_by_id := Some submitted_by;
                   u_should_retry_on_failure := None |}
            else
              update_transfer_by_id transfer_id
                (TransferUpdate_status ERROR (Some ERROR_SUBMISSION))) ;;;
           raise e
       | _ =>
           retrieved_stripe_transfer <-
             get_latest_stripe_transfer_by_transfer_id transfer_id ;;
           update_transfer_by_id transfer_id
             (TransferUpdate_status ERROR (Some UNKNOWN_ERROR)) ;;;
           ret tt
       end).

(** [TransferUpdate(currency=currency)] where [currency] is the coroutine
    object of a call to [get_country_shortname] that is not awaited: the
    coroutine is not run, and the validation of the request model rejects a
    value that is not a string. *)
Definition TransferUpdate_currency_of_coroutine {A} (currency : Op A)
  : Op TransferUpdate :=
  raise ValidationError.

(** The body of [_execute] as a function of its local variable
    [transactions], the constituent transactions of the transfer. *)
Definition _execute_with (transactions : list TransactionDBEntity)
  : Op SubmitTransferResponse :=
  let transfer_id := req_transfer_id request in
  transfer <- get_transfer_by_id transfer_id ;;
  match transfer with
  | None => raise (payout_error TRANSFER_NOT_FOUND None)
  | Some transfer =>
  assert_ (truthy_int (t_payment_account_id transfer))
    "there must be a payment_account_id attached with retrieved transfer" ;;;
  payment_account <-
    match t_payment_account_id transfer with
    | Some payment_account_id => get_payment_account_by_id payment_account_id
    | None => ret None
    end ;;
  match payment_account with
  | None => raise (payout_error INVALID_PAYMENT_ACCOUNT_ID None)
  | Some payment_account =>
  match transactions with
  | _ :: _ =>
      let transaction_sum := fold_right Z.add 0 (map txn_amount transactions) in
      let diff := Z.abs (transaction_sum - t_amount transfer) in
      if negb (diff =? 0) then
        update_transfer_by_id transfer_id
          (TransferUpdate_status ERROR (Some ERROR_AMOUNT_MISMATCH)) ;;;
        raise (payout_error MISMATCHED_TRANSFER_AMOUNT None)
      else ret tt
  | [] =>
      update_transfer_by_id transfer_id
        (TransferUpdate_status ERROR (Some ERROR_INVALID_STATE)) ;;;
      raise (payout_error TRANSFER_INVALID_STATE None)
  end ;;;
  transfer <-
    (if negb (truthy_str (t_currency transfer)) then
       let currency := get_country_shortname payment_account in
       update_request <- TransferUpdate_currency_of_coroutine currency ;;
       update_transfer_by_id transfer_id update_request
     else ret (Some transfer)) ;;
  match transfer with
  | None => raise (AssertionError "transfer must be updated successfully")
  | Some transfer =>
  if truthy_obj (t_deleted_at transfer) then
    raise (payout_error TRANSFER_ALREADY_DELETED None)
  else
  (if negb (match req_retry request with Some b => b | None => false end) then
     let method :=
       if truthy_str (req_method request) then req_method request
       else t_method transfer in
     if truthy_obj (t_submitted_at transfer)
        || unawaited_is_true (get_latest_transfer_submission transfer_id method)
     then raise (payout_error DUPLICATE_TRANSFER None)
     else ret tt
   else
     if TransferStatusType_eqb (t_status transfer) ERROR
        && negb (pa_transfers_enabled payment_account)
     then raise (payout_error TRANSFER_DISABLED_ERROR None)
     else ret tt) ;;;
  assert_ (existsb (fun choice => str_eq (req_method request) (fst choice))
             (TRANSFER_METHOD_CHOICES K)) "" ;;;
  if (t_amount transfer =? 0)
     || str_eq (req_method request) (TransferMethodType_DOORDASH_PAY K)
     || str_eq (req_method request) (TransferMethodType_COD_INVOICE K)
  then
    handle_dummy_transfer transfer_id (req_method request) ;;;
    ret SubmitTransferResponse_
  else
    is_transfer_processing <-
      is_processing_or_processed_for_method transfer_id (req_method request) ;;
    if (is_transfer_processing : bool) then
      raise (payout_error TRANSFER_PROCESSING None)
    else
      (if str_eq (req_method request) (TransferMethodType_STRIPE K) then
         has_stripe_managed_account payment_account transfer_id ;;;
         managed_account_balance_check payment_account transfer_id
           (t_amount transfer)
       else ret tt) ;;;
      submit_stripe_transfer transfer_id payment_account (t_amount transfer)
        (req_statement_descriptor request) (req_target_type request)
        (req_target_id request) (req_submitted_by request) ;;;
      ret SubmitTransferResponse_
  end
  end
  end.

(** [_execute]: the retrieval of the constituent transactions is not wired
    in, the local variable is bound to the empty list. *)
Definition _execute : Op SubmitTransferResponse :=
  let transactions : list TransactionDBEntity := [] in
  _execute_with transactions.

End SubmitTransfer.

End Payout.

(* ===================================================================== *)
(** ** Payin: auxiliary definitions and sample data                      *)
(* ===================================================================== *)

Module PayinData.
Import Payin.

(** The condition of [update_payment_intent_status]. *)
Definition guarded_match (id : UUID) (previous_status : IntentStatus)
    (r : PaymentIntent) : bool :=
  (pi_id r =? id) && IntentStatus_eqb (pi_status r) previous_status.

(** The condition of the pgp-side statement of the combined update. *)
Definition pgp_match (payment_intent_id pgp_payment_intent_id : UUID)
    (r : PgpPaymentIntent) : bool :=
  (pgpi_id r =? pgp_payment_intent_id)
  && (pgpi_payment_intent_id r =? payment_intent_id).

(** The condition of the lookup of an adjustment. *)
Definition adjustment_match (payment_intent_id : UUID) (idempotency_key : string)
    (r : PaymentIntentAdjustmentHistory) : bool :=
  (adj_payment_intent_id r =? payment_intent_id)
  && (adj_idempotency_key r =? idempotency_key)%string.

Definition intent (id : UUID) (status : IntentStatus) (amount : Z) : PaymentIntent :=
  {| pi_id := id; pi_cart_payment_id := 900; pi_idempotency_key := "ik";
     pi_amount_initiated := amount; pi_amount := amount;
     pi_application_fee_amount := None; pi_capture_method := "manual";
     pi_country := "US"; pi_currency := "usd"; pi_status := status;
     pi_statement_descriptor := None; pi_payment_method_id := None;
     pi_legacy_consumer_charge_id := 0; pi_created_at := 10; pi_updated_at := 10;
     pi_captured_at := None; pi_cancelled_at := None; pi_capture_after := None |}.

Definition pgp_intent (id payment_intent_id : UUID) (status : IntentStatus)
  : PgpPaymentIntent :=
  {| pgpi_id := id; pgpi_payment_intent_id := payment_intent_id;
     pgpi_idempotency_key := "ik"; pgpi_pgp_code := "stripe";
     pgpi_resource_id := None; pgpi_status := status;
     pgpi_invoice_resource_id := None; pgpi_charge_resource_id := None;
     pgpi_payment_method_resource_id := "pm_1"; pgpi_customer_resource_id := None;
     pgpi_currency := "usd"; pgpi_amount := 500; pgpi_amount_capturable := None;
     pgpi_amount_received := None; pgpi_application_fee_amount := None;
     pgpi_capture_method := "manual"; pgpi_payout_account_id := None;
     pgpi_created_at := 10; pgpi_updated_at := 10; pgpi_captured_at := None;
     pgpi_cancelled_at := None |}.

Definition db_with (intents : list PaymentIntent) (pgps : list PgpPaymentIntent)
  : Database :=
  {| payment_intents := intents; pgp_payment_intents := pgps;
     payment_intents_adjustment_history := [] |}.

Definition first_adjustment : PaymentIntentAdjustmentHistory :=
  {| adj_id := 70; adj_payer_id := None; adj_payment_intent_id := 1;
     adj_amount := 550; adj_amount_original := 500; adj_amount_delta := 50;
     adj_currency := "usd"; adj_idempotency_key := "key-1"; adj_created_at := 20 |}.

Definition db_after_adjustment : Database :=
  {| payment_intents :=
       [pi_values None (Some 550) None 20 (intent 1 REQUIRES_CAPTURE 500)];
     pgp_payment_intents := [];
     payment_intents_adjustment_history := [first_adjustment] |}.

End PayinData.

(* ===================================================================== *)
(** ** Payout: auxiliary definitions and sample data                     *)
(* ===================================================================== *)

Module PayoutData.
Import Payout.

(** The rows a statement keyed on the transfer id selects. *)
Definition transfer_with_id (transfer_id : Z) (r : Transfer) : bool :=
  t_id r =? transfer_id.

(** What the gateway reports as the balance behind a payment account. *)
Definition linked_account (payment_account : PaymentAccount) (s : Store)
  : option StripeManagedAccount :=
  match pa_account_id payment_account with
  | Some account_id =>
      if truthy_int (pa_account_id payment_account)
      then find (fun r => sma_id r =? account_id) (stripe_managed_accounts s)
      else None
  | None => None
  end.

(** The rows the lookup of the managed account transfer of a transfer
    selects. *)
Definition managed_transfer_of (transfer_id : Z) (r : ManagedAccountTransfer)
  : bool :=
  mat_transfer_id r =? transfer_id.

(** A computation that leaves the table of the submission records as it
    found it, whatever it returns or raises. *)
Definition keeps_submissions {A} (c : Op A) : Prop :=
  forall s, stripe_transfers (snd (c s)) = stripe_transfers s.

(** The shortfall of a transfer of the given amount: the whole amount for
    a dasher, the amount less the balance at the gateway otherwise. *)
Definition shortfall (K : PayoutTypes) (stripe : StripeAsyncClient)
    (payment_account : PaymentAccount) (amount : Z) (s : Store) : Z :=
  if str_eq (pa_entity payment_account) (PayoutAccountTargetType_DASHER K)
  then amount
  else amount - account_balance stripe (linked_account payment_account s).

(** The code under which a gateway error is recorded: its own code, or
    the one recovered from its message when it has none. *)
Definition recorded_error_code (K : PayoutTypes) (error_info : StripeErrorBody)
  : option string :=
  if truthy_str (err_code error_info) then err_code error_info
  else Some (extract_failure_code_from_exception_message K
               (err_message error_info)).

(** Sample data: an interpreter for the examples, whose texts are ASCII.
    Its digits and its word characters are those of ASCII. *)
Definition is_digit (c : ascii) : bool :=
  let n := Z.of_nat (nat_of_ascii c) in (48 <=? n) && (n <=? 57).

Definition digit_value (c : ascii) : Z := Z.of_nat (nat_of_ascii c) - 48.

Definition is_word_char (c : ascii) : bool :=
  let n := Z.of_nat (nat_of_ascii c) in
  is_digit c || ((65 <=? n) && (n <=? 90)) || ((97 <=? n) && (n <=? 122)) || (n =? 95).

(** The ASCII characters its [int] skips at both ends of a string. *)
Definition is_space (c : ascii) : bool :=
  let n := Z.of_nat (nat_of_ascii c) in
  ((9 <=? n) && (n <=? 13)) || (n =? 32).

Fixpoint lstrip (cs : list ascii) : list ascii :=
  match cs with
  | c :: cs' => if is_space c then lstrip cs' else cs
  | [] => []
  end.

Definition strip (cs : list ascii) : list ascii := rev (lstrip (rev (lstrip cs))).

(** Decimal digits, single underscores allowed between two digits. *)
Fixpoint digits_value (cs : list ascii) (acc : Z) (after_digit : bool) : option Z :=
  match cs with
  | [] => if after_digit then Some acc else None
  | c :: cs' =>
      if is_digit c then digits_value cs' (10 * acc + digit_value c) true
      else if (nat_of_ascii c =? 95)%nat && after_digit then digits_value cs' acc false
      else None
  end.

(** Its [int(s)]: [None] is [ValueError]. *)
Definition ascii_int (s : string) : option Z :=
  match strip (list_ascii_of_string s) with
  | c :: cs =>
      if (nat_of_ascii c =? 45)%nat then option_map Z.opp (digits_value cs 0 false)
      else if (nat_of_ascii c =? 43)%nat then digits_value cs 0 false
      else digits_value (c :: cs) 0 false
  | [] => None
  end.

(** Its [re.fullmatch("\\w+", s)]. *)
Fixpoint all_word_chars (s : string) : bool :=
  match s with
  | EmptyString => true
  | String c s' => is_word_char c && all_word_chars s'
  end.

Definition ascii_fullmatch_word (s : string) : bool :=
  negb (s =? "")%string && all_word_chars s.

Definition K0 : PayoutTypes :=
  {| TransferMethodType_STRIPE := "stripe";
     TransferMethodType_DOORDASH_PAY := "doordash_pay";
     TransferMethodType_COD_INVOICE := "cod_invoice";
     PayoutMethodType_STRIPE := "stripe";
     TRANSFER_METHOD_CHOICES :=
       [("stripe", "Stripe"); ("doordash_pay", "DoorDash Pay");
        ("cod_invoice", "Cash on Delivery Invoice")];
     ACCOUNT_TYPE_STRIPE_MANAGED_ACCOUNT := "stripe_managed_account";
     PayoutAccountTargetType_DASHER := "dasher";
     NO_EXT_ACCOUNT_IN_CURRENCY := "no_external_account_in_currency";
     PAYOUT_NOT_ALLOWED := "payouts_not_allowed";
     INVALID_REQUEST_ERROR := "invalid_request_error";
     STRIPE_TRANSFER_FAILED_STATUS := "failed";
     ManagedAccountTransferStatus_PAID := "paid";
     UNKNOWN_ERROR_STR := "err";
     TRANSFER_ERROR_TYPE_TO_FAILED_STATUS :=
       [STRIPE_PAYOUT_ACCT_MISSING; STRIPE_PAYOUT_DISALLOWED];
     get_currency_code := fun c => if (c =? "US")%string then "usd" else "cad";
     is_CountryCode := fun c => truthy_str c;
     is_Currency := fun c => truthy_str c;
     ongoing_stripe_transfer :=
       fun r => negb (st_stripe_status r =? "failed")%string;
     py_int := ascii_int;
     re_fullmatch_word := ascii_fullmatch_word |}.

Definition payout_po_1 : Payout :=
  {| payout_id := "po_1"; payout_status := "pending"; bank_account := None |}.

(** A gateway that accepts every call. *)
Definition gateway_ok : StripeAsyncClient :=
  {| account_balance := fun _ => 0;
     create_transfer_result := fun _ _ _ _ => Returned "tr_1";
     create_payout_result := fun _ _ _ _ _ _ => Returned payout_po_1 |}.

Definition no_external_account_error : StripeErrorData :=
  {| json_body :=
       Some (ErrorDict
               {| err_message := Some "no external account";
                  err_code := Some "no_external_account_in_currency";
                  err_type := Some "invalid_request_error" |});
     request_id := Some "req_1" |}.

(** A gateway that rejects the payout: no external account in the
    currency. *)
Definition gateway_no_external_account : StripeAsyncClient :=
  {| account_balance := fun _ => 0;
     create_transfer_result := fun _ _ _ _ => Returned "tr_1";
     create_payout_result :=
       fun _ _ _ _ _ _ => Raised (StripeError no_external_account_error) |}.

(** A gateway error that did not come with a response: the connection to
    the gateway failed while the payout was created. *)
Definition connection_error : StripeErrorData :=
  {| json_body := None; request_id := None |}.

Definition gateway_connection_error : StripeAsyncClient :=
  {| account_balance := fun _ => 0;
     create_transfer_result := fun _ _ _ _ => Returned "tr_1";
     create_payout_result :=
       fun _ _ _ _ _ _ => Raised (StripeError connection_error) |}.

(** A gateway whose client fails outside the gateway's error protocol. *)
Definition gateway_timeout : StripeAsyncClient :=
  {| account_balance := fun _ => 0;
     create_transfer_result := fun _ _ _ _ => Returned "tr_1";
     create_payout_result := fun _ _ _ _ _ _ => Raised (GatewayException "timeout") |}.

Definition transfer_1 (amount : Z) (status : TransferStatusType)
    (submitted_at : option datetime) : Transfer :=
  {| t_id := 1; t_payment_account_id := Some 7; t_subtotal := amount;
     t_adjustments := ""; t_amount := amount; t_currency := Some "usd";
     t_method := Some "stripe"; t_status := status; t_status_code := None;
     t_submitted_at := submitted_at; t_submitted_by_id := None;
     t_deleted_at := None; t_should_retry_on_failure := None |}.

Definition account_7 (entity : string) (transfers_enabled : bool) : PaymentAccount :=
  {| pa_id := 7; pa_account_type := Some "stripe_managed_account";
     pa_account_id := Some 3; pa_entity := Some entity;
     pa_transfers_enabled := transfers_enabled |}.

Definition sma_3 : StripeManagedAccount :=
  {| sma_id := 3; sma_stripe_id := "acct_1"; sma_country_shortname := "US" |}.

Definition store_of (t : Transfer) (a : PaymentAccount)
    (mats : list ManagedAccountTransfer) : Store :=
  {| transfers := [t]; payment_accounts := [a]; stripe_managed_accounts := [sma_3];
     stripe_transfers := []; managed_account_transfers := mats;
     gateway_calls := []; clock := 100 |}.

(** A submission record in state SUBMITTING, and a store that holds it. *)
Definition submitting_row : StripeTransfer :=
  {| st_id := 1; st_transfer_id := 1; st_stripe_status := "";
     st_stripe_id := None; st_stripe_request_id := None;
     st_stripe_account_id := None; st_stripe_account_type := None;
     st_country_shortname := None; st_bank_name := None;
     st_bank_last_four := None; st_submission_status := Some SUBMITTING;
     st_submission_error_type := None; st_submission_error_code := None;
     st_submitted_at := None; st_created_at := 100 |}.

Definition store_submitting : Store :=
  set_stripe_transfers [submitting_row]
    (store_of (transfer_1 500 NEW None) (account_7 "merchant" true) []).

Definition request_1 (retry : bool) : SubmitTransferRequest :=
  {| req_transfer_id := 1; req_statement_descriptor := "payout";
     req_target_id := Some "12"; req_target_type := Some "store";
     req_method := Some "stripe"; req_retry := Some retry;
     req_submitted_by := None |}.

Definition transaction_of (amount : Z) : TransactionDBEntity :=
  {| txn_id := 1; txn_amount := amount |}.

Definition managed_transfer_1 (amount : Z) (payment_account_id : option Z)
  : ManagedAccountTransfer :=
  {| mat_id := 1; mat_amount := amount; mat_transfer_id := 1;
     mat_payment_account_id := payment_account_id; mat_currency := Some "usd";
     mat_stripe_id := None; mat_stripe_status := None; mat_submitted_at := None |}.

(** The store after a rejected submission: the transfer marked with the
    given status and status code. *)
Definition marked (status : TransferStatusType) (code : TransferStatusCodeType)
    (t : Transfer) : Transfer :=
  apply_TransferUpdate (TransferUpdate_status status (Some code)) t.

End PayoutData.

(* ===================================================================== *)
(** ** Payin: the queries and the updates of the intents                 *)
(* ===================================================================== *)

Module PayinQueries.
Import Payin.

(** [find_payment_intents_with_status]. *)
Definition find_payment_intents_with_status (status : IntentStatus)
  : Op (list PaymentIntent) :=
  fun db =>
    (Returned (sql_select (fun r => IntentStatus_eqb (pi_status r) status)
                 (payment_intents db)), db).

(** A comparison with a nullable column selects no row where the column
    is null. *)
Definition not_null_and {A} (p : A -> bool) (column : option A) : bool :=
  match column with Some v => p v | None => false end.

(** [count_payment_intents_that_require_capture]: [now] is the reading of
    the clock of the database. *)
Definition count_payment_intents_that_require_capture
    (problematic_threshold : Z) (now : datetime) : Op Z :=
  fun db =>
    (Returned
       (Z.of_nat
          (List.length
             (sql_select
                (fun r =>
                   negb (IntentStatus_eqb (pi_status r) SUCCEEDED
                         || IntentStatus_eqb (pi_status r) CANCELLED)
                   && not_null_and (fun c => c <=? now - problematic_threshold)
                        (pi_capture_after r))
                (payment_intents db)))), db).

(** [find_payment_intents_in_capturing]. *)
Definition find_payment_intents_in_capturing (older_than : datetime)
  : Op (list PaymentIntent) :=
  fun db =>
    (Returned (sql_select
                 (fun r => IntentStatus_eqb (pi_status r) CAPTURING
                           && (pi_updated_at r <=? older_than))
                 (payment_intents db)), db).

(** [get_payment_intent_for_idempotency_key]. *)
Definition get_payment_intent_for_idempotency_key (idempotency_key : string)
  : Op (option PaymentIntent) :=
  fun db =>
    (Returned (fetch_one
                 (sql_select (fun r => (pi_idempotency_key r =? idempotency_key)%string)
                    (payment_intents db))), db).

(** [get_payment_intents_for_cart_payment]. *)
Definition get_payment_intents_for_cart_payment (cart_payment_id : UUID)
  : Op (list PaymentIntent) :=
  fun db =>
    (Returned (sql_select (fun r => pi_cart_payment_id r =? cart_payment_id)
                 (payment_intents db)), db).

(** The [.values(...)] clause of [update_pgp_payment_intent]. *)
Definition pgp_details_values (status : IntentStatus)
    (resource_id charge_resource_id : string) (amount_capturable amount_received : Z)
    (updated_at : datetime) (r : PgpPaymentIntent) : PgpPaymentIntent :=
  {| pgpi_id := pgpi_id r;
     pgpi_payment_intent_id := pgpi_payment_intent_id r;
     pgpi_idempotency_key := pgpi_idempotency_key r;
     pgpi_pgp_code := pgpi_pgp_code r;
     pgpi_resource_id := Some resource_id;
     pgpi_status := status;
     pgpi_invoice_resource_id := pgpi_invoice_resource_id r;
     pgpi_charge_resource_id := Some charge_resource_id;
     pgpi_payment_method_resource_id := pgpi_payment_method_resource_id r;
     pgpi_customer_resource_id := pgpi_customer_resource_id r;
     pgpi_currency := pgpi_currency r;
     pgpi_amount := pgpi_amount r;
     pgpi_amount_capturable := Some amount_capturable;
     pgpi_amount_received := Some amount_received;
     pgpi_application_fee_amount := pgpi_application_fee_amount r;
     pgpi_capture_method := pgpi_capture_method r;
     pgpi_payout_account_id := pgpi_payout_account_id r;
     pgpi_created_at := pgpi_created_at r;
     pgpi_updated_at := updated_at;
     pgpi_captured_at := pgpi_captured_at r;
     pgpi_cancelled_at := pgpi_cancelled_at r |}.

(** The [.values(...)] clause of [update_pgp_payment_intent_amount]. *)
Definition pgp_amount_values (amount : Z) (updated_at : datetime)
    (r : PgpPaymentIntent) : PgpPaymentIntent :=
  {| pgpi_id := pgpi_id r;
     pgpi_payment_intent_id := pgpi_payment_intent_id r;
     pgpi_idempotency_key := pgpi_idempotency_key r;
     pgpi_pgp_code := pgpi_pgp_code r;
     pgpi_resource_id := pgpi_resource_id r;
     pgpi_status := pgpi_status r;
     pgpi_invoice_resource_id := pgpi_invoice_resource_id r;
     pgpi_charge_resource_id := pgpi_charge_resource_id r;
     pgpi_payment_method_resource_id := pgpi_payment_method_resource_id r;
     pgpi_customer_resource_id := pgpi_customer_resource_id r;
     pgpi_currency := pgpi_currency r;
     pgpi_amount := amount;
     pgpi_amount_capturable := pgpi_amount_capturable r;
     pgpi_amount_received := pgpi_amount_received r;
     pgpi_application_fee_amount := pgpi_application_fee_amount r;
     pgpi_capture_method := pgpi_capture_method r;
     pgpi_payout_account_id := pgpi_payout_account_id r;
     pgpi_created_at := pgpi_created_at r;
     pgpi_updated_at := updated_at;
     pgpi_captured_at := pgpi_captured_at r;
     pgpi_cancelled_at := pgpi_cancelled_at r |}.

(** [update_pgp_payment_intent], [update_pgp_payment_intent_status] and
    [update_pgp_payment_intent_amount]: keyed on the id alone; [now] is
    [datetime.now(timezone.utc)]. *)
Definition update_pgp_payment_intent (id : UUID) (status : IntentStatus)
    (resource_id charge_resource_id : string) (amount_capturable amount_received : Z)
    (now : datetime) : Op PgpPaymentIntent :=
  row <- execute_update_pgp_payment_intents
           (fun r => pgpi_id r =? id)
           (pgp_details_values status resource_id charge_resource_id
              amount_capturable amount_received now) ;;
  to_pgp_payment_intent row.

Definition update_pgp_payment_intent_status (id : UUID) (status : IntentStatus)
    (now : datetime) : Op PgpPaymentIntent :=
  row <- execute_update_pgp_payment_intents
           (fun r => pgpi_id r =? id) (pgp_values status now) ;;
  to_pgp_payment_intent row.

Definition update_pgp_payment_intent_amount (id : UUID) (amount : Z)
    (now : datetime) : Op PgpPaymentIntent :=
  row <- execute_update_pgp_payment_intents
           (fun r => pgpi_id r =? id) (pgp_amount_values amount now) ;;
  to_pgp_payment_intent row.

(** The rows of [payment_intents JOIN pgp_payment_intents ON
    payment_intents.id = pgp_payment_intents.payment_intent_id], in the
    order of the two tables. *)
Definition join_intents (db : Database) : list (PaymentIntent * PgpPaymentIntent) :=
  flat_map
    (fun i =>
       map (fun g => (i, g))
         (filter (fun g => pi_id i =? pgpi_payment_intent_id g)
            (pgp_payment_intents db)))
    (payment_intents db).

(** [get_intent_pair_by_provider_charge_id]: the first row of the join
    whose provider charge is the given one, as a pair of domain objects, or
    the pair [(None, None)]. *)
Definition get_intent_pair_by_provider_charge_id (provider_charge_id : string)
  : Op (option PaymentIntent * option PgpPaymentIntent) :=
  fun db =>
    let row :=
      fetch_one
        (sql_select
           (fun row =>
              not_null_and (fun c => (c =? provider_charge_id)%string)
                (pgpi_charge_resource_id (snd row)))
           (join_intents db)) in
    match row with
    | None => (Returned (None, None), db)
    | Some (row_intent, row_pgp_intent) =>
        (i <- to_payment_intent (Some row_intent) ;;
         g <- to_pgp_payment_intent (Some row_pgp_intent) ;;
         ret (Some i, Some g)) db
    end.

(** The condition of [count_payment_intents_that_require_capture]. *)
Definition counted (problematic_threshold : Z) (now : datetime)
    (r : PaymentIntent) : bool :=
  negb (IntentStatus_eqb (pi_status r) SUCCEEDED
        || IntentStatus_eqb (pi_status r) CANCELLED)
  && not_null_and (fun c => c <=? now - problematic_threshold) (pi_capture_after r).

(** An intent that is due for capture at [capture_after]. *)
Definition intent_due (id : UUID) (status : IntentStatus)
    (capture_after : option datetime) : PaymentIntent :=
  {| pi_id := id; pi_cart_payment_id := 900; pi_idempotency_key := "ik";
     pi_amount_initiated := 500; pi_amount := 500;
     pi_application_fee_amount := None; pi_capture_method := "manual";
     pi_country := "US"; pi_currency := "usd"; pi_status := status;
     pi_statement_descriptor := None; pi_payment_method_id := None;
     pi_legacy_consumer_charge_id := 0; pi_created_at := 10; pi_updated_at := 10;
     pi_captured_at := None; pi_cancelled_at := None;
     pi_capture_after := capture_after |}.

End PayinQueries.

(* ===================================================================== *)
(** ** Payout: further auxiliary definitions                             *)
(* ===================================================================== *)

Module PayoutMoreData.
Import Payout PayoutData.

(** The gateway calls that move money. *)
Definition is_CreatePayout (c : GatewayCall) : bool :=
  match c with CreatePayout _ _ _ _ _ _ => true | _ => false end.

Definition is_CreateTransfer (c : GatewayCall) : bool :=
  match c with CreateTransfer _ _ _ _ => true | _ => false end.

(** The rows of a table with the given submission record key. *)
Definition submission_with_id (id : Z) (r : StripeTransfer) : bool := st_id r =? id.

(** The first value stored under a key of the metadata dictionary. *)
Fixpoint metadata_get (key : string) (metadata : list (string * MetaValue))
  : option MetaValue :=
  match metadata with
  | [] => None
  | (k, v) :: rest => if (k =? key)%string then Some v else metadata_get key rest
  end.

(** The sentence of the gateway that the message pattern looks for. *)
Definition no_external_account_sentence : string :=
  "Sorry, you don't have any external accounts in that currency (".

(** The transfer and its payment account are found, and the constituent
    transactions are there and add up to the amount of the transfer. *)
Definition reconciled (request : SubmitTransferRequest)
    (transactions : list TransactionDBEntity) (s : Store) (transfer : Transfer)
    (payment_account : PaymentAccount) : Prop :=
  get_transfer_by_id (req_transfer_id request) s = (Returned (Some transfer), s)
  /\ (exists payment_account_id,
        t_payment_account_id transfer = Some payment_account_id
        /\ payment_account_id <> 0
        /\ get_payment_account_by_id payment_account_id s
           = (Returned (Some payment_account), s))
  /\ transactions <> []
  /\ fold_right Z.add 0 (map txn_amount transactions) = t_amount transfer.

(** The first steps of [_execute_with] pass: the transfer and its payment
    account are found, the constituent transactions add up to the amount of
    the transfer, and the currency of the transfer is set. *)
Definition validated (request : SubmitTransferRequest)
    (transactions : list TransactionDBEntity) (s : Store) (transfer : Transfer)
    (payment_account : PaymentAccount) : Prop :=
  get_transfer_by_id (req_transfer_id request) s = (Returned (Some transfer), s)
  /\ (exists payment_account_id,
        t_payment_account_id transfer = Some payment_account_id
        /\ payment_account_id <> 0
        /\ get_payment_account_by_id payment_account_id s
           = (Returned (Some payment_account), s))
  /\ transactions <> []
  /\ fold_right Z.add 0 (map txn_amount transactions) = t_amount transfer
  /\ truthy_str (t_currency transfer) = true.

(** The guards of a retry pass: the transfer is not deleted, the request is
    a retry, the transfer is not an errored one on an account with transfers
    disabled, and the method of the request is a transfer method. *)
Definition retry_allowed (K : PayoutTypes) (request : SubmitTransferRequest)
    (transfer : Transfer) (payment_account : PaymentAccount) : Prop :=
  t_deleted_at transfer = None
  /\ req_retry request = Some true
  /\ (t_status transfer = ERROR -> pa_transfers_enabled payment_account = true)
  /\ existsb (fun choice => str_eq (req_method request) (fst choice))
       (TRANSFER_METHOD_CHOICES K) = true.

(** The request takes the path of a dummy transfer: the amount is zero or
    the method is one that does not go through the gateway. *)
Definition is_dummy_transfer (K : PayoutTypes) (request : SubmitTransferRequest)
    (transfer : Transfer) : bool :=
  (t_amount transfer =? 0)
  || str_eq (req_method request) (TransferMethodType_DOORDASH_PAY K)
  || str_eq (req_method request) (TransferMethodType_COD_INVOICE K).

(** Sample data: a deleted transfer, and a request with a given method. *)
Definition transfer_deleted (amount : Z) (deleted_at : datetime) : Transfer :=
  {| t_id := 1; t_payment_account_id := Some 7; t_subtotal := amount;
     t_adjustments := ""; t_amount := amount; t_currency := Some "usd";
     t_method := Some "stripe"; t_status := NEW; t_status_code := None;
     t_submitted_at := None; t_submitted_by_id := None;
     t_deleted_at := Some deleted_at; t_should_retry_on_failure := None |}.

Definition request_with_method (method : string) (target_id : option string)
  : SubmitTransferRequest :=
  {| req_transfer_id := 1; req_statement_descriptor := "payout";
     req_target_id := target_id; req_target_type := Some "store";
     req_method := Some method; req_retry := Some true;
     req_submitted_by := Some 42 |}.

(** A submission record of the transfer that is still going on. *)
Definition ongoing_for (K : PayoutTypes) (transfer_id : Z) (r : StripeTransfer)
  : bool :=
  (st_transfer_id r =? transfer_id) && ongoing_stripe_transfer K r.

(** Sample data: a store in which the transfer has a submission record. *)
Definition store_with_submission (t : Transfer) (a : PaymentAccount) : Store :=
  set_stripe_transfers [submitting_row] (store_of t a []).

(** Sample data: a payment account that links to no gateway sub-account. *)
Definition account_unlinked : PaymentAccount :=
  {| pa_id := 7; pa_account_type := Some "stripe_managed_account";
     pa_account_id := None; pa_entity := Some "merchant";
     pa_transfers_enabled := true |}.

(** The gateway calls of a submission come in stages: the balance query,
    the transfer of funds to the sub-account, the payout. *)
Definition stage (c : GatewayCall) : nat :=
  match c with
  | RetrieveBalance _ => 1
  | CreateTransfer _ _ _ _ => 2
  | CreatePayout _ _ _ _ _ _ => 3
  end%nat.

(** The calls of a list are of strictly increasing stages above [n]: each
    stage occurs at most once, and in the order of the stages. *)
Fixpoint ordered_from (n : nat) (calls : list GatewayCall) : bool :=
  match calls with
  | [] => true
  | c :: rest => (n <? stage c)%nat && ordered_from (stage c) rest
  end.

Definition ordered_calls (calls : list GatewayCall) : bool := ordered_from 0 calls.

(** A list of calls of increasing stages, all above [lo] and up to [hi]. *)
Definition staged (lo hi : nat) (calls : list GatewayCall) : Prop :=
  ordered_from lo calls = true
  /\ Forall (fun c => (stage c <= hi)%nat) calls
  /\ (lo <= hi)%nat.

(** A computation that does not call the gateway. *)
Definition no_calls {A} (c : Op A) : Prop :=
  forall s, gateway_calls (snd (c s)) = gateway_calls s.

(** Whether the gateway carried out a call: a balance is always answered,
    a transfer or a payout is created or refused. *)
Definition call_succeeded (stripe : StripeAsyncClient) (c : GatewayCall) : bool :=
  match c with
  | RetrieveBalance _ => true
  | CreateTransfer amount currency destination country =>
      match create_transfer_result stripe amount currency destination country with
      | Returned _ => true
      | Raised _ => false
      end
  | CreatePayout amount currency country stripe_account statement_descriptor
      metadata =>
      match create_payout_result stripe amount currency country stripe_account
              statement_descriptor metadata with
      | Returned _ => true
      | Raised _ => false
      end
  end.

Definition returned {E A} (o : outcome E A) : bool :=
  match o with
  | Returned _ => true
  | Raised _ => false
  end.

(** A computation whose calls to the gateway, added to the log in the
    order they are made, are of increasing stages above [lo] and up to
    [hi], and which makes a call only after the gateway carried out the
    ones before. A [strict] computation moreover returns only when the
    gateway carried out every call. *)
Definition calls_between {A} (stripe : StripeAsyncClient) (strict : bool)
    (lo hi : nat) (c : Op A) : Prop :=
  forall s, exists calls,
    gateway_calls (snd (c s)) = (gateway_calls s ++ calls)%list
    /\ staged lo hi calls
    /\ forallb (call_succeeded stripe) (removelast calls) = true
    /\ (strict = true -> returned (fst (c s)) = true ->
        forallb (call_succeeded stripe) calls = true).

(** A computation that takes every store to one related to it by [R],
    whatever it returns or raises. *)
Definition preserves (R : Store -> Store -> Prop) {A} (c : Op A) : Prop :=
  forall s, R s (snd (c s)).

(** What a submission of the transfer [transfer_id] may do to a row of
    the transfers: nothing to a row of another transfer, and nothing to
    the columns that say what is to be paid to whom. *)
Definition same_transfer (transfer_id : Z) (r r' : Transfer) : Prop :=
  t_id r' = t_id r
  /\ t_payment_account_id r' = t_payment_account_id r
  /\ t_subtotal r' = t_subtotal r
  /\ t_adjustments r' = t_adjustments r
  /\ t_amount r' = t_amount r
  /\ t_currency r' = t_currency r
  /\ t_deleted_at r' = t_deleted_at r
  /\ (t_id r <> transfer_id -> r' = r).

Definition only_transfer (transfer_id : Z) (s s' : Store) : Prop :=
  payment_accounts s' = payment_accounts s
  /\ stripe_managed_accounts s' = stripe_managed_accounts s
  /\ Forall2 (same_transfer transfer_id) (transfers s) (transfers s').

(** What the submission that is recorded under the key [id] may do to a
    submission record: nothing to a record of another key, and nothing to
    the key, the transfer and the time of creation of its own. *)
Definition same_submission (id : Z) (r r' : StripeTransfer) : Prop :=
  st_id r' = st_id r
  /\ st_transfer_id r' = st_transfer_id r
  /\ st_created_at r' = st_created_at r
  /\ (st_id r <> id -> r' = r).

Definition only_submission (id : Z) (s s' : Store) : Prop :=
  Forall2 (same_submission id) (stripe_transfers s) (stripe_transfers s').

End PayoutMoreData.

(* ===================================================================== *)
(** ** Properties of the SQL statements                                  *)
(* ===================================================================== *)

Section Statements.

Context {R : Type}.
Variable p : R -> bool.
Variable f : R -> R.

Lemma sql_update_length (t : list R) :
  List.length (sql_update p f t) = List.length t.
Proof. apply length_map. Qed.

Lemma sql_returning_none (t : list R) :
  (forall r, In r t -> p r = false) -> sql_returning p f t = [].
Proof.
  unfold sql_returning. induction t as [|r t IH]; intros H; simpl; [reflexivity|].
  rewrite (H r (or_introl eq_refl)). apply IH. intros r' Hr'. apply H. now right.
Qed.

Lemma sql_update_none (t : list R) :
  (forall r, In r t -> p r = false) -> sql_update p f t = t.
Proof.
  unfold sql_update. induction t as [|r t IH]; intros H; simpl; [reflexivity|].
  rewrite (H r (or_introl eq_refl)). f_equal. apply IH.
  intros r' Hr'. apply H. now right.
Qed.

Lemma fetch_one_returning (t : list R) :
  fetch_one (sql_returning p f t) = option_map f (find p t).
Proof.
  unfold fetch_one, sql_returning. induction t as [|r t IH]; simpl; [reflexivity|].
  destruct (p r); simpl; [reflexivity | exact IH].
Qed.

Lemma fetch_one_select (t : list R) :
  fetch_one (sql_select p t) = find p t.
Proof.
  unfold fetch_one, sql_select. induction t as [|r t IH]; simpl; [reflexivity|].
  destruct (p r); simpl; [reflexivity | exact IH].
Qed.

Lemma find_none_all (t : list R) :
  find p t = None -> forall r, In r t -> p r = false.
Proof. intros H r Hr. exact (find_none p t H r Hr). Qed.

Lemma all_false_find_none (t : list R) :
  (forall r, In r t -> p r = false) -> find p t = None.
Proof.
  induction t as [|r t IH]; intros H; simpl; [reflexivity|].
  rewrite (H r (or_introl eq_refl)). apply IH. intros r' Hr'. apply H. now right.
Qed.

(** An update rewrites the rows that satisfy the condition and keeps the
    others, position by position. *)
Lemma sql_update_rows (t : list R) :
  Forall2 (fun r r' => (p r = true /\ r' = f r) \/ (p r = false /\ r' = r))
    t (sql_update p f t).
Proof.
  unfold sql_update. induction t as [|r t IH]; simpl; constructor; [|exact IH].
  destruct (p r); [left | right]; split; reflexivity.
Qed.

Lemma in_sql_update (t : list R) (r' : R) :
  In r' (sql_update p f t) ->
  exists r, In r t /\ ((p r = true /\ r' = f r) \/ (p r = false /\ r' = r)).
Proof.
  unfold sql_update. intros H. apply in_map_iff in H. destruct H as [r [E Hr]].
  exists r. split; [exact Hr|]. destruct (p r); [left | right]; split; congruence.
Qed.

End Statements.

Section Lookups.

Context {R : Type}.
Variable q : R -> bool.

(** Looking a row up after it was appended to a table without a match. *)
Lemma find_app_none (l : list R) (x : R) :
  find q l = None -> find q (l ++ [x]) = if q x then Some x else None.
Proof.
  induction l as [|a l IH]; simpl; intros H; [reflexivity|].
  destruct (q a); [discriminate | now apply IH].
Qed.

(** Looking a row up after an update that does not touch the columns of
    the lookup: the same row is found, rewritten if the update selects it. *)
Lemma find_sql_update (p : R -> bool) (f : R -> R) (t : list R) :
  (forall r, q (f r) = q r) ->
  find q (sql_update p f t)
  = option_map (fun r => if p r then f r else r) (find q t).
Proof.
  intros Hq. unfold sql_update. induction t as [|r t IH]; simpl; [reflexivity|].
  destruct (p r) eqn:Hp; [rewrite Hq|]; destruct (q r); simpl;
    try rewrite Hp; auto.
Qed.

End Lookups.

(* ===================================================================== *)
(** ** Payin: status-guarded updates, the combined update, adjustments   *)
(* ===================================================================== *)

Module PayinSpec.
Import Payin PayinData.

Lemma IntentStatus_eqb_eq (a b : IntentStatus) :
  IntentStatus_eqb a b = true <-> a = b.
Proof. destruct a, b; simpl; split; intros H; try reflexivity; discriminate. Qed.

Lemma IntentStatus_eqb_refl (a : IntentStatus) : IntentStatus_eqb a a = true.
Proof. now apply IntentStatus_eqb_eq. Qed.

Lemma guarded_match_true id previous_status r :
  guarded_match id previous_status r = true <->
  pi_id r = id /\ pi_status r = previous_status.
Proof.
  unfold guarded_match. rewrite andb_true_iff, Z.eqb_eq, IntentStatus_eqb_eq.
  reflexivity.
Qed.

Lemma guarded_match_false id previous_status r :
  guarded_match id previous_status r = false <->
  ~ (pi_id r = id /\ pi_status r = previous_status).
Proof.
  rewrite <- guarded_match_true.
  destruct (guarded_match id previous_status r); split; intros H;
    try reflexivity; try discriminate; try (intros H'; discriminate).
  exfalso. now apply H.
Qed.

Lemma update_payment_intent_status_unfold id new_status previous_status now db :
  update_payment_intent_status id new_status previous_status now db =
  match find (guarded_match id previous_status) (payment_intents db) with
  | Some r =>
      (Returned (pi_values (Some new_status) None None now r),
       set_payment_intents
         (sql_update (guarded_match id previous_status)
            (pi_values (Some new_status) None None now) (payment_intents db)) db)
  | None =>
      (Raised PaymentIntentCouldNotBeUpdatedError,
       set_payment_intents
         (sql_update (guarded_match id previous_status)
            (pi_values (Some new_status) None None now) (payment_intents db)) db)
  end.
Proof.
  unfold update_payment_intent_status, bind, execute_update_payment_intents.
  fold (guarded_match id previous_status).
  rewrite fetch_one_returning.
  destruct (find (guarded_match id previous_status) (payment_intents db));
    reflexivity.
Qed.

Lemma set_payment_intents_same db : set_payment_intents (payment_intents db) db = db.
Proof. destruct db; reflexivity. Qed.

Lemma set_pgp_payment_intents_same db :
  set_pgp_payment_intents (pgp_payment_intents db) db = db.
Proof. destruct db; reflexivity. Qed.

(** C4 (as amended). [update_payment_intent_status] rewrites a row only
    where the id matches and the current status of the row equals the
    previous status the caller supplies; every other row and every other
    table is kept. When no row qualifies the call raises
    [PaymentIntentCouldNotBeUpdatedError] and the database is unchanged;
    otherwise it returns the first rewritten row, which carries the new
    status. *)
Theorem update_payment_intent_status_guarded
    (id : UUID) (new_status previous_status : IntentStatus) (now : datetime)
    (db : Database) :
  let res := fst (update_payment_intent_status id new_status previous_status now db) in
  let db' := snd (update_payment_intent_status id new_status previous_status now db) in
  Forall2
    (fun r r' =>
       (pi_id r = id /\ pi_status r = previous_status /\
        r' = pi_values (Some new_status) None None now r /\
        pi_status r' = new_status)
       \/ (~ (pi_id r = id /\ pi_status r = previous_status) /\ r' = r))
    (payment_intents db) (payment_intents db')
  /\ pgp_payment_intents db' = pgp_payment_intents db
  /\ payment_intents_adjustment_history db' = payment_intents_adjustment_history db
  /\ ((forall r, In r (payment_intents db) ->
         ~ (pi_id r = id /\ pi_status r = previous_status)) ->
      res = Raised PaymentIntentCouldNotBeUpdatedError /\ db' = db)
  /\ (res = Raised PaymentIntentCouldNotBeUpdatedError -> db' = db)
  /\ ((exists r, In r (payment_intents db) /\
                 pi_id r = id /\ pi_status r = previous_status) ->
      exists r, In r (payment_intents db) /\
                pi_id r = id /\ pi_status r = previous_status /\
                res = Returned (pi_values (Some new_status) None None now r)).
Proof.
  intros res db'. subst res db'.
  rewrite update_payment_intent_status_unfold.
  set (p := guarded_match id previous_status).
  set (f := pi_values (Some new_status) None None now).
  assert (Hrows :
    Forall2
      (fun r r' =>
         (pi_id r = id /\ pi_status r = previous_status /\ r' = f r /\
          pi_status r' = new_status)
         \/ (~ (pi_id r = id /\ pi_status r = previous_status) /\ r' = r))
      (payment_intents db) (sql_update p f (payment_intents db))).
  { eapply Forall2_impl; [|apply sql_update_rows].
    intros r r' [[Hp E]|[Hp E]].
    - left. apply guarded_match_true in Hp. destruct Hp as [H1 H2].
      subst r'. repeat split; assumption.
    - right. apply guarded_match_false in Hp. split; assumption. }
  assert (Hnone : find p (payment_intents db) = None ->
                  set_payment_intents (sql_update p f (payment_intents db)) db = db).
  { intros Hf. rewrite sql_update_none; [apply set_payment_intents_same|].
    apply find_none_all. exact Hf. }
  destruct (find p (payment_intents db)) as [r0|] eqn:Hfind; simpl.
  - split; [exact Hrows|]. split; [reflexivity|]. split; [reflexivity|].
    split; [|split].
    + intros Hall. exfalso. apply find_some in Hfind. destruct Hfind as [Hin Hp].
      apply guarded_match_true in Hp. exact (Hall r0 Hin Hp).
    + intros H. discriminate.
    + intros _. exists r0. apply find_some in Hfind. destruct Hfind as [Hin Hp].
      apply guarded_match_true in Hp. destruct Hp. repeat split; assumption.
  - split; [exact Hrows|]. split; [reflexivity|]. split; [reflexivity|].
    split; [|split].
    + intros _. split; [reflexivity | now apply Hnone].
    + intros _. now apply Hnone.
    + intros [r [Hin Hp]]. exfalso.
      apply (proj2 (guarded_match_true id previous_status r)) in Hp.
      pose proof (find_none_all p _ Hfind r Hin) as Hf. unfold p in Hf. congruence.
Qed.


(** C4, counterexample. [update_payment_intent_capture_state] is a
    status-changing update that takes no expected previous status: it
    rewrites a cancelled intent to SUCCEEDED, and when it affects no row it
    raises [TypeError], not [PaymentIntentCouldNotBeUpdatedError]. *)
Lemma update_payment_intent_capture_state_not_guarded :
  update_payment_intent_capture_state 1 SUCCEEDED 50 60
    (db_with [intent 1 CANCELLED 500] [])
  = (Returned (pi_values (Some SUCCEEDED) None (Some 50) 60 (intent 1 CANCELLED 500)),
     db_with [pi_values (Some SUCCEEDED) None (Some 50) 60 (intent 1 CANCELLED 500)] [])
  /\ pi_status (pi_values (Some SUCCEEDED) None (Some 50) 60 (intent 1 CANCELLED 500))
     = SUCCEEDED
  /\ update_payment_intent_capture_state 2 SUCCEEDED 50 60
       (db_with [intent 1 CANCELLED 500] [])
     = (Raised TypeError, db_with [intent 1 CANCELLED 500] [])
  /\ @Raised Exn PaymentIntent TypeError <> Raised PaymentIntentCouldNotBeUpdatedError.
Proof.
  split; [reflexivity|]. split; [reflexivity|]. split; [reflexivity|].
  intros H. discriminate H.
Qed.

Lemma pgp_match_true pid gid r :
  pgp_match pid gid r = true <-> pgpi_id r = gid /\ pgpi_payment_intent_id r = pid.
Proof. unfold pgp_match. rewrite andb_true_iff, !Z.eqb_eq. reflexivity. Qed.

Lemma update_payment_and_pgp_payment_intent_status_unfold new_status pid gid now db :
  update_payment_and_pgp_payment_intent_status new_status pid gid now db =
  match find (pgp_match pid gid) (pgp_payment_intents db) with
  | None => (Returned None, db)
  | Some g =>
      match find (fun r => pi_id r =? pid) (payment_intents db) with
      | None => (Raised (ValueError "not found" pid), db)
      | Some i =>
          (Returned (Some (pi_values (Some new_status) None None now i,
                           pgp_values new_status now g)),
           set_payment_intents
             (sql_update (fun r => pi_id r =? pid)
                (pi_values (Some new_status) None None now) (payment_intents db))
             (set_pgp_payment_intents
                (sql_update (pgp_match pid gid) (pgp_values new_status now)
                   (pgp_payment_intents db)) db))
      end
  end.
Proof.
  unfold update_payment_and_pgp_payment_intent_status, bind,
    payment_database_transaction, execute_update_pgp_payment_intents,
    execute_update_payment_intents.
  fold (pgp_match pid gid).
  rewrite fetch_one_returning.
  destruct (find (pgp_match pid gid) (pgp_payment_intents db)) as [g|] eqn:Hg; simpl.
  - rewrite fetch_one_returning.
    destruct (find (fun r => pi_id r =? pid) (payment_intents db)) as [i|];
      reflexivity.
  - rewrite sql_update_none by (apply find_none_all; exact Hg).
    rewrite set_pgp_payment_intents_same. reflexivity.
Qed.

(** C5. The combined status update runs in one transactional scope and
    updates the pgp-side row first. When no PgpPaymentIntent row has the
    given id and payment intent id, it returns [None] and the database is
    unchanged, whether or not the PaymentIntent exists. When the pgp-side
    update affects a row and the PaymentIntent update affects none, it
    raises and the database is unchanged, the pgp-side update being rolled
    back. Otherwise it returns the pair, both carrying the new status, and
    afterwards every PaymentIntent row with that id and every matching
    PgpPaymentIntent row carries the new status. In every case the database
    is either untouched or both sides are updated. *)
Theorem update_payment_and_pgp_payment_intent_status_atomic
    (new_status : IntentStatus) (payment_intent_id pgp_payment_intent_id : UUID)
    (now : datetime) (db : Database) :
  let res := fst (update_payment_and_pgp_payment_intent_status new_status
                    payment_intent_id pgp_payment_intent_id now db) in
  let db' := snd (update_payment_and_pgp_payment_intent_status new_status
                    payment_intent_id pgp_payment_intent_id now db) in
  let pgp_found :=
    exists g, In g (pgp_payment_intents db) /\ pgpi_id g = pgp_payment_intent_id
              /\ pgpi_payment_intent_id g = payment_intent_id in
  let intent_found :=
    exists i, In i (payment_intents db) /\ pi_id i = payment_intent_id in
  (~ pgp_found -> res = Returned None /\ db' = db)
  /\ (pgp_found -> ~ intent_found ->
      res = Raised (ValueError "not found" payment_intent_id) /\ db' = db)
  /\ (pgp_found -> intent_found ->
      (exists i g, res = Returned (Some (i, g))
                   /\ pi_id i = payment_intent_id /\ pi_status i = new_status
                   /\ pgpi_id g = pgp_payment_intent_id
                   /\ pgpi_payment_intent_id g = payment_intent_id
                   /\ pgpi_status g = new_status)
      /\ (forall i, In i (payment_intents db') -> pi_id i = payment_intent_id ->
                    pi_status i = new_status)
      /\ (forall g, In g (pgp_payment_intents db') ->
                    pgpi_id g = pgp_payment_intent_id ->
                    pgpi_payment_intent_id g = payment_intent_id ->
                    pgpi_status g = new_status))
  /\ (db' = db \/
      (exists i g, res = Returned (Some (i, g))
                   /\ pi_status i = new_status /\ pgpi_status g = new_status)).
Proof.
  intros res db' pgp_found intent_found. subst res db'.
  rewrite update_payment_and_pgp_payment_intent_status_unfold.
  destruct (find (pgp_match payment_intent_id pgp_payment_intent_id)
              (pgp_payment_intents db)) as [g|] eqn:Hg.
  - assert (Hpf : pgp_found).
    { apply find_some in Hg. destruct Hg as [Hin Hm].
      apply pgp_match_true in Hm. exists g. tauto. }
    destruct (find (fun r => pi_id r =? payment_intent_id) (payment_intents db))
      as [i|] eqn:Hi.
    + assert (Hif : intent_found).
      { apply find_some in Hi. destruct Hi as [Hin Hm]. apply Z.eqb_eq in Hm.
        exists i. tauto. }
      assert (Hpair :
        exists i0 g0,
          @Returned Exn _
            (Some (pi_values (Some new_status) None None now i,
                   pgp_values new_status now g)) = Returned (Some (i0, g0))
          /\ pi_id i0 = payment_intent_id /\ pi_status i0 = new_status
          /\ pgpi_id g0 = pgp_payment_intent_id
          /\ pgpi_payment_intent_id g0 = payment_intent_id
          /\ pgpi_status g0 = new_status).
      { apply find_some in Hi. destruct Hi as [_ Hm]. apply Z.eqb_eq in Hm.
        apply find_some in Hg. destruct Hg as [_ Hm'].
        apply pgp_match_true in Hm'. destruct Hm'.
        eexists. eexists. split; [reflexivity|]. simpl. tauto. }
      simpl. split; [tauto|]. split; [tauto|]. split.
      * intros _ _. split; [exact Hpair|]. split.
        -- intros i' Hin Hid. apply in_sql_update in Hin.
           destruct Hin as [r [_ [[_ E]|[Hp E]]]]; subst i'; [reflexivity|].
           apply Z.eqb_neq in Hp. contradiction.
        -- intros g' Hin H1 H2. apply in_sql_update in Hin.
           destruct Hin as [r [_ [[_ E]|[Hp E]]]]; subst g'; [reflexivity|].
           assert (pgp_match payment_intent_id pgp_payment_intent_id r = true)
             by (apply pgp_match_true; tauto).
           congruence.
      * right. destruct Hpair as [i0 [g0 Hp]]. exists i0, g0. tauto.
    + simpl. split; [tauto|]. split.
      * intros _ _. split; reflexivity.
      * split; [|now left]. intros _ [i [Hin Hid]]. exfalso.
        pose proof (find_none_all _ _ Hi i Hin) as Hf. simpl in Hf.
        apply Z.eqb_neq in Hf. contradiction.
  - simpl. split; [intros _; split; reflexivity|].
    assert (Hnf : ~ pgp_found).
    { intros [g [Hin [H1 H2]]].
      pose proof (find_none_all _ _ Hg g Hin) as Hf.
      assert (pgp_match payment_intent_id pgp_payment_intent_id g = true)
        by (apply pgp_match_true; tauto).
      congruence. }
    split; [tauto|]. split; [tauto|]. now left.
Qed.


(** The three outcomes of the combined update on an intent 1 with its
    gateway-side intent 2: both rows updated; no gateway-side row, nothing
    written; a gateway-side row whose intent is missing, the update rolled
    back. *)
Example combined_update_both :
  update_payment_and_pgp_payment_intent_status SUCCEEDED 1 2 60
    (db_with [intent 1 CAPTURING 500] [pgp_intent 2 1 CAPTURING])
  = (Returned (Some (pi_values (Some SUCCEEDED) None None 60 (intent 1 CAPTURING 500),
                     pgp_values SUCCEEDED 60 (pgp_intent 2 1 CAPTURING))),
     db_with [pi_values (Some SUCCEEDED) None None 60 (intent 1 CAPTURING 500)]
       [pgp_values SUCCEEDED 60 (pgp_intent 2 1 CAPTURING)]).
Proof. reflexivity. Qed.

Example combined_update_no_pgp_row :
  update_payment_and_pgp_payment_intent_status SUCCEEDED 1 3 60
    (db_with [intent 1 CAPTURING 500] [pgp_intent 2 1 CAPTURING])
  = (Returned None, db_with [intent 1 CAPTURING 500] [pgp_intent 2 1 CAPTURING]).
Proof. reflexivity. Qed.

Example combined_update_rolled_back :
  update_payment_and_pgp_payment_intent_status SUCCEEDED 1 2 60
    (db_with [] [pgp_intent 2 1 CAPTURING])
  = (Raised (ValueError "not found" 1), db_with [] [pgp_intent 2 1 CAPTURING]).
Proof. reflexivity. Qed.

Lemma adjust_payment_intent_amount_unfold id payer_id pid delta key now db :
  adjust_payment_intent_amount id payer_id pid delta key now db =
  match find (adjustment_match pid key) (payment_intents_adjustment_history db) with
  | Some h => (Returned h, db)
  | None =>
      match find (fun r => pi_id r =? pid) (payment_intents db) with
      | None => (Raised TypeError, db)
      | Some i =>
          let h :=
            {| adj_id := id; adj_payer_id := payer_id; adj_payment_intent_id := pid;
               adj_amount := pi_amount i + delta; adj_amount_original := pi_amount i;
               adj_amount_delta := delta; adj_currency := pi_currency i;
               adj_idempotency_key := key; adj_created_at := now |} in
          (Returned h,
           {| payment_intents :=
                sql_update (fun r => pi_id r =? pid)
                  (pi_values None (Some (pi_amount i + delta)) None now)
                  (payment_intents db);
              pgp_payment_intents := pgp_payment_intents db;
              payment_intents_adjustment_history :=
                (payment_intents_adjustment_history db ++ [h])%list |})
      end
  end.
Proof.
  unfold adjust_payment_intent_amount, bind, get_payment_intent_adjustment_history.
  fold (adjustment_match pid key). rewrite fetch_one_select.
  destruct (find (adjustment_match pid key) (payment_intents_adjustment_history db));
    [reflexivity|].
  unfold payment_database_transaction, bind, get_payment_intent_by_id.
  rewrite fetch_one_select.
  destruct (find (fun r => pi_id r =? pid) (payment_intents db)) as [i|] eqn:Hi;
    [|reflexivity].
  simpl. unfold update_payment_intent_amount, bind, execute_update_payment_intents.
  rewrite fetch_one_returning, Hi. reflexivity.
Qed.

(** C10. When a call of the adjustment operation returns an adjustment, a
    second call for the same payment intent and idempotency key, whatever
    its other arguments, returns that same adjustment and leaves the
    database as the first call left it, so no second history row is
    inserted and the amount is not adjusted twice. The first call itself
    writes nothing when a row for the key exists already, and returns that
    row. Otherwise it sets the amount of the intent to the amount it had
    plus the delta and inserts exactly the returned row, which records the
    amount before, the delta and the amount after; the provider side of the
    intents is not written. *)
Theorem adjust_payment_intent_amount_idempotent
    (id1 id2 : UUID) (payer1 payer2 : option UUID) (payment_intent_id : UUID)
    (delta1 delta2 : Z) (idempotency_key : string) (now1 now2 : datetime)
    (db db1 : Database) (h : PaymentIntentAdjustmentHistory) :
  adjust_payment_intent_amount id1 payer1 payment_intent_id delta1 idempotency_key
    now1 db = (Returned h, db1) ->
  adjust_payment_intent_amount id2 payer2 payment_intent_id delta2 idempotency_key
    now2 db1 = (Returned h, db1)
  /\ get_payment_intent_adjustment_history payment_intent_id idempotency_key db1
     = (Returned (Some h), db1)
  /\ ((exists h0, In h0 (payment_intents_adjustment_history db)
                  /\ adj_payment_intent_id h0 = payment_intent_id
                  /\ adj_idempotency_key h0 = idempotency_key) ->
      db1 = db
      /\ get_payment_intent_adjustment_history payment_intent_id idempotency_key db
         = (Returned (Some h), db))
  /\ ((forall h0, In h0 (payment_intents_adjustment_history db) ->
                  ~ (adj_payment_intent_id h0 = payment_intent_id
                     /\ adj_idempotency_key h0 = idempotency_key)) ->
      payment_intents_adjustment_history db1
      = (payment_intents_adjustment_history db ++ [h])%list
      /\ pgp_payment_intents db1 = pgp_payment_intents db
      /\ exists intent,
           get_payment_intent_by_id payment_intent_id db = (Returned (Some intent), db)
           /\ h = {| adj_id := id1; adj_payer_id := payer1;
                     adj_payment_intent_id := payment_intent_id;
                     adj_amount := pi_amount intent + delta1;
                     adj_amount_original := pi_amount intent;
                     adj_amount_delta := delta1;
                     adj_currency := pi_currency intent;
                     adj_idempotency_key := idempotency_key;
                     adj_created_at := now1 |}
           /\ payment_intents db1
              = sql_update (fun r => pi_id r =? payment_intent_id)
                  (pi_values None (Some (pi_amount intent + delta1)) None now1)
                  (payment_intents db)
           /\ get_payment_intent_by_id payment_intent_id db1
              = (Returned
                   (Some (pi_values None (Some (pi_amount intent + delta1)) None
                            now1 intent)), db1)
           /\ (forall r, In r (payment_intents db1) -> pi_id r = payment_intent_id ->
                         pi_amount r = pi_amount intent + delta1)
           /\ (forall r, In r (payment_intents db1) -> pi_id r <> payment_intent_id ->
                         In r (payment_intents db))).
Proof.
  intros H1.
  assert (Hm : forall r, adjustment_match payment_intent_id idempotency_key r = true
                         <-> adj_payment_intent_id r = payment_intent_id
                             /\ adj_idempotency_key r = idempotency_key).
  { intros r. unfold adjustment_match.
    rewrite andb_true_iff, Z.eqb_eq, String.eqb_eq. reflexivity. }
  assert (Hget : forall d,
    get_payment_intent_adjustment_history payment_intent_id idempotency_key d
    = (Returned (find (adjustment_match payment_intent_id idempotency_key)
                   (payment_intents_adjustment_history d)), d)).
  { intros d. unfold get_payment_intent_adjustment_history.
    fold (adjustment_match payment_intent_id idempotency_key).
    rewrite fetch_one_select. reflexivity. }
  rewrite adjust_payment_intent_amount_unfold in H1.
  destruct (find (adjustment_match payment_intent_id idempotency_key)
              (payment_intents_adjustment_history db)) as [h0|] eqn:Hf.
  - injection H1 as -> ->.
    split; [rewrite adjust_payment_intent_amount_unfold, Hf; reflexivity|].
    split; [rewrite Hget, Hf; reflexivity|].
    split; [intros _; split; [reflexivity | rewrite Hget, Hf; reflexivity]|].
    intros Hall. exfalso. apply find_some in Hf. destruct Hf as [Hin Hp].
    apply Hm in Hp. exact (Hall h Hin Hp).
  - destruct (find (fun r => pi_id r =? payment_intent_id) (payment_intents db))
      as [i|] eqn:Hi; [|discriminate].
    cbv zeta in H1. injection H1 as <- <-.
    assert (Hf1 :
      find (adjustment_match payment_intent_id idempotency_key)
        (payment_intents_adjustment_history db
         ++ [{| adj_id := id1; adj_payer_id := payer1;
                adj_payment_intent_id := payment_intent_id;
                adj_amount := pi_amount i + delta1;
                adj_amount_original := pi_amount i;
                adj_amount_delta := delta1; adj_currency := pi_currency i;
                adj_idempotency_key := idempotency_key;
                adj_created_at := now1 |}])%list
      = Some {| adj_id := id1; adj_payer_id := payer1;
                adj_payment_intent_id := payment_intent_id;
                adj_amount := pi_amount i + delta1;
                adj_amount_original := pi_amount i;
                adj_amount_delta := delta1; adj_currency := pi_currency i;
                adj_idempotency_key := idempotency_key;
                adj_created_at := now1 |}).
    { rewrite find_app_none by exact Hf.
      unfold adjustment_match at 1. simpl.
      rewrite Z.eqb_refl, String.eqb_refl. reflexivity. }
    split.
    { rewrite adjust_payment_intent_amount_unfold.
      cbn [payment_intents_adjustment_history]. rewrite Hf1. reflexivity. }
    split.
    { rewrite Hget. cbn [payment_intents_adjustment_history]. rewrite Hf1.
      reflexivity. }
    split.
    { intros [h0 [Hin Hp]]. exfalso. apply Hm in Hp.
      pose proof (find_none_all _ _ Hf h0 Hin). congruence. }
    intros _. split; [reflexivity|]. split; [reflexivity|].
    exists i. unfold get_payment_intent_by_id. rewrite !fetch_one_select, Hi.
    split; [reflexivity|]. split; [reflexivity|]. split; [reflexivity|].
    cbn [payment_intents]. split; [|split].
    + rewrite find_sql_update by reflexivity. rewrite Hi. simpl.
      apply find_some in Hi. destruct Hi as [_ Hp]. rewrite Hp. reflexivity.
    + intros r Hin Hid. apply in_sql_update in Hin.
      destruct Hin as [r0 [_ [[_ E]|[Hp E]]]]; subst r; [reflexivity|].
      apply Z.eqb_neq in Hp. contradiction.
    + intros r Hin Hid. apply in_sql_update in Hin.
      destruct Hin as [r0 [Hin0 [[Hp E]|[_ E]]]]; subst r; [|exact Hin0].
      exfalso. apply Hid. simpl. apply Z.eqb_eq. exact Hp.
Qed.

(** The first adjustment of an intent of amount 500 by 50 under the key
    ["key-1"]: the amount becomes 550 and the row records 500, 50 and 550.
    Its replay with another id, delta and time returns the same row and
    leaves the amount at 550. *)
Lemma adjust_payment_intent_amount_idempotent_witness :
  adjust_payment_intent_amount 70 None 1 50 "key-1" 20
    (db_with [intent 1 REQUIRES_CAPTURE 500] [])
  = (Returned first_adjustment, db_after_adjustment)
  /\ adjust_payment_intent_amount 71 (Some 5) 1 999 "key-1" 30 db_after_adjustment
     = (Returned first_adjustment, db_after_adjustment)
  /\ map pi_amount (payment_intents db_after_adjustment) = [550]
  /\ payment_intents_adjustment_history db_after_adjustment = [first_adjustment]
  /\ adj_amount_original first_adjustment = 500
  /\ adj_amount_delta first_adjustment = 50
  /\ adj_amount first_adjustment = 550.
Proof.
  assert (H0 : adjust_payment_intent_amount 70 None 1 50 "key-1" 20
                 (db_with [intent 1 REQUIRES_CAPTURE 500] [])
               = (Returned first_adjustment, db_after_adjustment))
    by reflexivity.
  destruct (@adjust_payment_intent_amount_idempotent 70 71 None (Some 5) 1 50 999
              "key-1" 20 30 (db_with [intent 1 REQUIRES_CAPTURE 500] [])
              db_after_adjustment first_adjustment H0)
    as [H2 [_ [_ Hnew]]].
  destruct Hnew as [Hhist [_ [i [Hi [Hh [Hpi _]]]]]].
  { intros h0 Hin. contradiction Hin. }
  injection Hi as <-.
  split; [exact H0|]. split; [exact H2|].
  split; [rewrite Hpi; reflexivity|]. split; [exact Hhist|].
  rewrite Hh. repeat split.
Defined.

End PayinSpec.

(* ===================================================================== *)
(** ** Payout: the submission of a transfer                              *)
(* ===================================================================== *)

Module PayoutSpec.
Import Payout PayoutData.

Lemma TransferStatusType_eqb_eq (a b : TransferStatusType) :
  TransferStatusType_eqb a b = true <-> a = b.
Proof. destruct a, b; simpl; split; intros H; try reflexivity; discriminate. Qed.

Lemma get_transfer_by_id_find transfer_id s :
  get_transfer_by_id transfer_id s
  = (Returned (find (transfer_with_id transfer_id) (transfers s)), s).
Proof. unfold get_transfer_by_id. rewrite fetch_one_select. reflexivity. Qed.

Lemma get_payment_account_by_id_find id s :
  get_payment_account_by_id id s
  = (Returned (find (fun r => pa_id r =? id) (payment_accounts s)), s).
Proof. unfold get_payment_account_by_id. rewrite fetch_one_select. reflexivity. Qed.

Lemma update_transfer_by_id_store transfer_id data s :
  snd (update_transfer_by_id transfer_id data s)
  = set_transfers
      (sql_update (transfer_with_id transfer_id) (apply_TransferUpdate data)
         (transfers s)) s.
Proof. reflexivity. Qed.

(** After an update by id that sets the status and the status code, every
    row with that id carries them. *)
Lemma marked_rows transfer_id status code (t : list Transfer) (r : Transfer) :
  In r (sql_update (transfer_with_id transfer_id) (marked status code) t) ->
  t_id r = transfer_id ->
  t_status r = status /\ t_status_code r = Some code.
Proof.
  intros Hin Hid. apply in_sql_update in Hin.
  destruct Hin as [r0 [_ [[_ E]|[Hp E]]]]; subst r.
  - split; reflexivity.
  - unfold transfer_with_id in Hp. apply Z.eqb_neq in Hp. contradiction.
Qed.

Lemma find_sql_update_by_id transfer_id (f : Transfer -> Transfer) (t : list Transfer) :
  (forall r, t_id (f r) = t_id r) ->
  find (transfer_with_id transfer_id) (sql_update (transfer_with_id transfer_id) f t)
  = option_map f (find (transfer_with_id transfer_id) t).
Proof.
  intros Hf. unfold sql_update. induction t as [|r t IH]; simpl; [reflexivity|].
  destruct (transfer_with_id transfer_id r) eqn:Hr.
  - unfold transfer_with_id in *. rewrite Hf, Hr. reflexivity.
  - rewrite Hr. exact IH.
Qed.

(** The outcome of [_execute], branch by branch. *)
Lemma execute_unfold K stripe request s :
  _execute K stripe request s =
  match find (transfer_with_id (req_transfer_id request)) (transfers s) with
  | None => (Raised (payout_error TRANSFER_NOT_FOUND None), s)
  | Some transfer =>
      if truthy_int (t_payment_account_id transfer) then
        match t_payment_account_id transfer with
        | Some pid =>
            match find (fun r => pa_id r =? pid) (payment_accounts s) with
            | None => (Raised (payout_error INVALID_PAYMENT_ACCOUNT_ID None), s)
            | Some _ =>
                (Raised (payout_error TRANSFER_INVALID_STATE None),
                 set_transfers
                   (sql_update (transfer_with_id (req_transfer_id request))
                      (marked ERROR ERROR_INVALID_STATE) (transfers s)) s)
            end
        | None => (Raised (payout_error INVALID_PAYMENT_ACCOUNT_ID None), s)
        end
      else
        (Raised (AssertionError
           "there must be a payment_account_id attached with retrieved transfer"), s)
  end.
Proof.
  unfold _execute, _execute_with, bind. rewrite get_transfer_by_id_find.
  destruct (find (transfer_with_id (req_transfer_id request)) (transfers s))
    as [transfer|]; [|reflexivity].
  destruct (truthy_int (t_payment_account_id transfer)) eqn:Hpid; simpl;
    [|reflexivity].
  destruct (t_payment_account_id transfer) as [pid|]; [|discriminate].
  rewrite get_payment_account_by_id_find.
  destruct (find (fun r => pa_id r =? pid) (payment_accounts s)); reflexivity.
Qed.

(** No call of [_execute] raises MISMATCHED_TRANSFER_AMOUNT. *)
Lemma execute_never_mismatched K stripe request s d :
  fst (_execute K stripe request s) = Raised (PayoutError d) ->
  error_code d <> MISMATCHED_TRANSFER_AMOUNT.
Proof.
  rewrite execute_unfold.
  destruct (find (transfer_with_id (req_transfer_id request)) (transfers s))
    as [transfer|]; simpl.
  - destruct (truthy_int (t_payment_account_id transfer)); simpl; [|discriminate].
    destruct (t_payment_account_id transfer) as [pid|]; simpl.
    + destruct (find (fun r => pa_id r =? pid) (payment_accounts s)); simpl;
        intros H; injection H as <-; discriminate.
    + intros H; injection H as <-; discriminate.
  - intros H; injection H as <-; discriminate.
Qed.

(** C1. When the transfer of the request is found and its payment account
    is found, [_execute] marks the transfer ERROR / ERROR_INVALID_STATE and
    raises TRANSFER_INVALID_STATE: the list of constituent transactions is
    always empty. Nothing else is written and the gateway is not called.
    No call, with whatever request and store, raises
    MISMATCHED_TRANSFER_AMOUNT. *)
Theorem execute_invalid_state
    (K : PayoutTypes) (stripe : StripeAsyncClient) (request : SubmitTransferRequest)
    (s : Store) (transfer : Transfer) (payment_account_id : Z)
    (payment_account : PaymentAccount) :
  get_transfer_by_id (req_transfer_id request) s = (Returned (Some transfer), s) ->
  t_payment_account_id transfer = Some payment_account_id ->
  payment_account_id <> 0 ->
  get_payment_account_by_id payment_account_id s
  = (Returned (Some payment_account), s) ->
  fst (_execute K stripe request s)
  = Raised (payout_error TRANSFER_INVALID_STATE None)
  /\ (forall r, In r (transfers (snd (_execute K stripe request s))) ->
                t_id r = req_transfer_id request ->
                t_status r = ERROR /\ t_status_code r = Some ERROR_INVALID_STATE)
  /\ get_transfer_by_id (req_transfer_id request) (snd (_execute K stripe request s))
     = (Returned (Some (marked ERROR ERROR_INVALID_STATE transfer)),
        snd (_execute K stripe request s))
  /\ snd (_execute K stripe request s)
     = set_transfers
         (sql_update (transfer_with_id (req_transfer_id request))
            (marked ERROR ERROR_INVALID_STATE) (transfers s)) s
  /\ gateway_calls (snd (_execute K stripe request s)) = gateway_calls s
  /\ (forall request' s' d,
        fst (_execute K stripe request' s') = Raised (PayoutError d) ->
        error_code d <> MISMATCHED_TRANSFER_AMOUNT).
Proof.
  intros Ht Hpid Hnz Hpa.
  rewrite get_transfer_by_id_find in Ht. injection Ht as Ht.
  rewrite get_payment_account_by_id_find in Hpa. injection Hpa as Hpa.
  rewrite execute_unfold, Ht, Hpid. simpl.
  apply Z.eqb_neq in Hnz. rewrite Hnz. simpl. rewrite Hpa. simpl.
  split; [reflexivity|]. split; [|split; [|split; [|split]]].
  - intros r Hin Hid. eapply marked_rows; eassumption.
  - rewrite get_transfer_by_id_find. simpl.
    rewrite find_sql_update_by_id by reflexivity. rewrite Ht. reflexivity.
  - reflexivity.
  - reflexivity.
  - intros request' s' d. apply execute_never_mismatched.
Qed.

(** A merchant transfer of 500 with its account: the call that C1
    describes. *)
Lemma execute_invalid_state_witness :
  fst (_execute K0 gateway_ok (request_1 false)
         (store_of (transfer_1 500 NEW None) (account_7 "merchant" true) []))
  = Raised (payout_error TRANSFER_INVALID_STATE None)
  /\ snd (_execute K0 gateway_ok (request_1 false)
            (store_of (transfer_1 500 NEW None) (account_7 "merchant" true) []))
     = store_of (marked ERROR ERROR_INVALID_STATE (transfer_1 500 NEW None))
         (account_7 "merchant" true) [].
Proof.
  destruct (execute_invalid_state K0 gateway_ok (request_1 false)
              (s := store_of (transfer_1 500 NEW None) (account_7 "merchant" true) [])
              (transfer := transfer_1 500 NEW None) (payment_account_id := 7)
              (payment_account := account_7 "merchant" true)
              eq_refl eq_refl ltac:(discriminate) eq_refl)
    as [H1 [_ [_ [H4 _]]]].
  split; [exact H1 | exact H4].
Defined.


(** *** The guards after the reconciliation of the amounts *)

(** The steps of [_execute_with] up to the guard on duplicates and
    retries, for a transfer that is found with its account, whose
    constituent transactions add up to its amount, whose currency is set
    and which is not deleted. *)
Ltac reach_guard transactions Ht Hpid Hnz Hpa Hne Hsum Hcur Hdel :=
  unfold _execute_with, bind;
  rewrite get_transfer_by_id_find in Ht; injection Ht as Ht;
  rewrite get_payment_account_by_id_find in Hpa; injection Hpa as Hpa;
  rewrite get_transfer_by_id_find, Ht, Hpid; simpl;
  apply Z.eqb_neq in Hnz; rewrite Hnz; simpl;
  rewrite fetch_one_select, Hpa;
  destruct transactions; [contradiction Hne; reflexivity|];
  rewrite Hsum, Z.sub_diag; simpl;
  rewrite Hcur; simpl; rewrite Hdel; simpl.

(** With [retry] false the guard raises DUPLICATE_TRANSFER for every
    transfer that reaches it, submitted before or not: the lookup of the
    latest submission is a coroutine that is tested without being awaited. *)
Lemma duplicate_guard_fires_without_retry
    (K : PayoutTypes) (stripe : StripeAsyncClient) (request : SubmitTransferRequest)
    (transactions : list TransactionDBEntity) (s : Store) (transfer : Transfer)
    (payment_account_id : Z) (payment_account : PaymentAccount) :
  get_transfer_by_id (req_transfer_id request) s = (Returned (Some transfer), s) ->
  t_payment_account_id transfer = Some payment_account_id ->
  payment_account_id <> 0 ->
  get_payment_account_by_id payment_account_id s
  = (Returned (Some payment_account), s) ->
  transactions <> [] ->
  fold_right Z.add 0 (map txn_amount transactions) = t_amount transfer ->
  truthy_str (t_currency transfer) = true ->
  t_deleted_at transfer = None ->
  req_retry request = Some false ->
  _execute_with K stripe request transactions s
  = (Raised (payout_error DUPLICATE_TRANSFER None), s).
Proof.
  intros Ht Hpid Hnz Hpa Hne Hsum Hcur Hdel Hretry.
  reach_guard transactions Ht Hpid Hnz Hpa Hne Hsum Hcur Hdel.
  rewrite Hretry. simpl. unfold unawaited_is_true. rewrite orb_true_r. reflexivity.
Qed.

(** C2, the failing input. A transfer that was submitted before
    ([submitted_at] set), submitted again with [retry] false: [_execute]
    raises TRANSFER_INVALID_STATE, not DUPLICATE_TRANSFER, and rewrites the
    transfer row to ERROR / ERROR_INVALID_STATE. And where the guard is
    reached (the transactions add up), a transfer that was never submitted
    and has no submission record is rejected as a duplicate. *)
Theorem execute_resubmission_not_duplicate :
  _execute K0 gateway_ok (request_1 false)
    (store_of (transfer_1 500 PENDING (Some 50)) (account_7 "merchant" true) [])
  = (Raised (payout_error TRANSFER_INVALID_STATE None),
     store_of (marked ERROR ERROR_INVALID_STATE (transfer_1 500 PENDING (Some 50)))
       (account_7 "merchant" true) [])
  /\ marked ERROR ERROR_INVALID_STATE (transfer_1 500 PENDING (Some 50))
     <> transfer_1 500 PENDING (Some 50)
  /\ _execute_with K0 gateway_ok (request_1 false) [transaction_of 500]
       (store_of (transfer_1 500 NEW None) (account_7 "merchant" true) [])
     = (Raised (payout_error DUPLICATE_TRANSFER None),
        store_of (transfer_1 500 NEW None) (account_7 "merchant" true) [])
  /\ t_submitted_at (transfer_1 500 NEW None) = None
  /\ stripe_transfers
       (store_of (transfer_1 500 NEW None) (account_7 "merchant" true) []) = [].
Proof.
  split; [reflexivity|]. split; [discriminate|]. split; [reflexivity|].
  split; reflexivity.
Qed.

(** C3, the failing input. A transfer of amount 0: [_execute] raises
    TRANSFER_INVALID_STATE and the transfer ends ERROR /
    ERROR_INVALID_STATE with [submitted_at] unset, not PAID. Where the
    transactions add up and [retry] is false the call raises
    DUPLICATE_TRANSFER and the transfer stays as it was; only with [retry]
    true does the call reach [handle_dummy_transfer], which marks the
    transfer PAID with [submitted_at] set and calls no gateway. *)
Theorem execute_zero_amount_not_paid :
  _execute K0 gateway_ok (request_1 false)
    (store_of (transfer_1 0 NEW None) (account_7 "merchant" true) [])
  = (Raised (payout_error TRANSFER_INVALID_STATE None),
     store_of (marked ERROR ERROR_INVALID_STATE (transfer_1 0 NEW None))
       (account_7 "merchant" true) [])
  /\ t_status (marked ERROR ERROR_INVALID_STATE (transfer_1 0 NEW None)) = ERROR
  /\ t_submitted_at (marked ERROR ERROR_INVALID_STATE (transfer_1 0 NEW None)) = None
  /\ _execute_with K0 gateway_ok (request_1 false) [transaction_of 0]
       (store_of (transfer_1 0 NEW None) (account_7 "merchant" true) [])
     = (Raised (payout_error DUPLICATE_TRANSFER None),
        store_of (transfer_1 0 NEW None) (account_7 "merchant" true) [])
  /\ (exists s',
        _execute_with K0 gateway_ok (request_1 true) [transaction_of 0]
          (store_of (transfer_1 0 NEW None) (account_7 "merchant" true) [])
        = (Returned SubmitTransferResponse_, s')
        /\ map t_status (transfers s') = [PAID]
        /\ map t_submitted_at (transfers s') = [Some 100]
        /\ gateway_calls s' = []).
Proof.
  split; [reflexivity|]. split; [reflexivity|]. split; [reflexivity|].
  split; [reflexivity|].
  eexists. split; [reflexivity|]. split; [reflexivity|]. split; reflexivity.
Qed.

(** C9, the failing input. A retry of a transfer whose status is FAILED,
    on an account with transfers disabled: [_execute] raises
    TRANSFER_INVALID_STATE, not TRANSFER_DISABLED_ERROR, because the
    constituent transactions are bound to the empty list. And where the
    guard is reached (the transactions add up) the transfer passes it, as
    the guard tests for the status ERROR, and is submitted to the gateway
    for an account whose transfers are disabled. *)
Theorem retry_of_failed_transfer_not_disabled :
  fst (_execute K0 gateway_ok (request_1 true)
         (store_of (transfer_1 500 FAILED None) (account_7 "merchant" false) []))
  = Raised (payout_error TRANSFER_INVALID_STATE None)
  /\ payout_error TRANSFER_INVALID_STATE None
     <> payout_error TRANSFER_DISABLED_ERROR None
  /\ fst (_execute_with K0 gateway_ok (request_1 true) [transaction_of 500]
            (store_of (transfer_1 500 FAILED None) (account_7 "merchant" false) []))
     = Returned SubmitTransferResponse_
  /\ gateway_calls
       (snd (_execute_with K0 gateway_ok (request_1 true) [transaction_of 500]
               (store_of (transfer_1 500 FAILED None) (account_7 "merchant" false) [])))
     = [RetrieveBalance (Some sma_3);
        CreateTransfer 500 (Some "usd") "acct_1" (Some "US");
        CreatePayout 500 "usd" "US" "acct_1" "payout"
          [("transfer_id", MInt 1); ("account_id", MInt 7);
           ("target_type", MStr "store"); ("target_id", MInt 12)]].
Proof.
  split; [reflexivity|]. split; [discriminate|]. split; [reflexivity|].
  vm_compute. reflexivity.
Qed.

(** X29. In the body of [_execute], run on constituent transactions that
    add up to the amount of a transfer with a currency, a retry of a
    transfer that is not deleted, whose status is ERROR, on an account
    whose transfers are not enabled, raises TRANSFER_DISABLED_ERROR and the
    store is unchanged: no row is written, no submission record is created
    and the gateway is not called. *)
Theorem retry_of_error_transfer_disabled
    (K : PayoutTypes) (stripe : StripeAsyncClient) (request : SubmitTransferRequest)
    (transactions : list TransactionDBEntity) (s : Store) (transfer : Transfer)
    (payment_account_id : Z) (payment_account : PaymentAccount) :
  get_transfer_by_id (req_transfer_id request) s = (Returned (Some transfer), s) ->
  t_payment_account_id transfer = Some payment_account_id ->
  payment_account_id <> 0 ->
  get_payment_account_by_id payment_account_id s
  = (Returned (Some payment_account), s) ->
  transactions <> [] ->
  fold_right Z.add 0 (map txn_amount transactions) = t_amount transfer ->
  truthy_str (t_currency transfer) = true ->
  t_deleted_at transfer = None ->
  req_retry request = Some true ->
  t_status transfer = ERROR ->
  pa_transfers_enabled payment_account = false ->
  _execute_with K stripe request transactions s
  = (Raised (payout_error TRANSFER_DISABLED_ERROR None), s).
Proof.
  intros Ht Hpid Hnz Hpa Hne Hsum Hcur Hdel Hretry Hstatus Hdisabled.
  reach_guard transactions Ht Hpid Hnz Hpa Hne Hsum Hcur Hdel.
  rewrite Hretry, Hstatus, Hdisabled. reflexivity.
Qed.

Lemma retry_of_error_transfer_disabled_witness :
  _execute_with K0 gateway_ok (request_1 true) [transaction_of 500]
    (store_of (transfer_1 500 ERROR None) (account_7 "merchant" false) [])
  = (Raised (payout_error TRANSFER_DISABLED_ERROR None),
     store_of (transfer_1 500 ERROR None) (account_7 "merchant" false) []).
Proof.
  apply (retry_of_error_transfer_disabled K0 gateway_ok (request_1 true)
           (transactions := [transaction_of 500])
           (transfer := transfer_1 500 ERROR None) (payment_account_id := 7)
           (payment_account := account_7 "merchant" false));
    try reflexivity; discriminate.
Defined.


(** *** The balance check *)

Lemma str_eq_true (x : option string) (c : string) :
  str_eq x c = true <-> x = Some c.
Proof.
  unfold str_eq, option_eqb. destruct x as [x|]; [|split; discriminate].
  rewrite String.eqb_eq. split; congruence.
Qed.

Lemma stripe_managed_account_of_linked payment_account s :
  stripe_managed_account_of payment_account s
  = (Returned (linked_account payment_account s), s).
Proof.
  unfold stripe_managed_account_of, linked_account.
  destruct (pa_account_id payment_account) as [account_id|]; [|reflexivity].
  destruct (truthy_int (Some account_id)); [|reflexivity].
  unfold get_stripe_managed_account_by_id. rewrite fetch_one_select. reflexivity.
Qed.

Lemma get_country_shortname_reads payment_account s :
  get_country_shortname payment_account s
  = (Returned (option_map sma_country_shortname (linked_account payment_account s)), s).
Proof.
  unfold get_country_shortname, linked_account.
  destruct (pa_account_id payment_account) as [account_id|]; [|reflexivity].
  destruct (truthy_int (Some account_id)); [|reflexivity].
  unfold bind, get_stripe_managed_account_by_id. rewrite fetch_one_select.
  reflexivity.
Qed.

Lemma get_managed_account_transfer_by_transfer_id_find transfer_id s :
  get_managed_account_transfer_by_transfer_id transfer_id s
  = (Returned (find (managed_transfer_of transfer_id) (managed_account_transfers s)),
     s).
Proof.
  unfold get_managed_account_transfer_by_transfer_id. rewrite fetch_one_select.
  reflexivity.
Qed.

(** The first step of the check: the amount still needed is the
    shortfall, and finding it out writes no row. *)
Lemma amount_still_needed_shortfall K stripe payment_account amount s :
  exists s0,
    (if str_eq (pa_entity payment_account) (PayoutAccountTargetType_DASHER K)
     then ret amount
     else
       stripe_managed_account <- stripe_managed_account_of payment_account ;;
       account_balance <- get_account_balance stripe stripe_managed_account ;;
       ret (amount - account_balance)) s
    = (Returned (shortfall K stripe payment_account amount s), s0)
    /\ managed_account_transfers s0 = managed_account_transfers s
    /\ stripe_managed_accounts s0 = stripe_managed_accounts s
    /\ transfers s0 = transfers s.
Proof.
  unfold shortfall.
  destruct (str_eq (pa_entity payment_account) (PayoutAccountTargetType_DASHER K)).
  - exists s. repeat split; reflexivity.
  - unfold bind. rewrite stripe_managed_account_of_linked.
    eexists. split; [reflexivity|]. repeat split; reflexivity.
Qed.


Lemma validate_payment_account_returned payment_account transfer_id mat s b s1 :
  validate_payment_account_of_managed_account_transfer payment_account transfer_id
    mat s = (Returned b, s1) ->
  s1 = s
  /\ (forall m, mat = Some m -> truthy_int (mat_payment_account_id m) = true ->
                mat_payment_account_id m = Some (pa_id payment_account)).
Proof.
  unfold validate_payment_account_of_managed_account_transfer.
  destruct mat as [m|].
  - destruct (mat_payment_account_id m) as [p|] eqn:Hp.
    + destruct (truthy_int (Some p) && negb (pa_id payment_account =? p)) eqn:Hc.
      * unfold bind. simpl. discriminate.
      * intros H. injection H as _ <-. split; [reflexivity|].
        intros m' E Ht. injection E as <-. rewrite Hp in *.
        rewrite Ht in Hc. simpl in Hc. apply negb_false_iff in Hc.
        apply Z.eqb_eq in Hc. congruence.
    + intros H. injection H as _ <-. split; [reflexivity|].
      intros m' E Ht. injection E as <-. rewrite Hp in Ht. discriminate.
  - intros H. injection H as _ <-. split; [reflexivity|]. intros m' E. discriminate.
Qed.

Lemma find_after_update_by_id transfer_id data (old : ManagedAccountTransfer)
    (t : list ManagedAccountTransfer) :
  find (managed_transfer_of transfer_id) t = Some old ->
  find (managed_transfer_of transfer_id)
    (sql_update (fun r => mat_id r =? mat_id old)
       (apply_ManagedAccountTransferUpdate data) t)
  = Some (apply_ManagedAccountTransferUpdate data old).
Proof.
  intros H. rewrite find_sql_update by reflexivity. rewrite H. simpl.
  rewrite Z.eqb_refl. reflexivity.
Qed.

(** C8 (as amended). When the balance check returns, the managed account
    transfer found for the transfer id holds: for a record that existed,
    the larger of its previous amount and the shortfall when the shortfall
    is positive, and 0 otherwise; for a record the check creates (none
    existed and the shortfall is positive), the shortfall. Without a record
    and without a positive shortfall none is created. The amount found is
    never negative and never below the shortfall. A created record
    references the payment account of the transfer; an existing record
    keeps its reference, which equals the payment account whenever it is
    set. *)
Theorem managed_account_balance_check_amount
    (K : PayoutTypes) (stripe : StripeAsyncClient) (payment_account : PaymentAccount)
    (transfer_id amount : Z) (s s' : Store) :
  managed_account_balance_check K stripe payment_account transfer_id amount s
  = (Returned tt, s') ->
  let need := shortfall K stripe payment_account amount s in
  let before :=
    find (managed_transfer_of transfer_id) (managed_account_transfers s) in
  let after :=
    find (managed_transfer_of transfer_id) (managed_account_transfers s') in
  (forall old, before = Some old ->
     exists new, after = Some new
       /\ mat_amount new
          = (if 0 <? need then Z.max (mat_amount old) need else 0)
       /\ mat_payment_account_id new = mat_payment_account_id old
       /\ (truthy_int (mat_payment_account_id old) = true ->
           mat_payment_account_id old = Some (pa_id payment_account)))
  /\ (before = None -> 0 < need ->
      exists new, after = Some new
        /\ mat_amount new = need
        /\ mat_transfer_id new = transfer_id
        /\ mat_payment_account_id new = Some (pa_id payment_account))
  /\ (before = None -> need <= 0 -> after = None)
  /\ (forall new, after = Some new ->
        0 <= mat_amount new /\ Z.max need 0 <= mat_amount new).
Proof.
  intros H need before after.
  assert (Hmain :
    (forall old, before = Some old ->
       exists new, after = Some new
         /\ mat_amount new
            = (if 0 <? need then Z.max (mat_amount old) need else 0)
         /\ mat_payment_account_id new = mat_payment_account_id old
         /\ (truthy_int (mat_payment_account_id old) = true ->
             mat_payment_account_id old = Some (pa_id payment_account)))
    /\ (before = None -> 0 < need ->
        exists new, after = Some new
          /\ mat_amount new = need
          /\ mat_transfer_id new = transfer_id
          /\ mat_payment_account_id new = Some (pa_id payment_account))
    /\ (before = None -> need <= 0 -> after = None)).
  { subst need before after.
    unfold managed_account_balance_check in H. unfold bind at 1 in H.
    destruct (amount_still_needed_shortfall K stripe payment_account amount s)
      as [s0 [E [Hm _]]].
    rewrite E in H. clear E.
    set (need := shortfall K stripe payment_account amount s) in *.
    unfold bind at 1 in H.
    rewrite get_managed_account_transfer_by_transfer_id_find in H.
    rewrite Hm in H.
    unfold bind at 1 in H.
    destruct (validate_payment_account_of_managed_account_transfer payment_account
                transfer_id
                (find (managed_transfer_of transfer_id)
                   (managed_account_transfers s)) s0) as [o s1] eqn:Hv.
    destruct o as [b|e]; [|discriminate].
    apply validate_payment_account_returned in Hv. destruct Hv as [-> Hacc].
    destruct (find (managed_transfer_of transfer_id) (managed_account_transfers s))
      as [old|] eqn:Hold.
    - (* a record exists *)
      split; [|split; intros; discriminate].
      intros old' E. injection E as <-.
      rewrite <- Hm in Hold.
      destruct (0 <? need) eqn:Hneed.
      + destruct (mat_amount old <? need) eqn:Hlt.
        * unfold bind in H. simpl in H. injection H as <-. simpl.
          rewrite (find_after_update_by_id _ _ _ Hold).
          eexists. split; [reflexivity|]. simpl.
          apply Z.ltb_lt in Hlt. split; [lia|]. split; [reflexivity|].
          apply Hacc. reflexivity.
        * simpl in H. injection H as <-. rewrite Hold.
          eexists. split; [reflexivity|].
          apply Z.ltb_ge in Hlt. split; [lia|]. split; [reflexivity|].
          apply Hacc. reflexivity.
      + unfold bind in H. simpl in H. injection H as <-. simpl.
        rewrite (find_after_update_by_id _ _ _ Hold).
        eexists. split; [reflexivity|]. simpl. split; [reflexivity|].
        split; [reflexivity|]. apply Hacc. reflexivity.
    - (* no record *)
      split; [intros old E; discriminate|].
      rewrite <- Hm in Hold.
      destruct (0 <? need) eqn:Hneed.
      + unfold bind in H. rewrite get_country_shortname_reads in H.
        simpl in H. injection H as <-. simpl.
        rewrite find_app_none by exact Hold.
        unfold managed_transfer_of at 1. simpl. rewrite Z.eqb_refl.
        split.
        * intros _ _. eexists. split; [reflexivity|]. simpl.
          repeat split; reflexivity.
        * intros _ Hle. apply Z.ltb_lt in Hneed. lia.
      + simpl in H. injection H as <-. split.
        * intros _ Hpos. apply Z.ltb_ge in Hneed. lia.
        * intros _ _. exact Hold. }
  destruct Hmain as [Hex [Hnew Hnone]].
  split; [exact Hex|]. split; [exact Hnew|]. split; [exact Hnone|].
  intros new Hafter.
  destruct before as [old|] eqn:Hb.
  - destruct (Hex old eq_refl) as [new' [E [Ha _]]].
    rewrite E in Hafter. injection Hafter as <-. rewrite Ha.
    destruct (0 <? need) eqn:Hneed.
    + apply Z.ltb_lt in Hneed. lia.
    + apply Z.ltb_ge in Hneed. lia.
  - destruct (Z_lt_le_dec 0 need) as [Hpos|Hle].
    + destruct (Hnew eq_refl Hpos) as [new' [E [Ha _]]].
      rewrite E in Hafter. injection Hafter as <-. lia.
    + rewrite (Hnone eq_refl Hle) in Hafter. discriminate.
Qed.


(** C8, counterexample. A dasher transfer of 300 whose managed account
    transfer already holds 500: the check returns and the record still
    holds 500, not max(300, 0). And a record that references no payment
    account passes the check and still references none. *)
Lemma managed_account_transfer_keeps_larger_amount :
  (exists s',
     managed_account_balance_check K0 gateway_ok (account_7 "dasher" true) 1 300
       (store_of (transfer_1 300 NEW None) (account_7 "dasher" true)
          [managed_transfer_1 500 (Some 7)])
     = (Returned tt, s')
     /\ shortfall K0 gateway_ok (account_7 "dasher" true) 300
          (store_of (transfer_1 300 NEW None) (account_7 "dasher" true)
             [managed_transfer_1 500 (Some 7)]) = 300
     /\ find (managed_transfer_of 1) (managed_account_transfers s')
        = Some (managed_transfer_1 500 (Some 7))
     /\ mat_amount (managed_transfer_1 500 (Some 7)) <> Z.max 300 0)
  /\ (exists s',
        managed_account_balance_check K0 gateway_ok (account_7 "dasher" true) 1 300
          (store_of (transfer_1 300 NEW None) (account_7 "dasher" true)
             [managed_transfer_1 100 None])
        = (Returned tt, s')
        /\ find (managed_transfer_of 1) (managed_account_transfers s')
           = Some (managed_transfer_1 300 None)
        /\ mat_payment_account_id (managed_transfer_1 300 None)
           <> Some (pa_id (account_7 "dasher" true))).
Proof.
  split.
  - eexists. split; [reflexivity|]. split; [reflexivity|]. split; [reflexivity|].
    simpl. lia.
  - eexists. split; [reflexivity|]. split; [reflexivity|]. discriminate.
Qed.

(** A merchant transfer of 500 against a balance of 0 and no record: the
    check creates the record with amount 500 for the account. *)
Lemma managed_account_balance_check_amount_witness :
  exists new,
    find (managed_transfer_of 1)
      (managed_account_transfers
         (snd (managed_account_balance_check K0 gateway_ok
                 (account_7 "merchant" true) 1 500
                 (store_of (transfer_1 500 NEW None) (account_7 "merchant" true) []))))
    = Some new
    /\ mat_amount new = 500
    /\ mat_transfer_id new = 1
    /\ mat_payment_account_id new = Some 7.
Proof.
  destruct (managed_account_balance_check_amount K0 gateway_ok
              (account_7 "merchant" true) 1 500
              (store_of (transfer_1 500 NEW None) (account_7 "merchant" true) [])
              eq_refl) as [_ [H _]].
  apply H; [reflexivity | vm_compute; reflexivity].
Defined.


(** *** What the creation of the payout leaves alone *)

Lemma keeps_ret {A} (a : A) : keeps_submissions (ret a : Op A).
Proof. intros s. reflexivity. Qed.

Lemma keeps_raise {A} (e : Exn) : keeps_submissions (raise e : Op A).
Proof. intros s. reflexivity. Qed.

Lemma keeps_bind {A B} (c : Op A) (k : A -> Op B) :
  keeps_submissions c -> (forall a, keeps_submissions (k a)) ->
  keeps_submissions (bind c k).
Proof.
  intros Hc Hk s. unfold bind. specialize (Hc s).
  destruct (c s) as [[a|e] s0]; simpl in *; [|exact Hc].
  rewrite Hk. exact Hc.
Qed.

Lemma keeps_get_stripe_managed_account_by_id account_id :
  keeps_submissions (get_stripe_managed_account_by_id account_id).
Proof. intros s. reflexivity. Qed.

Lemma keeps_get_managed_account_transfer_by_transfer_id transfer_id :
  keeps_submissions (get_managed_account_transfer_by_transfer_id transfer_id).
Proof. intros s. reflexivity. Qed.

Lemma keeps_update_managed_account_transfer_by_id id data :
  keeps_submissions (update_managed_account_transfer_by_id id data).
Proof. intros s. reflexivity. Qed.

Lemma keeps_utcnow : keeps_submissions utcnow.
Proof. intros s. reflexivity. Qed.

Lemma keeps_create_transfer stripe amount currency destination country :
  keeps_submissions (create_transfer stripe amount currency destination country).
Proof. intros s. reflexivity. Qed.

Lemma keeps_create_payout stripe amount currency country account descriptor metadata :
  keeps_submissions
    (create_payout stripe amount currency country account descriptor metadata).
Proof. intros s. reflexivity. Qed.

Create HintDb keeps.

#[local] Hint Resolve keeps_ret keeps_raise keeps_utcnow
  keeps_get_stripe_managed_account_by_id
  keeps_get_managed_account_transfer_by_transfer_id
  keeps_update_managed_account_transfer_by_id
  keeps_create_transfer keeps_create_payout : keeps.

(** Walks through a computation built from [bind], conditionals and case
    distinctions down to the primitive operations. *)
Ltac keeps_step :=
  match goal with
  | |- keeps_submissions (bind _ _) => apply keeps_bind; [|intros ?]
  | |- keeps_submissions (if ?b then _ else _) => destruct b
  | |- keeps_submissions (match ?x with _ => _ end) => destruct x
  | |- keeps_submissions _ => solve [auto with keeps]
  end.

Lemma keeps_stripe_managed_account_of payment_account :
  keeps_submissions (stripe_managed_account_of payment_account).
Proof. unfold stripe_managed_account_of. repeat keeps_step. Qed.

Lemma keeps_get_country_shortname payment_account :
  keeps_submissions (get_country_shortname payment_account).
Proof. unfold get_country_shortname. repeat keeps_step. Qed.

#[local] Hint Resolve keeps_stripe_managed_account_of keeps_get_country_shortname
  : keeps.

Lemma keeps_submit_managed_account_transfer K stripe mat payment_account :
  keeps_submissions (submit_managed_account_transfer K stripe mat payment_account).
Proof. unfold submit_managed_account_transfer. repeat keeps_step. Qed.

Lemma keeps_get_stripe_transfer_metadata K transfer_id payment_account target_type
    target_id :
  keeps_submissions
    (get_stripe_transfer_metadata K transfer_id payment_account target_type
       target_id).
Proof. unfold get_stripe_transfer_metadata. repeat keeps_step. Qed.

#[local] Hint Resolve keeps_submit_managed_account_transfer
  keeps_get_stripe_transfer_metadata : keeps.

Lemma keeps_create_for_managed_account K stripe amount transfer_id payment_account
    stripe_account_id statement_descriptor target_type target_id :
  keeps_submissions
    (create_for_managed_account K stripe amount transfer_id payment_account
       stripe_account_id statement_descriptor target_type target_id).
Proof. unfold create_for_managed_account. repeat keeps_step. Qed.

(** *** Gateway errors *)

Lemma str_eq_false (x : option string) (c : string) :
  str_eq x c = false <-> x <> Some c.
Proof.
  rewrite <- str_eq_true. destruct (str_eq x c); split; intros H;
    try reflexivity; try discriminate; try (intros H'; discriminate).
  exfalso. now apply H.
Qed.

(** A created row gets a key above every key of its table, so the
    submission record that [submit_stripe_transfer] creates is the row that
    the update by its key finds; it has no gateway id yet. *)
Lemma next_id_above {R} (key : R -> Z) (t : list R) (r : R) :
  In r t -> key r < next_id key t.
Proof.
  unfold next_id. induction t as [|a t IH]; simpl; intros H; [contradiction|].
  destruct H as [->|H]; [lia|]. specialize (IH H). lia.
Qed.

Lemma created_submission_is_found data s :
  exists row,
    create_stripe_transfer data s
    = (Returned row, set_stripe_transfers (stripe_transfers s ++ [row]) s)
    /\ find (fun r => st_id r =? st_id row) (stripe_transfers s ++ [row]) = Some row
    /\ truthy_str (st_stripe_id row) = false.
Proof.
  unfold create_stripe_transfer. eexists. split; [reflexivity|]. split.
  - rewrite find_app_none.
    + simpl. rewrite Z.eqb_refl. reflexivity.
    + apply all_false_find_none. intros r Hin. simpl. apply Z.eqb_neq.
      pose proof (next_id_above st_id _ _ Hin). lia.
  - reflexivity.
Qed.

(** A gateway error arises where the payout is created: when no
    funds have to be moved first and the payout request can be built, an
    error of the gateway's payout call is the error of
    [create_for_managed_account], raised after that one call. *)
Lemma create_for_managed_account_payout_error
    K stripe amount transfer_id payment_account stripe_account_id
    statement_descriptor target_type target_id s country metadata e :
  find (managed_transfer_of transfer_id) (managed_account_transfers s) = None ->
  option_map sma_country_shortname (linked_account payment_account s)
  = Some country ->
  truthy_str (Some country) = true ->
  get_stripe_transfer_metadata K transfer_id payment_account target_type target_id s
  = (Returned metadata, s) ->
  is_Currency K (Some (get_currency_code K country)) = true ->
  is_CountryCode K (Some country) = true ->
  create_payout_result stripe amount (get_currency_code K country) country
    stripe_account_id statement_descriptor metadata = Raised (StripeError e) ->
  create_for_managed_account K stripe amount transfer_id payment_account
    stripe_account_id statement_descriptor target_type target_id s
  = (Raised (StripeError e),
     log_gateway_call
       (CreatePayout amount (get_currency_code K country) country stripe_account_id
          statement_descriptor metadata) s).
Proof.
  intros Hmat Hcountry Htruthy Hmeta Hcur Hcc Hgw.
  unfold create_for_managed_account. unfold bind at 1.
  rewrite get_managed_account_transfer_by_transfer_id_find, Hmat.
  cbv beta iota. unfold bind at 1. unfold ret at 1. cbv beta iota.
  unfold bind at 1. rewrite get_country_shortname_reads, Hcountry.
  cbv beta iota. rewrite Htruthy. unfold bind at 1. rewrite Hmeta.
  cbv beta iota zeta. rewrite Hcur, Hcc. unfold bind, ret. cbv beta iota.
  unfold create_payout. rewrite Hgw. reflexivity.
Qed.

(** The outcome of [_submit_stripe_transfer] when the creation of the
    payout raises a gateway error that has a body: the update that is
    applied to the submission record, and the error that is raised. *)
Lemma submit_stripe_transfer_gateway_error_outcome
    (K : PayoutTypes) (stripe : StripeAsyncClient) (stripe_transfer : StripeTransfer)
    (payment_account : PaymentAccount) (amount transfer_id : Z)
    (statement_descriptor : string) (target_type target_id : option string)
    (s s1 : Store) (stripe_account_id : string) (e : StripeErrorData)
    (error_info : StripeErrorBody) (row : StripeTransfer) :
  error_info_of e = inl error_info ->
  truthy_str (st_stripe_id stripe_transfer) = false ->
  get_stripe_account_id payment_account s = (Returned stripe_account_id, s) ->
  pa_account_type payment_account = Some (ACCOUNT_TYPE_STRIPE_MANAGED_ACCOUNT K) ->
  create_for_managed_account K stripe amount transfer_id payment_account
    stripe_account_id statement_descriptor target_type target_id s
  = (Raised (StripeError e), s1) ->
  find (fun r => st_id r =? st_id stripe_transfer) (stripe_transfers s) = Some row ->
  exists data,
    _submit_stripe_transfer K stripe stripe_transfer payment_account amount
      transfer_id statement_descriptor target_type target_id s
    = (Raised
         (payout_error
            (if str_eq (recorded_error_code K error_info) (NO_EXT_ACCOUNT_IN_CURRENCY K)
             then STRIPE_PAYOUT_ACCT_MISSING
             else if str_eq (recorded_error_code K error_info) (PAYOUT_NOT_ALLOWED K)
             then STRIPE_PAYOUT_DISALLOWED
             else if str_eq (err_type error_info) (INVALID_REQUEST_ERROR K)
             then STRIPE_INVALID_REQUEST_ERROR
             else STRIPE_SUBMISSION_ERROR)
            (err_message error_info)),
       set_stripe_transfers
         (sql_update (fun r => st_id r =? st_id stripe_transfer)
            (apply_StripeTransferUpdate data) (stripe_transfers s1)) s1)
    /\ su_submission_status data
       = Some (Some (if truthy_str (request_id e)
                     then SUBMITTED else FAILED_TO_SUBMIT))
    /\ su_stripe_request_id data = Some (request_id e)
    /\ su_submission_error_code data = Some (recorded_error_code K error_info)
    /\ su_submission_error_type data = Some (err_type error_info)
    /\ su_stripe_status data = Some (STRIPE_TRANSFER_FAILED_STATUS K).
Proof.
  intros Hinfo Hid Hacct Htype Hcfma Hrow.
  assert (Hkept : stripe_transfers s1 = stripe_transfers s).
  { pose proof (keeps_create_for_managed_account K stripe amount transfer_id
                  payment_account stripe_account_id statement_descriptor
                  target_type target_id s) as Hk.
    rewrite Hcfma in Hk. exact Hk. }
  rewrite <- Hkept in Hrow.
  unfold _submit_stripe_transfer. rewrite Hid. unfold bind at 1. rewrite Hacct.
  cbv beta iota.
  rewrite (proj2 (str_eq_true _ _) Htype).
  change (negb true) with false. cbv beta iota.
  unfold except_StripeError, try_except. unfold bind at 1. rewrite Hcfma.
  cbv beta iota. rewrite Hinfo. cbv beta iota zeta.
  unfold bind at 1. rewrite get_country_shortname_reads. cbv beta iota.
  unfold bind at 1. unfold update_stripe_transfer_by_id. cbv beta iota zeta.
  rewrite fetch_one_returning, Hrow.
  cbn [option_map st_submission_error_code st_submission_error_type
       apply_StripeTransferUpdate given su_submission_error_code
       su_submission_error_type].
  fold (recorded_error_code K error_info).
  eexists. split.
  - destruct (str_eq (recorded_error_code K error_info) (NO_EXT_ACCOUNT_IN_CURRENCY K));
      [reflexivity|].
    destruct (str_eq (recorded_error_code K error_info) (PAYOUT_NOT_ALLOWED K));
      [reflexivity|].
    destruct (str_eq (err_type error_info) (INVALID_REQUEST_ERROR K));
      reflexivity.
  - repeat split; reflexivity.
Qed.

(** X28. When the creation of the payout raises a gateway error that has
    a body (a dictionary whose entry ["error"] is a dictionary or is
    missing), the
    submission record is rewritten with the request id, the error type and
    the recorded error code of the error (the code of the gateway when it
    gives one), with submission status SUBMITTED
    when the gateway assigned a request id and FAILED_TO_SUBMIT otherwise,
    and a [PayoutError] is raised to the caller: STRIPE_PAYOUT_ACCT_MISSING
    for the code NO_EXT_ACCOUNT_IN_CURRENCY, else STRIPE_PAYOUT_DISALLOWED
    for the code PAYOUT_NOT_ALLOWED, else STRIPE_INVALID_REQUEST_ERROR for
    the type INVALID_REQUEST_ERROR, else STRIPE_SUBMISSION_ERROR. The error
    is not retryable and carries the message of the gateway. *)
Theorem submit_stripe_transfer_gateway_error
    (K : PayoutTypes) (stripe : StripeAsyncClient) (stripe_transfer : StripeTransfer)
    (payment_account : PaymentAccount) (amount transfer_id : Z)
    (statement_descriptor : string) (target_type target_id : option string)
    (s s1 : Store) (stripe_account_id : string) (e : StripeErrorData)
    (error_info : StripeErrorBody) (row : StripeTransfer) :
  error_info_of e = inl error_info ->
  truthy_str (st_stripe_id stripe_transfer) = false ->
  get_stripe_account_id payment_account s = (Returned stripe_account_id, s) ->
  pa_account_type payment_account = Some (ACCOUNT_TYPE_STRIPE_MANAGED_ACCOUNT K) ->
  create_for_managed_account K stripe amount transfer_id payment_account
    stripe_account_id statement_descriptor target_type target_id s
  = (Raised (StripeError e), s1) ->
  find (fun r => st_id r =? st_id stripe_transfer) (stripe_transfers s) = Some row ->
  let code := recorded_error_code K error_info in
  let type := err_type error_info in
  let res := _submit_stripe_transfer K stripe stripe_transfer payment_account amount
               transfer_id statement_descriptor target_type target_id s in
  (truthy_str (err_code error_info) = true ->
   code = err_code error_info)
  /\ exists d,
    fst res = Raised (PayoutError d)
    /\ retryable d = false
    /\ http_status_code d = HTTP_400_BAD_REQUEST
    /\ error_message d = err_message error_info
    /\ (code = Some (NO_EXT_ACCOUNT_IN_CURRENCY K) ->
        error_code d = STRIPE_PAYOUT_ACCT_MISSING)
    /\ (code <> Some (NO_EXT_ACCOUNT_IN_CURRENCY K) ->
        code = Some (PAYOUT_NOT_ALLOWED K) ->
        error_code d = STRIPE_PAYOUT_DISALLOWED)
    /\ (code <> Some (NO_EXT_ACCOUNT_IN_CURRENCY K) ->
        code <> Some (PAYOUT_NOT_ALLOWED K) ->
        type = Some (INVALID_REQUEST_ERROR K) ->
        error_code d = STRIPE_INVALID_REQUEST_ERROR)
    /\ (code <> Some (NO_EXT_ACCOUNT_IN_CURRENCY K) ->
        code <> Some (PAYOUT_NOT_ALLOWED K) ->
        type <> Some (INVALID_REQUEST_ERROR K) ->
        error_code d = STRIPE_SUBMISSION_ERROR)
    /\ (forall r, In r (stripe_transfers (snd res)) ->
                  st_id r = st_id stripe_transfer ->
                  st_submission_status r
                  = Some (if truthy_str (request_id e)
                          then SUBMITTED else FAILED_TO_SUBMIT)
                  /\ st_stripe_request_id r = request_id e
                  /\ st_submission_error_code r = code
                  /\ st_submission_error_type r = type
                  /\ st_stripe_status r = STRIPE_TRANSFER_FAILED_STATUS K)
    /\ transfers (snd res) = transfers s1
    /\ gateway_calls (snd res) = gateway_calls s1.
Proof.
  intros Hinfo Hid Hacct Htype Hcfma Hrow code type res.
  destruct (@submit_stripe_transfer_gateway_error_outcome K stripe stripe_transfer
              payment_account amount transfer_id statement_descriptor target_type
              target_id s s1 stripe_account_id e error_info row Hinfo Hid Hacct
              Htype Hcfma Hrow)
    as [data [E [Hstatus [Hreq [Hcode [Htyp Hst]]]]]].
  split.
  { intros Hc. subst code. unfold recorded_error_code. rewrite Hc. reflexivity. }
  subst res. rewrite E. fold code in Hcode |- *. fold type in Htyp |- *.
  eexists. split; [reflexivity|]. simpl.
  split; [reflexivity|]. split; [reflexivity|]. split; [reflexivity|].
  split; [|split; [|split; [|split; [|split; [|split]]]]].
  - intros Hc. apply str_eq_true in Hc. rewrite Hc. reflexivity.
  - intros Hn Hc. apply str_eq_false in Hn. apply str_eq_true in Hc.
    rewrite Hn, Hc. reflexivity.
  - intros Hn Hn' Ht. apply str_eq_false in Hn. apply str_eq_false in Hn'.
    apply str_eq_true in Ht. rewrite Hn, Hn', Ht. reflexivity.
  - intros Hn Hn' Ht. apply str_eq_false in Hn. apply str_eq_false in Hn'.
    apply str_eq_false in Ht. rewrite Hn, Hn', Ht. reflexivity.
  - intros r Hin Hr. apply in_sql_update in Hin.
    destruct Hin as [r0 [_ [[_ Er]|[Hp Er]]]]; subst r.
    + unfold apply_StripeTransferUpdate; simpl.
      rewrite Hstatus, Hreq, Hcode, Htyp, Hst. simpl. repeat split; reflexivity.
    + apply Z.eqb_neq in Hp. contradiction.
  - reflexivity.
  - reflexivity.
Qed.


(** The gateway rejects the payout of a merchant transfer of 500 for want
    of an external account in the currency, and assigns a request id. *)
Lemma submit_stripe_transfer_gateway_error_witness :
  exists d,
    fst (_submit_stripe_transfer K0 gateway_no_external_account submitting_row
           (account_7 "merchant" true) 500 1 "payout" None None store_submitting)
    = Raised (PayoutError d)
    /\ error_code d = STRIPE_PAYOUT_ACCT_MISSING
    /\ retryable d = false
    /\ (forall r,
          In r (stripe_transfers
                  (snd (_submit_stripe_transfer K0 gateway_no_external_account
                          submitting_row (account_7 "merchant" true) 500 1 "payout"
                          None None store_submitting))) ->
          st_id r = 1 -> st_submission_status r = Some SUBMITTED).
Proof.
  destruct (@submit_stripe_transfer_gateway_error K0 gateway_no_external_account
              submitting_row (account_7 "merchant" true) 500 1 "payout" None None
              store_submitting
              (snd (create_for_managed_account K0 gateway_no_external_account 500 1
                      (account_7 "merchant" true) "acct_1" "payout" None None
                      store_submitting))
              "acct_1" no_external_account_error
              {| err_message := Some "no external account";
                 err_code := Some "no_external_account_in_currency";
                 err_type := Some "invalid_request_error" |}
              submitting_row eq_refl eq_refl eq_refl eq_refl eq_refl eq_refl)
    as [_ [d [H1 [H2 [_ [_ [H5 [_ [_ [_ [H9 _]]]]]]]]]]].
  exists d. split; [exact H1|]. split; [apply H5; reflexivity|].
  split; [exact H2|].
  intros r Hin Hr. destruct (H9 r Hin Hr) as [Hs _]. exact Hs.
Defined.


(** The outcome of [_submit_stripe_transfer] when the creation of the
    payout raises a gateway error that has no body, or whose entry
    ["error"] is no dictionary: the handler raises [AttributeError] before
    it writes anything. *)
Lemma submit_stripe_transfer_gateway_error_no_info
    (K : PayoutTypes) (stripe : StripeAsyncClient) (stripe_transfer : StripeTransfer)
    (payment_account : PaymentAccount) (amount transfer_id : Z)
    (statement_descriptor : string) (target_type target_id : option string)
    (s s1 : Store) (stripe_account_id : string) (e : StripeErrorData)
    (msg : string) :
  error_info_of e = inr msg ->
  truthy_str (st_stripe_id stripe_transfer) = false ->
  get_stripe_account_id payment_account s = (Returned stripe_account_id, s) ->
  pa_account_type payment_account = Some (ACCOUNT_TYPE_STRIPE_MANAGED_ACCOUNT K) ->
  create_for_managed_account K stripe amount transfer_id payment_account
    stripe_account_id statement_descriptor target_type target_id s
  = (Raised (StripeError e), s1) ->
  _submit_stripe_transfer K stripe stripe_transfer payment_account amount
    transfer_id statement_descriptor target_type target_id s
  = (Raised (AttributeError msg), s1).
Proof.
  intros Hinfo Hid Hacct Htype Hcfma.
  unfold _submit_stripe_transfer. rewrite Hid. unfold bind at 1. rewrite Hacct.
  cbv beta iota.
  rewrite (proj2 (str_eq_true _ _) Htype).
  change (negb true) with false. cbv beta iota.
  unfold except_StripeError, try_except. unfold bind at 1. rewrite Hcfma.
  cbv beta iota. rewrite Hinfo. reflexivity.
Qed.

(** C6, the failing input. The connection to the gateway fails while the
    payout of a merchant transfer of 500 is created, so that the gateway
    error has no body. [_submit_stripe_transfer] raises [AttributeError]
    out of its handler, not a [PayoutError]: the error is not classified,
    the submission record is not rewritten and stays SUBMITTING.
    [submit_stripe_transfer] then returns normally, and leaves the transfer
    ERROR / UNKNOWN_ERROR and the submission record SUBMITTING. *)
Theorem submit_stripe_transfer_gateway_error_without_body :
  _submit_stripe_transfer K0 gateway_connection_error submitting_row
    (account_7 "merchant" true) 500 1 "payout" None None store_submitting
  = (Raised (AttributeError "'NoneType' object has no attribute 'get'"),
     log_gateway_call
       (CreatePayout 500 "usd" "US" "acct_1" "payout"
          [("transfer_id", MInt 1); ("account_id", MInt 7)])
       store_submitting)
  /\ stripe_transfers store_submitting = [submitting_row]
  /\ st_submission_status submitting_row = Some SUBMITTING
  /\ exists s',
       submit_stripe_transfer K0 gateway_connection_error 1
         (account_7 "merchant" true) 500 "payout" None None None
         (store_of (transfer_1 500 NEW None) (account_7 "merchant" true) [])
       = (Returned tt, s')
       /\ transfers s' = [marked ERROR UNKNOWN_ERROR
                            (apply_TransferUpdate TransferUpdate_clear
                               (transfer_1 500 NEW None))]
       /\ map st_submission_status (stripe_transfers s') = [Some SUBMITTING]
       /\ map st_submission_error_code (stripe_transfers s') = [None].
Proof.
  split; [reflexivity|]. split; [reflexivity|]. split; [reflexivity|].
  eexists. split; [reflexivity|]. repeat split.
Qed.


(** *** Exceptions of the final submission *)

Lemma submit_stripe_transfer_outcome
    K stripe transfer_id payment_account amount statement_descriptor target_type
    target_id submitted_by s s1 e :
  submit_stripe_transfer_try K stripe transfer_id payment_account amount
    statement_descriptor target_type target_id submitted_by
    (snd (update_transfer_by_id transfer_id TransferUpdate_clear s))
  = (Raised e, s1) ->
  is_PayoutError e = false ->
  submit_stripe_transfer K stripe transfer_id payment_account amount
    statement_descriptor target_type target_id submitted_by s
  = (Returned tt,
     set_transfers
       (sql_update (transfer_with_id transfer_id) (marked ERROR UNKNOWN_ERROR)
          (transfers s1)) s1).
Proof.
  intros Htry Hnp. unfold submit_stripe_transfer. unfold bind at 1.
  unfold update_transfer_by_id at 1. cbv beta iota zeta.
  unfold try_except. simpl snd in Htry. unfold update_transfer_by_id in Htry.
  simpl snd in Htry. rewrite Htry.
  destruct e; try discriminate Hnp; reflexivity.
Qed.

(** C7. When the [try] block of [submit_stripe_transfer] raises an
    exception that is not a [PayoutError], [submit_stripe_transfer] returns
    normally, and the transfer is left with status ERROR and status code
    UNKNOWN_ERROR; nothing else is written after the exception. *)
Theorem submit_stripe_transfer_absorbs_unexpected
    (K : PayoutTypes) (stripe : StripeAsyncClient) (transfer_id : Z)
    (payment_account : PaymentAccount) (amount : Z) (statement_descriptor : string)
    (target_type target_id : option string) (submitted_by : option Z)
    (s s1 : Store) (e : Exn) :
  submit_stripe_transfer_try K stripe transfer_id payment_account amount
    statement_descriptor target_type target_id submitted_by
    (snd (update_transfer_by_id transfer_id TransferUpdate_clear s))
  = (Raised e, s1) ->
  is_PayoutError e = false ->
  let res := submit_stripe_transfer K stripe transfer_id payment_account amount
               statement_descriptor target_type target_id submitted_by s in
  fst res = Returned tt
  /\ (forall r, In r (transfers (snd res)) -> t_id r = transfer_id ->
                t_status r = ERROR /\ t_status_code r = Some UNKNOWN_ERROR)
  /\ snd res
     = set_transfers
         (sql_update (transfer_with_id transfer_id) (marked ERROR UNKNOWN_ERROR)
            (transfers s1)) s1
  /\ stripe_transfers (snd res) = stripe_transfers s1
  /\ managed_account_transfers (snd res) = managed_account_transfers s1
  /\ gateway_calls (snd res) = gateway_calls s1.
Proof.
  intros Htry Hnp res. subst res.
  rewrite (submit_stripe_transfer_outcome _ _ _ _ _ _ _ _ _ _ Htry Hnp). simpl.
  split; [reflexivity|]. split; [|repeat split; reflexivity].
  intros r Hin Hid. eapply marked_rows; eassumption.
Qed.

(** The client of the gateway times out while the payout of a merchant
    transfer of 500 is created. *)
Lemma submit_stripe_transfer_absorbs_unexpected_witness :
  fst (submit_stripe_transfer K0 gateway_timeout 1 (account_7 "merchant" true) 500
         "payout" None None None
         (store_of (transfer_1 500 NEW None) (account_7 "merchant" true) []))
  = Returned tt
  /\ map t_status
       (transfers
          (snd (submit_stripe_transfer K0 gateway_timeout 1
                  (account_7 "merchant" true) 500 "payout" None None None
                  (store_of (transfer_1 500 NEW None) (account_7 "merchant" true) []))))
     = [ERROR]
  /\ map t_status_code
       (transfers
          (snd (submit_stripe_transfer K0 gateway_timeout 1
                  (account_7 "merchant" true) 500 "payout" None None None
                  (store_of (transfer_1 500 NEW None) (account_7 "merchant" true) []))))
     = [Some UNKNOWN_ERROR].
Proof.
  destruct (@submit_stripe_transfer_absorbs_unexpected K0 gateway_timeout 1
              (account_7 "merchant" true) 500 "payout" None None None
              (store_of (transfer_1 500 NEW None) (account_7 "merchant" true) [])
              (snd (submit_stripe_transfer_try K0 gateway_timeout 1
                      (account_7 "merchant" true) 500 "payout" None None None
                      (snd (update_transfer_by_id 1 TransferUpdate_clear
                              (store_of (transfer_1 500 NEW None)
                                 (account_7 "merchant" true) [])))))
              (GatewayException "timeout") eq_refl eq_refl)
    as [H1 [_ [H3 _]]].
  split; [exact H1|]. rewrite H3. split; reflexivity.
Defined.

(** A [PayoutError] of the [try] block, on the other hand, is raised again
    after the transfer is marked. *)
Lemma submit_stripe_transfer_reraises_payout_error
    K stripe transfer_id payment_account amount statement_descriptor target_type
    target_id submitted_by s s1 d :
  submit_stripe_transfer_try K stripe transfer_id payment_account amount
    statement_descriptor target_type target_id submitted_by
    (snd (update_transfer_by_id transfer_id TransferUpdate_clear s))
  = (Raised (PayoutError d), s1) ->
  fst (submit_stripe_transfer K stripe transfer_id payment_account amount
         statement_descriptor target_type target_id submitted_by s)
  = Raised (PayoutError d).
Proof.
  intros Htry. unfold submit_stripe_transfer. unfold bind at 1.
  unfold update_transfer_by_id at 1. cbv beta iota zeta.
  unfold try_except. unfold update_transfer_by_id in Htry.
  simpl snd in Htry. rewrite Htry.
  unfold bind. simpl.
  destruct (existsb (PayoutErrorCode_eqb (error_code d))
              (TRANSFER_ERROR_TYPE_TO_FAILED_STATUS K)); reflexivity.
Qed.

End PayoutSpec.

(* ===================================================================== *)
(** ** Payout: further properties of the submission                      *)
(* ===================================================================== *)

Module PayoutMore.
Import Payout PayoutData PayoutMoreData.

(** *** [_execute] *)

(** X1. [_execute] rejects a request before anything is written when the
    transfer does not exist (TRANSFER_NOT_FOUND), when the transfer carries
    no payment account id (the assertion fails), and when the payment
    account does not exist (INVALID_PAYMENT_ACCOUNT_ID). *)
Theorem execute_rejects_unknown_transfer_or_account
    (K : PayoutTypes) (stripe : StripeAsyncClient) (request : SubmitTransferRequest)
    (s : Store) :
  (get_transfer_by_id (req_transfer_id request) s = (Returned None, s) ->
   _execute K stripe request s
   = (Raised (payout_error TRANSFER_NOT_FOUND None), s))
  /\ (forall transfer,
        get_transfer_by_id (req_transfer_id request) s
        = (Returned (Some transfer), s) ->
        truthy_int (t_payment_account_id transfer) = false ->
        exists msg, _execute K stripe request s = (Raised (AssertionError msg), s))
  /\ (forall transfer payment_account_id,
        get_transfer_by_id (req_transfer_id request) s
        = (Returned (Some transfer), s) ->
        t_payment_account_id transfer = Some payment_account_id ->
        payment_account_id <> 0 ->
        get_payment_account_by_id payment_account_id s = (Returned None, s) ->
        _execute K stripe request s
        = (Raised (payout_error INVALID_PAYMENT_ACCOUNT_ID None), s)).
Proof.
  split; [|split].
  - intros H. rewrite PayoutSpec.get_transfer_by_id_find in H. injection H as H.
    rewrite PayoutSpec.execute_unfold, H. reflexivity.
  - intros transfer H Hf. rewrite PayoutSpec.get_transfer_by_id_find in H.
    injection H as H. rewrite PayoutSpec.execute_unfold, H, Hf.
    eexists. reflexivity.
  - intros transfer pid H Hpid Hnz Hpa.
    rewrite PayoutSpec.get_transfer_by_id_find in H. injection H as H.
    rewrite PayoutSpec.get_payment_account_by_id_find in Hpa. injection Hpa as Hpa.
    rewrite PayoutSpec.execute_unfold, H, Hpid. simpl.
    apply Z.eqb_neq in Hnz. rewrite Hnz. simpl. rewrite Hpa. reflexivity.
Qed.

(** X2. No call of [_execute] returns normally, calls the gateway, creates
    or rewrites a submission record or a managed account transfer, or moves
    the clock; the only rows it may rewrite are the transfers with the
    requested id, which it marks ERROR / ERROR_INVALID_STATE. *)
Theorem execute_never_submits
    (K : PayoutTypes) (stripe : StripeAsyncClient) (request : SubmitTransferRequest)
    (s : Store) :
  (exists e, fst (_execute K stripe request s) = Raised e)
  /\ gateway_calls (snd (_execute K stripe request s)) = gateway_calls s
  /\ stripe_transfers (snd (_execute K stripe request s)) = stripe_transfers s
  /\ managed_account_transfers (snd (_execute K stripe request s))
     = managed_account_transfers s
  /\ payment_accounts (snd (_execute K stripe request s)) = payment_accounts s
  /\ clock (snd (_execute K stripe request s)) = clock s
  /\ Forall2
       (fun r r' =>
          r' = r
          \/ (t_id r = req_transfer_id request
              /\ r' = marked ERROR ERROR_INVALID_STATE r))
       (transfers s) (transfers (snd (_execute K stripe request s))).
Proof.
  rewrite PayoutSpec.execute_unfold.
  assert (Hsame : Forall2
            (fun r r' : Transfer =>
               r' = r
               \/ (t_id r = req_transfer_id request
                   /\ r' = marked ERROR ERROR_INVALID_STATE r))
            (transfers s) (transfers s)).
  { induction (transfers s); constructor; auto. }
  destruct (find (transfer_with_id (req_transfer_id request)) (transfers s))
    as [transfer|]; [|simpl; repeat split; eauto].
  destruct (truthy_int (t_payment_account_id transfer));
    [|simpl; repeat split; eauto].
  destruct (t_payment_account_id transfer) as [pid|]; [|simpl; repeat split; eauto].
  destruct (find (fun r => pa_id r =? pid) (payment_accounts s));
    [|simpl; repeat split; eauto].
  simpl. repeat split; eauto.
  eapply Forall2_impl; [|apply sql_update_rows].
  intros r r' [[Hp E]|[_ E]]; [right|left; exact E].
  unfold transfer_with_id in Hp. apply Z.eqb_eq in Hp. split; assumption.
Qed.


(** *** The guards of [_execute_with] *)

(** Runs the first steps of [_execute_with] for a validated request. *)
Ltac pass_validation Hv transactions :=
  let Ht := fresh "Ht" in
  let pid := fresh "pid" in
  let Hpid := fresh "Hpid" in
  let Hnz := fresh "Hnz" in
  let Hpa := fresh "Hpa" in
  let Hne := fresh "Hne" in
  let Hsum := fresh "Hsum" in
  let Hcur := fresh "Hcur" in
  destruct Hv as [Ht [[pid [Hpid [Hnz Hpa]]] [Hne [Hsum Hcur]]]];
  unfold _execute_with; unfold bind at 1;
  rewrite Ht; cbv beta iota;
  rewrite Hpid; unfold truthy_int;
  apply Z.eqb_neq in Hnz; rewrite Hnz;
  unfold bind at 1; unfold assert_ at 1; change (negb false) with true;
  unfold ret at 1; cbv beta iota;
  unfold bind at 1; rewrite Hpa; cbv beta iota;
  destruct transactions; [contradiction Hne; reflexivity|];
  rewrite Hsum, Z.sub_diag; change (negb (Z.abs 0 =? 0)) with false;
  unfold bind at 1; unfold ret at 1; cbv beta iota;
  rewrite Hcur; change (negb true) with false;
  unfold bind at 1; unfold ret at 1; cbv beta iota.

(** X3. A transfer whose constituent transactions do not add up to its
    amount is marked ERROR / ERROR_AMOUNT_MISMATCH and the request is
    rejected with MISMATCHED_TRANSFER_AMOUNT; the gateway is not called. *)
Theorem execute_with_amount_mismatch
    (K : PayoutTypes) (stripe : StripeAsyncClient) (request : SubmitTransferRequest)
    (transactions : list TransactionDBEntity) (s : Store) (transfer : Transfer)
    (payment_account_id : Z) (payment_account : PaymentAccount) :
  get_transfer_by_id (req_transfer_id request) s = (Returned (Some transfer), s) ->
  t_payment_account_id transfer = Some payment_account_id ->
  payment_account_id <> 0 ->
  get_payment_account_by_id payment_account_id s
  = (Returned (Some payment_account), s) ->
  transactions <> [] ->
  fold_right Z.add 0 (map txn_amount transactions) <> t_amount transfer ->
  _execute_with K stripe request transactions s
  = (Raised (payout_error MISMATCHED_TRANSFER_AMOUNT None),
     set_transfers
       (sql_update (transfer_with_id (req_transfer_id request))
          (marked ERROR ERROR_AMOUNT_MISMATCH) (transfers s)) s).
Proof.
  intros Ht Hpid Hnz Hpa Hne Hsum.
  unfold _execute_with; unfold bind at 1.
  rewrite Ht; cbv beta iota.
  rewrite Hpid; unfold truthy_int.
  apply Z.eqb_neq in Hnz; rewrite Hnz.
  unfold bind at 1; unfold assert_ at 1; change (negb false) with true.
  unfold ret at 1. cbv beta iota.
  unfold bind at 1; rewrite Hpa; cbv beta iota.
  destruct transactions as [|tx txs]; [contradiction Hne; reflexivity|].
  assert (Hd : negb (Z.abs (fold_right Z.add 0 (map txn_amount (tx :: txs))
                            - t_amount transfer) =? 0) = true).
  { apply negb_true_iff. apply Z.eqb_neq. lia. }
  rewrite Hd. reflexivity.
Qed.

Lemma execute_with_amount_mismatch_witness :
  _execute_with K0 gateway_ok (request_1 true) [transaction_of 400]
    (store_of (transfer_1 500 NEW None) (account_7 "merchant" true) [])
  = (Raised (payout_error MISMATCHED_TRANSFER_AMOUNT None),
     store_of (marked ERROR ERROR_AMOUNT_MISMATCH (transfer_1 500 NEW None))
       (account_7 "merchant" true) []).
Proof.
  apply (@execute_with_amount_mismatch K0 gateway_ok (request_1 true)
           [transaction_of 400]
           (store_of (transfer_1 500 NEW None) (account_7 "merchant" true) [])
           (transfer_1 500 NEW None) 7 (account_7 "merchant" true));
    try reflexivity; discriminate.
Defined.

(** X4. In the body of [_execute], run on constituent transactions that
    add up to the amount of the transfer, a request for a transfer that is
    deleted is rejected, whatever its retry flag and method, and nothing is
    written: with TRANSFER_ALREADY_DELETED when the transfer has a
    currency, and before the test of the deletion, with the
    [ValidationError] of the update of the currency, when it has none. *)
Theorem execute_with_deleted_transfer
    (K : PayoutTypes) (stripe : StripeAsyncClient) (request : SubmitTransferRequest)
    (transactions : list TransactionDBEntity) (s : Store) (transfer : Transfer)
    (payment_account : PaymentAccount) (deleted_at : datetime) :
  reconciled request transactions s transfer payment_account ->
  t_deleted_at transfer = Some deleted_at ->
  _execute_with K stripe request transactions s
  = (Raised (if truthy_str (t_currency transfer)
             then payout_error TRANSFER_ALREADY_DELETED None
             else ValidationError), s).
Proof.
  intros [Ht [[pid [Hpid [Hnz Hpa]]] [Hne Hsum]]] Hdel.
  destruct (truthy_str (t_currency transfer)) eqn:Hcur.
  - assert (Hv : validated request transactions s transfer payment_account).
    { split; [exact Ht|]. split; [exists pid; repeat split; assumption|].
      split; [exact Hne|]. split; [exact Hsum | exact Hcur]. }
    pass_validation Hv transactions. rewrite Hdel. reflexivity.
  - unfold _execute_with. unfold bind at 1. rewrite Ht. cbv beta iota.
    rewrite Hpid. unfold truthy_int.
    apply Z.eqb_neq in Hnz. rewrite Hnz.
    unfold bind at 1. unfold assert_ at 1. change (negb false) with true.
    unfold ret at 1. cbv beta iota.
    unfold bind at 1. rewrite Hpa. cbv beta iota.
    destruct transactions; [contradiction Hne; reflexivity|].
    rewrite Hsum, Z.sub_diag. change (negb (Z.abs 0 =? 0)) with false.
    unfold bind at 1. unfold ret at 1. cbv beta iota.
    rewrite Hcur. reflexivity.
Qed.


(** Runs the guards on deletion, duplicates and retries and the assertion
    on the method for an allowed retry. *)
Ltac pass_retry_guard Hr :=
  let Hdel := fresh "Hdel" in
  let Hretry := fresh "Hretry" in
  let Hen := fresh "Hen" in
  let Hchoice := fresh "Hchoice" in
  let Hguard := fresh "Hguard" in
  destruct Hr as [Hdel [Hretry [Hen Hchoice]]];
  rewrite Hdel; unfold truthy_obj at 1; cbv beta iota;
  rewrite Hretry; change (negb true) with false; cbv beta iota;
  match goal with
  | |- context [TransferStatusType_eqb ?st ERROR && negb ?en] =>
      assert (Hguard : TransferStatusType_eqb st ERROR && negb en = false)
        by (destruct (TransferStatusType_eqb st ERROR) eqn:Hst;
            [apply PayoutSpec.TransferStatusType_eqb_eq in Hst;
             rewrite (Hen Hst); reflexivity
            | reflexivity]);
      rewrite Hguard
  end;
  unfold bind at 1; unfold ret at 1; cbv beta iota;
  rewrite Hchoice; unfold bind at 1; unfold assert_ at 1; unfold ret at 1;
  cbv beta iota.

(** X5. An allowed retry of a dummy transfer (the amount is zero, or the
    method is DOORDASH_PAY or COD_INVOICE) returns normally: every transfer
    row with the id ends PAID with no status code, with the method of the
    request and with [submitted_at] set to the time of the call; the
    gateway is not called and no submission record is created. *)
Theorem execute_with_dummy_transfer
    (K : PayoutTypes) (stripe : StripeAsyncClient) (request : SubmitTransferRequest)
    (transactions : list TransactionDBEntity) (s : Store) (transfer : Transfer)
    (payment_account : PaymentAccount) :
  validated request transactions s transfer payment_account ->
  retry_allowed K request transfer payment_account ->
  is_dummy_transfer K request transfer = true ->
  fst (_execute_with K stripe request transactions s)
  = Returned SubmitTransferResponse_
  /\ (forall r,
        In r (transfers (snd (_execute_with K stripe request transactions s))) ->
        t_id r = req_transfer_id request ->
        t_status r = PAID /\ t_status_code r = None
        /\ t_submitted_at r = Some (clock s) /\ t_method r = req_method request)
  /\ gateway_calls (snd (_execute_with K stripe request transactions s))
     = gateway_calls s
  /\ stripe_transfers (snd (_execute_with K stripe request transactions s))
     = stripe_transfers s
  /\ managed_account_transfers (snd (_execute_with K stripe request transactions s))
     = managed_account_transfers s.
Proof.
  intros Hv Hr Hdummy.
  assert (E : exists data,
    _execute_with K stripe request transactions s
    = (Returned SubmitTransferResponse_,
       set_transfers
         (sql_update (transfer_with_id (req_transfer_id request))
            (apply_TransferUpdate data) (transfers s)) (tick s))
    /\ u_status data = Some PAID /\ u_status_code data = Some None
    /\ u_submitted_at data = Some (Some (clock s))
    /\ u_method data = Some (req_method request)).
  { pass_validation Hv transactions. pass_retry_guard Hr.
    unfold is_dummy_transfer in Hdummy. rewrite Hdummy.
    eexists. split; [reflexivity|]. repeat split; reflexivity. }
  destruct E as [data [E [H1 [H2 [H3 H4]]]]]. rewrite E. simpl.
  split; [reflexivity|]. split; [|repeat split; reflexivity].
  intros r Hin Hid. apply in_sql_update in Hin.
  destruct Hin as [r0 [_ [[_ Er]|[Hp Er]]]]; subst r.
  - unfold apply_TransferUpdate. simpl. rewrite H1, H2, H3, H4.
    repeat split; reflexivity.
  - unfold transfer_with_id in Hp. apply Z.eqb_neq in Hp. contradiction.
Qed.


(** Discharges [validated] and [retry_allowed] on concrete data. *)
Ltac concrete_validated :=
  unfold validated;
  split; [reflexivity|];
  split; [eexists; split; [reflexivity|]; split; [discriminate|reflexivity]|];
  split; [discriminate|]; split; reflexivity.

Ltac concrete_retry_allowed :=
  unfold retry_allowed;
  split; [reflexivity|]; split; [reflexivity|];
  split; [try (intros H; discriminate H); try reflexivity | reflexivity].

Lemma execute_with_deleted_transfer_witness :
  _execute_with K0 gateway_ok (request_1 false) [transaction_of 500]
    (store_of (transfer_deleted 500 90) (account_7 "merchant" true) [])
  = (Raised (payout_error TRANSFER_ALREADY_DELETED None),
     store_of (transfer_deleted 500 90) (account_7 "merchant" true) []).
Proof.
  apply (@execute_with_deleted_transfer K0 gateway_ok (request_1 false)
           [transaction_of 500]
           (store_of (transfer_deleted 500 90) (account_7 "merchant" true) [])
           (transfer_deleted 500 90) (account_7 "merchant" true) 90);
    [|reflexivity].
  split; [reflexivity|]. split; [exists 7; repeat split; discriminate|].
  split; [discriminate | reflexivity].
Defined.

(** A retry with the method DoorDash Pay of a transfer of 500. *)
Lemma execute_with_dummy_transfer_witness :
  fst (_execute_with K0 gateway_ok (request_with_method "doordash_pay" None)
         [transaction_of 500]
         (store_of (transfer_1 500 NEW None) (account_7 "merchant" true) []))
  = Returned SubmitTransferResponse_
  /\ gateway_calls
       (snd (_execute_with K0 gateway_ok (request_with_method "doordash_pay" None)
               [transaction_of 500]
               (store_of (transfer_1 500 NEW None) (account_7 "merchant" true) [])))
     = [].
Proof.
  destruct (@execute_with_dummy_transfer K0 gateway_ok
              (request_with_method "doordash_pay" None) [transaction_of 500]
              (store_of (transfer_1 500 NEW None) (account_7 "merchant" true) [])
              (transfer_1 500 NEW None) (account_7 "merchant" true))
    as [H1 [_ [H3 _]]];
    [concrete_validated | concrete_retry_allowed | reflexivity |].
  split; [exact H1 | exact H3].
Defined.


Lemma nonempty_filter_existsb {A} (p : A -> bool) (l : list A) :
  (0 <? Z.of_nat (List.length (filter p l))) = existsb p l.
Proof.
  induction l as [|a l IH]; simpl; [reflexivity|].
  destruct (p a); simpl; [|exact IH].
  apply Z.ltb_lt. lia.
Qed.

Lemma is_processing_or_processed_for_method_reads K transfer_id method s :
  is_processing_or_processed_for_method K transfer_id method s
  = (Returned (str_eq method (PayoutMethodType_STRIPE K)
               && existsb (ongoing_for K transfer_id) (stripe_transfers s)), s).
Proof.
  unfold is_processing_or_processed_for_method.
  destruct (str_eq method (PayoutMethodType_STRIPE K)); [|reflexivity].
  unfold bind, get_all_ongoing_stripe_transfers_by_transfer_id, sql_select, ret.
  fold (ongoing_for K transfer_id). rewrite nonempty_filter_existsb.
  reflexivity.
Qed.

Lemma is_processing_or_processed_for_method_ongoing K transfer_id s r :
  In r (stripe_transfers s) -> st_transfer_id r = transfer_id ->
  ongoing_stripe_transfer K r = true ->
  is_processing_or_processed_for_method K transfer_id
    (Some (PayoutMethodType_STRIPE K)) s
  = (Returned true, s).
Proof.
  intros Hin Hid Hon. rewrite is_processing_or_processed_for_method_reads.
  rewrite (proj2 (PayoutSpec.str_eq_true _ _) eq_refl). simpl.
  replace (existsb (ongoing_for K transfer_id) (stripe_transfers s)) with true;
    [reflexivity|].
  symmetry. apply existsb_exists. exists r. split; [exact Hin|].
  unfold ongoing_for. rewrite Hid, Z.eqb_refl, Hon. reflexivity.
Qed.

(** X6. [is_processing_or_processed_for_method] reads only: it answers
    true exactly when the method is the gateway method and some submission
    record of the transfer is still going on, and false for every other
    method whatever the records. *)
Theorem is_processing_or_processed_for_method_answer
    (K : PayoutTypes) (transfer_id : Z) (method : option string) (s : Store) :
  is_processing_or_processed_for_method K transfer_id method s
  = (Returned (str_eq method (PayoutMethodType_STRIPE K)
               && existsb (ongoing_for K transfer_id) (stripe_transfers s)), s)
  /\ (method <> Some (PayoutMethodType_STRIPE K) ->
      is_processing_or_processed_for_method K transfer_id method s
      = (Returned false, s))
  /\ (method = Some (PayoutMethodType_STRIPE K) ->
      (exists r, In r (stripe_transfers s) /\ st_transfer_id r = transfer_id
                 /\ ongoing_stripe_transfer K r = true) ->
      is_processing_or_processed_for_method K transfer_id method s
      = (Returned true, s)).
Proof.
  pose proof (is_processing_or_processed_for_method_reads K transfer_id method s)
    as E.
  split; [exact E|]. split.
  - intros Hm. rewrite E. apply PayoutSpec.str_eq_false in Hm. rewrite Hm.
    reflexivity.
  - intros Hm [r [Hin [Hid Hon]]]. subst method.
    apply (is_processing_or_processed_for_method_ongoing K s r Hin Hid Hon).
Qed.

(** X7. An allowed retry through the gateway of a transfer that has a
    submission record still going on is rejected with TRANSFER_PROCESSING;
    nothing is written and the gateway is not called. *)
Theorem execute_with_transfer_processing
    (K : PayoutTypes) (stripe : StripeAsyncClient) (request : SubmitTransferRequest)
    (transactions : list TransactionDBEntity) (s : Store) (transfer : Transfer)
    (payment_account : PaymentAccount) (ongoing : StripeTransfer) :
  validated request transactions s transfer payment_account ->
  retry_allowed K request transfer payment_account ->
  is_dummy_transfer K request transfer = false ->
  req_method request = Some (PayoutMethodType_STRIPE K) ->
  In ongoing (stripe_transfers s) ->
  st_transfer_id ongoing = req_transfer_id request ->
  ongoing_stripe_transfer K ongoing = true ->
  _execute_with K stripe request transactions s
  = (Raised (payout_error TRANSFER_PROCESSING None), s).
Proof.
  intros Hv Hr Hdummy Hm Hin Hid Hon.
  pose proof (is_processing_or_processed_for_method_ongoing K s ongoing Hin Hid
                Hon) as Hp.
  rewrite <- Hm in Hp.
  pass_validation Hv transactions. pass_retry_guard Hr.
  unfold is_dummy_transfer in Hdummy. rewrite Hdummy.
  unfold bind at 1. rewrite Hp. reflexivity.
Qed.

Lemma execute_with_transfer_processing_witness :
  _execute_with K0 gateway_ok (request_1 true) [transaction_of 500]
    (store_with_submission (transfer_1 500 NEW None) (account_7 "merchant" true))
  = (Raised (payout_error TRANSFER_PROCESSING None),
     store_with_submission (transfer_1 500 NEW None) (account_7 "merchant" true)).
Proof.
  apply (@execute_with_transfer_processing K0 gateway_ok (request_1 true)
           [transaction_of 500]
           (store_with_submission (transfer_1 500 NEW None)
              (account_7 "merchant" true))
           (transfer_1 500 NEW None) (account_7 "merchant" true) submitting_row);
    [concrete_validated | concrete_retry_allowed | reflexivity | reflexivity
    | simpl; left; reflexivity | reflexivity | reflexivity].
Defined.

(** *** The gateway account *)

Lemma has_stripe_managed_account_unfold payment_account transfer_id s :
  has_stripe_managed_account payment_account transfer_id s
  = match linked_account payment_account s with
    | Some _ => (Returned true, s)
    | None =>
        (Raised (payout_error INVALID_STRIPE_ACCOUNT_ID None),
         set_transfers
           (sql_update (transfer_with_id transfer_id)
              (marked FAILED ERROR_NO_GATEWAY_ACCOUNT) (transfers s)) s)
    end.
Proof.
  unfold has_stripe_managed_account, linked_account. unfold bind at 1.
  destruct (pa_account_id payment_account) as [account_id|]; [|reflexivity].
  destruct (truthy_int (Some account_id)); [|reflexivity].
  unfold bind at 1. unfold get_stripe_managed_account_by_id.
  rewrite fetch_one_select.
  destruct (find (fun r => sma_id r =? account_id) (stripe_managed_accounts s));
    reflexivity.
Qed.

(** X8. [has_stripe_managed_account] returns [True] and writes nothing
    when the payment account links to a stored gateway sub-account;
    otherwise (no account id, the id 0, or no such sub-account) it marks
    every transfer row with the id FAILED / ERROR_NO_GATEWAY_ACCOUNT and
    raises INVALID_STRIPE_ACCOUNT_ID. It never calls the gateway. *)
Theorem has_stripe_managed_account_outcome
    (payment_account : PaymentAccount) (transfer_id : Z) (s : Store) :
  (forall sma, linked_account payment_account s = Some sma ->
     has_stripe_managed_account payment_account transfer_id s = (Returned true, s))
  /\ (linked_account payment_account s = None ->
      has_stripe_managed_account payment_account transfer_id s
      = (Raised (payout_error INVALID_STRIPE_ACCOUNT_ID None),
         set_transfers
           (sql_update (transfer_with_id transfer_id)
              (marked FAILED ERROR_NO_GATEWAY_ACCOUNT) (transfers s)) s))
  /\ (linked_account payment_account s = None ->
      forall r,
        In r (transfers
                (snd (has_stripe_managed_account payment_account transfer_id s))) ->
        t_id r = transfer_id ->
        t_status r = FAILED /\ t_status_code r = Some ERROR_NO_GATEWAY_ACCOUNT)
  /\ gateway_calls (snd (has_stripe_managed_account payment_account transfer_id s))
     = gateway_calls s.
Proof.
  rewrite has_stripe_managed_account_unfold. split; [|split; [|split]].
  - intros sma H. rewrite H. reflexivity.
  - intros H. rewrite H. reflexivity.
  - intros H r Hin Hid. rewrite H in Hin. simpl in Hin.
    eapply PayoutSpec.marked_rows; eassumption.
  - destruct (linked_account payment_account s); reflexivity.
Qed.

(** X9. An allowed retry through the gateway, with no submission going
    on, for a payment account that links to no gateway sub-account is
    rejected with INVALID_STRIPE_ACCOUNT_ID; the transfer ends FAILED /
    ERROR_NO_GATEWAY_ACCOUNT and the gateway is not called. *)
Theorem execute_with_no_gateway_account
    (K : PayoutTypes) (stripe : StripeAsyncClient) (request : SubmitTransferRequest)
    (transactions : list TransactionDBEntity) (s : Store) (transfer : Transfer)
    (payment_account : PaymentAccount) :
  validated request transactions s transfer payment_account ->
  retry_allowed K request transfer payment_account ->
  is_dummy_transfer K request transfer = false ->
  req_method request = Some (TransferMethodType_STRIPE K) ->
  (forall r, In r (stripe_transfers s) ->
             st_transfer_id r = req_transfer_id request ->
             ongoing_stripe_transfer K r = false) ->
  linked_account payment_account s = None ->
  _execute_with K stripe request transactions s
  = (Raised (payout_error INVALID_STRIPE_ACCOUNT_ID None),
     set_transfers
       (sql_update (transfer_with_id (req_transfer_id request))
          (marked FAILED ERROR_NO_GATEWAY_ACCOUNT) (transfers s)) s).
Proof.
  intros Hv Hr Hdummy Hm Hnone Hlinked.
  pose proof (is_processing_or_processed_for_method_reads K
                (req_transfer_id request) (req_method request) s) as Hp.
  assert (Hex : existsb (ongoing_for K (req_transfer_id request))
                  (stripe_transfers s) = false).
  { destruct (existsb (ongoing_for K (req_transfer_id request))
                (stripe_transfers s)) eqn:He; [|reflexivity].
    apply existsb_exists in He. destruct He as [r [Hin Hon]].
    unfold ongoing_for in Hon. apply andb_true_iff in Hon.
    destruct Hon as [Hid Hon]. apply Z.eqb_eq in Hid.
    rewrite (Hnone r Hin Hid) in Hon. discriminate. }
  rewrite Hex, andb_false_r in Hp.
  pose proof (has_stripe_managed_account_unfold payment_account
                (req_transfer_id request) s) as Hsma.
  rewrite Hlinked in Hsma.
  pass_validation Hv transactions. pass_retry_guard Hr.
  unfold is_dummy_transfer in Hdummy. rewrite Hdummy.
  unfold bind at 1. rewrite Hp. cbv beta iota.
  rewrite (proj2 (PayoutSpec.str_eq_true _ _) Hm).
  unfold bind at 1. unfold bind at 1. rewrite Hsma. reflexivity.
Qed.

Lemma execute_with_no_gateway_account_witness :
  _execute_with K0 gateway_ok (request_1 true) [transaction_of 500]
    (store_of (transfer_1 500 NEW None) account_unlinked [])
  = (Raised (payout_error INVALID_STRIPE_ACCOUNT_ID None),
     store_of (marked FAILED ERROR_NO_GATEWAY_ACCOUNT (transfer_1 500 NEW None))
       account_unlinked []).
Proof.
  apply (@execute_with_no_gateway_account K0 gateway_ok (request_1 true)
           [transaction_of 500]
           (store_of (transfer_1 500 NEW None) account_unlinked [])
           (transfer_1 500 NEW None) account_unlinked);
    [concrete_validated | concrete_retry_allowed | reflexivity | reflexivity
    | intros r Hin; simpl in Hin; contradiction | reflexivity].
Defined.


(** *** The balance check rejects a record of another account *)

(** X10. When the managed account transfer found for the transfer
    references a payment account (an id other than 0) that is not the
    payment account of the transfer, the balance check raises
    MISMATCHED_TRANSFER_PAYMENT_ACCOUNT with a message that names both
    account ids, marks the transfer ERROR / ERROR_ACCOUNT_ID_MISMATCH and
    leaves the managed account transfers as they were. *)
Theorem managed_account_balance_check_account_mismatch
    (K : PayoutTypes) (stripe : StripeAsyncClient) (payment_account : PaymentAccount)
    (transfer_id amount : Z) (s : Store) (record : ManagedAccountTransfer)
    (other_account : Z) :
  find (managed_transfer_of transfer_id) (managed_account_transfers s)
  = Some record ->
  mat_payment_account_id record = Some other_account ->
  other_account <> 0 ->
  other_account <> pa_id payment_account ->
  let res := managed_account_balance_check K stripe payment_account transfer_id
               amount s in
  fst res
  = Raised (payout_error MISMATCHED_TRANSFER_PAYMENT_ACCOUNT
              (Some ("Transfer: " ++ py_str_int (pa_id payment_account)
                     ++ "; Managed Account Transfer: "
                     ++ py_str_int other_account)))
  /\ managed_account_transfers (snd res) = managed_account_transfers s
  /\ transfers (snd res)
     = sql_update (transfer_with_id transfer_id)
         (marked ERROR ERROR_ACCOUNT_ID_MISMATCH) (transfers s)
  /\ (forall r, In r (transfers (snd res)) -> t_id r = transfer_id ->
                t_status r = ERROR /\ t_status_code r = Some ERROR_ACCOUNT_ID_MISMATCH).
Proof.
  intros Hfind Hacc Hnz Hne res.
  assert (E : exists s0,
    res = (Raised (payout_error MISMATCHED_TRANSFER_PAYMENT_ACCOUNT
                     (Some ("Transfer: " ++ py_str_int (pa_id payment_account)
                            ++ "; Managed Account Transfer: "
                            ++ py_str_int other_account))),
           set_transfers
             (sql_update (transfer_with_id transfer_id)
                (marked ERROR ERROR_ACCOUNT_ID_MISMATCH) (transfers s0)) s0)
    /\ managed_account_transfers s0 = managed_account_transfers s
    /\ transfers s0 = transfers s).
  { subst res. unfold managed_account_balance_check. unfold bind at 1.
    destruct (PayoutSpec.amount_still_needed_shortfall K stripe payment_account
                amount s) as [s0 [E [Hm [_ Ht]]]].
    rewrite E. cbv beta iota. unfold bind at 1.
    rewrite PayoutSpec.get_managed_account_transfer_by_transfer_id_find, Hm, Hfind.
    cbv beta iota. unfold bind at 1.
    unfold validate_payment_account_of_managed_account_transfer.
    rewrite Hacc. unfold truthy_int.
    apply Z.eqb_neq in Hnz. rewrite Hnz.
    assert (Hne' : (pa_id payment_account =? other_account) = false)
      by (apply Z.eqb_neq; congruence).
    rewrite Hne'. simpl andb. cbv beta iota.
    exists s0. split; [reflexivity|]. split; assumption. }
  destruct E as [s0 [E [Hm Ht]]]. rewrite E. simpl. rewrite Ht.
  split; [reflexivity|]. split; [exact Hm|]. split; [reflexivity|].
  intros r Hin Hid. eapply PayoutSpec.marked_rows; eassumption.
Qed.

Lemma managed_account_balance_check_account_mismatch_witness :
  fst (managed_account_balance_check K0 gateway_ok (account_7 "dasher" true) 1 300
         (store_of (transfer_1 300 NEW None) (account_7 "dasher" true)
            [managed_transfer_1 100 (Some 8)]))
  = Raised (payout_error MISMATCHED_TRANSFER_PAYMENT_ACCOUNT
              (Some "Transfer: 7; Managed Account Transfer: 8")).
Proof.
  destruct (@managed_account_balance_check_account_mismatch K0 gateway_ok
              (account_7 "dasher" true) 1 300
              (store_of (transfer_1 300 NEW None) (account_7 "dasher" true)
                 [managed_transfer_1 100 (Some 8)])
              (managed_transfer_1 100 (Some 8)) 8)
    as [H _]; [reflexivity | reflexivity | discriminate | discriminate |].
  exact H.
Defined.

(** *** The metadata of a payout *)

(** X11. [get_stripe_transfer_metadata] reads and writes nothing. The
    dictionary it returns always holds the transfer id and the id of the
    payment account, holds the target type exactly when one is given, and
    holds the target id, as the integer [int] reads it as, exactly when one
    is given; its keys are among the four. It raises only [ValueError], and
    exactly when a target id is given that [int] does not read. *)
Theorem get_stripe_transfer_metadata_entries
    (K : PayoutTypes) (transfer_id : Z) (payment_account : PaymentAccount)
    (target_type target_id : option string) (s : Store) :
  let res := get_stripe_transfer_metadata K transfer_id payment_account target_type
               target_id s in
  snd res = s
  /\ (forall metadata, fst res = Returned metadata ->
        metadata_get "transfer_id" metadata = Some (MInt transfer_id)
        /\ metadata_get "account_id" metadata = Some (MInt (pa_id payment_account))
        /\ metadata_get "target_type" metadata
           = (if truthy_str target_type then option_map MStr target_type else None)
        /\ (truthy_str target_id = false -> metadata_get "target_id" metadata = None)
        /\ (truthy_str target_id = true ->
            exists t n, target_id = Some t /\ py_int K t = Some n
                        /\ metadata_get "target_id" metadata = Some (MInt n))
        /\ (forall k v, In (k, v) metadata ->
              k = "transfer_id" \/ k = "account_id" \/ k = "target_type"
              \/ k = "target_id"))
  /\ (forall e, fst res = Raised e ->
        (exists msg, e = ValueError msg)
        /\ exists t, target_id = Some t /\ t <> "" /\ py_int K t = None)
  /\ (forall t, target_id = Some t -> t <> "" -> py_int K t = None ->
        exists msg, fst res = Raised (ValueError msg)).
Proof.
  intros res. subst res. unfold get_stripe_transfer_metadata.
  destruct target_type as [tt_|]; [destruct (truthy_str (Some tt_)) eqn:Htt|];
    (destruct target_id as [tid|];
     [destruct (truthy_str (Some tid)) eqn:Htid;
      [destruct (py_int K tid) as [n|] eqn:Hint|]|]);
    unfold ret, raise; cbn [fst snd];
    (split; [reflexivity|]); (split; [|split]);
    try (intros metadata Hm;
         first
           [ discriminate Hm
           | injection Hm as <-;
             (split; [reflexivity|]); (split; [reflexivity|]);
             (split; [reflexivity|]);
             (split; [intros H; first [discriminate H | reflexivity]|]);
             (split; [intros H;
                      first [discriminate H
                            | (exists tid, n; repeat split; assumption)]|]);
             intros k v Hin; simpl in Hin;
             repeat (destruct Hin as [Hin|Hin]; [injection Hin as <- <-; auto 6|]);
             contradiction ]);
    try (intros e He;
         first
           [ discriminate He
           | injection He as <-;
             (split; [eexists; reflexivity|]);
             exists tid; split; [reflexivity|]; split; [|assumption];
             intros ->; discriminate Htid ]);
    try (intros t Ht Hne Hnone;
         first
           [ discriminate Ht
           | injection Ht as <-;
             first
               [ congruence
               | eexists; reflexivity
               | exfalso; apply Hne; unfold truthy_str in Htid;
                 destruct (String.eqb_spec tid ""); [assumption | discriminate Htid] ] ]).
Qed.


(** *** The failure code recovered from a message *)

Lemma drop_prefix_app (p s : string) : drop_prefix p (p ++ s) = Some s.
Proof.
  induction p as [|a p IH]; simpl; [reflexivity|].
  rewrite Ascii.eqb_refl. exact IH.
Qed.

Lemma drop_prefix_some (p s r : string) : drop_prefix p s = Some r -> s = p ++ r.
Proof.
  revert s. induction p as [|a p IH]; intros [|b s]; simpl; intros H;
    try discriminate H; try (injection H as <-; reflexivity).
  destruct (Ascii.eqb_spec a b) as [->|]; [|discriminate H].
  f_equal. apply IH. exact H.
Qed.

Lemma append_assoc_char (w : string) (c : ascii) (rest : string) :
  (w ++ String c EmptyString) ++ rest = w ++ String c rest.
Proof. induction w as [|a w IH]; simpl; [reflexivity|]. rewrite IH. reflexivity. Qed.

Lemma append_empty (w : string) : w ++ "" = w.
Proof. induction w as [|a w IH]; simpl; [reflexivity|]. rewrite IH. reflexivity. Qed.

(** What is left of the pattern matches exactly the texts that continue
    the characters read so far to a word before a closing parenthesis. *)
Lemma word_then_closing_spec (fullmatch_word : string -> bool) (rest w : string) :
  word_then_closing fullmatch_word w rest = true <->
  exists w' tail, rest = w' ++ String ")" tail /\ fullmatch_word (w ++ w') = true.
Proof.
  revert w. induction rest as [|c rest IH]; intros w; simpl.
  - split; [discriminate|]. intros [w' [tail [E _]]].
    destruct w'; discriminate E.
  - rewrite orb_true_iff, andb_true_iff, IH. split.
    + intros [[Hc Hw]|[w' [tail [E Hw]]]].
      * apply Ascii.eqb_eq in Hc. subst c. exists "", rest.
        rewrite append_empty. split; [reflexivity | exact Hw].
      * exists (String c w'), tail. subst rest. split; [reflexivity|].
        rewrite <- append_assoc_char. exact Hw.
    + intros [[|a w'] [tail [E Hw]]]; simpl in E; injection E as -> ->.
      * left. rewrite append_empty in Hw. split; [apply Ascii.eqb_refl | exact Hw].
      * right. exists w', tail. split; [reflexivity|].
        rewrite append_assoc_char. exact Hw.
Qed.

(** X12. [extract_failure_code_from_exception_message] answers
    NO_EXT_ACCOUNT_IN_CURRENCY for every message that begins with the
    sentence of the gateway followed by a currency in parentheses (one or
    more word characters), whatever follows, and for no other message when
    the two codes differ; it answers UNKNOWN_ERROR_STR for a missing or
    empty message and for every message that does not begin with the
    sentence. It has no other answer. *)
Theorem extract_failure_code_from_exception_message_answers (K : PayoutTypes) :
  (forall currency rest,
     re_fullmatch_word K currency = true ->
     extract_failure_code_from_exception_message K
       (Some (no_external_account_sentence ++ currency ++ String ")" rest))
     = NO_EXT_ACCOUNT_IN_CURRENCY K)
  /\ (forall message,
        NO_EXT_ACCOUNT_IN_CURRENCY K <> UNKNOWN_ERROR_STR K ->
        extract_failure_code_from_exception_message K message
        = NO_EXT_ACCOUNT_IN_CURRENCY K ->
        exists currency rest,
          message = Some (no_external_account_sentence ++ currency
                          ++ String ")" rest)
          /\ re_fullmatch_word K currency = true)
  /\ extract_failure_code_from_exception_message K None = UNKNOWN_ERROR_STR K
  /\ extract_failure_code_from_exception_message K (Some "") = UNKNOWN_ERROR_STR K
  /\ (forall message,
        drop_prefix no_external_account_sentence message = None ->
        extract_failure_code_from_exception_message K (Some message)
        = UNKNOWN_ERROR_STR K)
  /\ (forall message,
        extract_failure_code_from_exception_message K message
        = NO_EXT_ACCOUNT_IN_CURRENCY K
        \/ extract_failure_code_from_exception_message K message
           = UNKNOWN_ERROR_STR K).
Proof.
  split; [|split; [|split; [|split; [|split]]]].
  - intros currency rest Hw.
    unfold extract_failure_code_from_exception_message.
    assert (Hm : no_external_account_pattern_match (re_fullmatch_word K)
                   (no_external_account_sentence ++ currency ++ String ")" rest)
                 = true).
    { unfold no_external_account_pattern_match.
      fold no_external_account_sentence. rewrite drop_prefix_app.
      apply word_then_closing_spec. exists currency, rest.
      split; [reflexivity | exact Hw]. }
    rewrite Hm, andb_true_r. reflexivity.
  - intros [message|] Hne H; unfold extract_failure_code_from_exception_message in H;
      [|symmetry in H; contradiction].
    destruct (truthy_str (Some message)
              && no_external_account_pattern_match (re_fullmatch_word K) message)
      eqn:Hm; [|symmetry in H; contradiction].
    apply andb_true_iff in Hm. destruct Hm as [_ Hm].
    unfold no_external_account_pattern_match in Hm.
    fold no_external_account_sentence in Hm.
    destruct (drop_prefix no_external_account_sentence message) as [r|] eqn:Hd;
      [|discriminate Hm].
    apply drop_prefix_some in Hd. apply word_then_closing_spec in Hm.
    destruct Hm as [currency [rest [E Hw]]]. exists currency, rest.
    subst message r. split; [reflexivity | exact Hw].
  - reflexivity.
  - reflexivity.
  - intros message Hd. unfold extract_failure_code_from_exception_message.
    unfold no_external_account_pattern_match.
    fold no_external_account_sentence. rewrite Hd, andb_false_r. reflexivity.
  - intros [message|]; unfold extract_failure_code_from_exception_message;
      [|right; reflexivity].
    destruct (truthy_str (Some message)
              && no_external_account_pattern_match (re_fullmatch_word K) message);
      [left | right]; reflexivity.
Qed.


(** *** Moving the funds and creating the payout *)

(** The outcome of [submit_managed_account_transfer], case by case. *)
Lemma submit_managed_account_transfer_unfold K stripe record payment_account s :
  submit_managed_account_transfer K stripe record payment_account s =
  if mat_amount record <=? 0 then (Returned tt, s)
  else
    match linked_account payment_account s with
    | None => (Raised (payout_error INVALID_STRIPE_ACCOUNT_ID None), s)
    | Some sma =>
        let country := option_map sma_country_shortname
                         (linked_account payment_account s) in
        if negb (is_Currency K (mat_currency record)) then
          (Raised (ValueError "not a valid Currency"), s)
        else if negb (is_CountryCode K country) then
          (Raised (ValueError "not a valid CountryCode"), s)
        else
          match create_transfer_result stripe (mat_amount record)
                  (mat_currency record) (sma_stripe_id sma) country with
          | Raised e =>
              (Raised e,
               log_gateway_call
                 (CreateTransfer (mat_amount record) (mat_currency record)
                    (sma_stripe_id sma) country) s)
          | Returned id =>
              (Returned tt,
               set_managed_account_transfers
                 (sql_update (fun r => mat_id r =? mat_id record)
                    (apply_ManagedAccountTransferUpdate
                       {| mu_amount := None;
                          mu_stripe_id := Some (Some id);
                          mu_stripe_status :=
                            Some (Some (ManagedAccountTransferStatus_PAID K));
                          mu_submitted_at := Some (Some (clock s)) |})
                    (managed_account_transfers s))
                 (tick
                    (log_gateway_call
                       (CreateTransfer (mat_amount record) (mat_currency record)
                          (sma_stripe_id sma) country) s)))
          end
    end.
Proof.
  unfold submit_managed_account_transfer.
  destruct (mat_amount record <=? 0); [reflexivity|].
  unfold bind at 1. rewrite PayoutSpec.stripe_managed_account_of_linked.
  destruct (linked_account payment_account s) as [sma|] eqn:Hl; [|reflexivity].
  cbv beta iota. unfold bind at 1.
  rewrite PayoutSpec.get_country_shortname_reads, Hl. cbv beta iota zeta.
  destruct (is_Currency K (mat_currency record)); [|reflexivity].
  destruct (is_CountryCode K (option_map sma_country_shortname (Some sma)));
    [|reflexivity].
  unfold bind, ret, create_transfer. simpl.
  destruct (create_transfer_result stripe (mat_amount record) (mat_currency record)
              (sma_stripe_id sma) (Some (sma_country_shortname sma)));
    reflexivity.
Qed.

(** X13. [submit_managed_account_transfer] does nothing for a record whose
    amount is not positive, and raises INVALID_STRIPE_ACCOUNT_ID without
    calling the gateway when the payment account links to no gateway
    sub-account. It calls the gateway at most once, to create a transfer.
    The record is rewritten only after the gateway created the transfer:
    then every row with its id carries the id of the gateway transfer, the
    status PAID and the time of the submission, and its amount is kept. *)
Theorem submit_managed_account_transfer_outcome
    (K : PayoutTypes) (stripe : StripeAsyncClient) (record : ManagedAccountTransfer)
    (payment_account : PaymentAccount) (s : Store) :
  let res := submit_managed_account_transfer K stripe record payment_account s in
  (mat_amount record <= 0 -> res = (Returned tt, s))
  /\ (0 < mat_amount record -> linked_account payment_account s = None ->
      res = (Raised (payout_error INVALID_STRIPE_ACCOUNT_ID None), s))
  /\ (gateway_calls (snd res) = gateway_calls s
      \/ exists call, is_CreateTransfer call = true
                      /\ gateway_calls (snd res) = (gateway_calls s ++ [call])%list)
  /\ (managed_account_transfers (snd res) = managed_account_transfers s
      \/ exists sma id,
           fst res = Returned tt
           /\ linked_account payment_account s = Some sma
           /\ create_transfer_result stripe (mat_amount record)
                (mat_currency record) (sma_stripe_id sma)
                (Some (sma_country_shortname sma)) = Returned id
           /\ forall r, In r (managed_account_transfers (snd res)) ->
                        mat_id r = mat_id record ->
                        mat_stripe_id r = Some id
                        /\ mat_stripe_status r
                           = Some (ManagedAccountTransferStatus_PAID K)
                        /\ mat_submitted_at r = Some (clock s))
  /\ map mat_amount (managed_account_transfers (snd res))
     = map mat_amount (managed_account_transfers s)
  /\ transfers (snd res) = transfers s
  /\ stripe_transfers (snd res) = stripe_transfers s.
Proof.
  intros res. subst res. rewrite submit_managed_account_transfer_unfold.
  destruct (mat_amount record <=? 0) eqn:Hle.
  - apply Z.leb_le in Hle. simpl.
    split; [reflexivity|]. split; [intros; lia|]. repeat split; auto.
  - apply Z.leb_gt in Hle.
    destruct (linked_account payment_account s) as [sma|] eqn:Hl.
    + cbv zeta. cbn [option_map].
      destruct (is_Currency K (mat_currency record)); cbn [negb];
        [|split; [intros; lia|]; split; [intros _ H; discriminate H|];
          repeat split; auto].
      destruct (is_CountryCode K (Some (sma_country_shortname sma))); cbn [negb];
        [|split; [intros; lia|]; split; [intros _ H; discriminate H|];
          repeat split; auto].
      destruct (create_transfer_result stripe (mat_amount record)
                  (mat_currency record) (sma_stripe_id sma)
                  (Some (sma_country_shortname sma))) as [id|e] eqn:Hgw.
      * split; [intros; lia|]. split; [intros _ H; discriminate H|].
        split; [right; eexists; split; [|reflexivity]; reflexivity|].
        split; [|split; [|split; reflexivity]].
        -- right. exists sma, id. split; [reflexivity|]. split; [reflexivity|].
           split; [exact Hgw|].
           intros r Hin Hid. cbn [snd managed_account_transfers
                                  set_managed_account_transfers] in Hin.
           apply in_sql_update in Hin.
           destruct Hin as [r0 [_ [[_ Er]|[Hp Er]]]]; subst r.
           ++ repeat split; reflexivity.
           ++ apply Z.eqb_neq in Hp. contradiction.
        -- cbn [snd managed_account_transfers set_managed_account_transfers].
           unfold sql_update. rewrite map_map. apply map_ext.
           intros r. destruct (mat_id r =? mat_id record); reflexivity.
      * split; [intros; lia|]. split; [intros _ H; discriminate H|].
        split; [right; eexists; split; [|reflexivity]; reflexivity|].
        repeat split; auto.
    + split; [intros; lia|]. split; [intros; reflexivity|]. repeat split; auto.
Qed.


(** *** The order of the gateway calls *)

Lemma ordered_from_weaken (lo lo' : nat) (calls : list GatewayCall) :
  (lo' <= lo)%nat -> ordered_from lo calls = true -> ordered_from lo' calls = true.
Proof.
  destruct calls as [|c rest]; simpl; intros Hle H; [reflexivity|].
  apply andb_true_iff in H. destruct H as [H1 H2]. apply Nat.ltb_lt in H1.
  apply andb_true_iff. split; [apply Nat.ltb_lt; lia | exact H2].
Qed.

Lemma ordered_from_app (lo mid : nat) (l1 l2 : list GatewayCall) :
  ordered_from lo l1 = true -> Forall (fun c => (stage c <= mid)%nat) l1 ->
  (lo <= mid)%nat -> ordered_from mid l2 = true ->
  ordered_from lo (l1 ++ l2) = true.
Proof.
  revert lo. induction l1 as [|c l1 IH]; simpl; intros lo H1 Hall Hle H2.
  - eapply ordered_from_weaken; eassumption.
  - apply andb_true_iff in H1. destruct H1 as [Hc H1].
    inversion Hall as [|? ? Hc' Hall']; subst.
    apply andb_true_iff. split; [exact Hc|].
    apply IH; assumption.
Qed.

Lemma staged_nil (lo hi : nat) : (lo <= hi)%nat -> staged lo hi [].
Proof. intros H. repeat split; [constructor | exact H]. Qed.

Lemma staged_app (lo mid hi : nat) (l1 l2 : list GatewayCall) :
  staged lo mid l1 -> staged mid hi l2 -> staged lo hi (l1 ++ l2).
Proof.
  intros [H1 [A1 L1]] [H2 [A2 L2]]. repeat split.
  - eapply ordered_from_app; eassumption.
  - apply Forall_app. split; [|exact A2].
    eapply Forall_impl; [|exact A1]. simpl. intros c Hc. lia.
  - lia.
Qed.

Lemma staged_weaken (lo hi lo' hi' : nat) (l : list GatewayCall) :
  staged lo hi l -> (lo' <= lo)%nat -> (hi <= hi')%nat -> staged lo' hi' l.
Proof.
  intros [H [A L]] Hlo Hhi. repeat split.
  - eapply ordered_from_weaken; eassumption.
  - eapply Forall_impl; [|exact A]. simpl. intros c Hc. lia.
  - lia.
Qed.

Lemma forallb_removelast {A} (f : A -> bool) (l : list A) :
  forallb f l = true -> forallb f (removelast l) = true.
Proof.
  induction l as [|a l IH]; [reflexivity|]. intros H.
  apply andb_true_iff in H. destruct H as [Ha Hl].
  destruct l as [|b l]; [reflexivity|].
  change (removelast (a :: b :: l)) with (a :: removelast (b :: l)).
  simpl forallb at 1. rewrite Ha. apply IH. exact Hl.
Qed.

Lemma forallb_removelast_app {A} (f : A -> bool) (l1 l2 : list A) :
  forallb f l1 = true -> forallb f (removelast l2) = true ->
  forallb f (removelast (l1 ++ l2)) = true.
Proof.
  intros H1 H2. destruct l2 as [|b l2].
  - rewrite app_nil_r. apply forallb_removelast. exact H1.
  - rewrite removelast_app by discriminate. rewrite forallb_app, H1, H2.
    reflexivity.
Qed.

Lemma no_calls_between {A} stripe strict (lo hi : nat) (c : Op A) :
  no_calls c -> (lo <= hi)%nat -> calls_between stripe strict lo hi c.
Proof.
  intros H Hle s. exists []. rewrite app_nil_r. split; [apply H|].
  split; [apply staged_nil; exact Hle|]. split; [reflexivity|].
  intros _ _. reflexivity.
Qed.

Lemma calls_between_weaken {A} stripe strict (lo hi lo' hi' : nat) (c : Op A) :
  calls_between stripe strict lo hi c -> (lo' <= lo)%nat -> (hi <= hi')%nat ->
  calls_between stripe strict lo' hi' c.
Proof.
  intros H Hlo Hhi s. destruct (H s) as [calls [E [St [P R]]]]. exists calls.
  split; [exact E|]. split; [eapply staged_weaken; eassumption|].
  split; [exact P|]. exact R.
Qed.

Lemma calls_bind {A B} stripe strict (lo mid hi : nat) (c : Op A) (k : A -> Op B) :
  calls_between stripe true lo mid c ->
  (forall a, calls_between stripe strict mid hi (k a)) ->
  (mid <= hi)%nat -> calls_between stripe strict lo hi (bind c k).
Proof.
  intros Hc Hk Hle s. unfold bind. destruct (Hc s) as [l1 [E1 [S1 [P1 R1]]]].
  destruct (c s) as [[a|e] s0]; simpl in *.
  - destruct (Hk a s0) as [l2 [E2 [S2 [P2 R2]]]]. exists (l1 ++ l2)%list.
    rewrite E2, E1, app_assoc. split; [reflexivity|].
    split; [eapply staged_app; eassumption|].
    specialize (R1 eq_refl eq_refl).
    split; [apply forallb_removelast_app; assumption|].
    intros Hs Hr. rewrite forallb_app, R1. apply R2; assumption.
  - exists l1. split; [exact E1|].
    split; [eapply staged_weaken; [exact S1 | lia | exact Hle]|].
    split; [exact P1|]. intros _ H. discriminate H.
Qed.

(** A step that makes no call after a computation that need not be
    strict. *)
Lemma calls_bind_no_calls {A B} stripe (lo hi : nat) (c : Op A) (k : A -> Op B) :
  calls_between stripe false lo hi c -> (forall a, no_calls (k a)) ->
  calls_between stripe false lo hi (bind c k).
Proof.
  intros Hc Hk s. unfold bind. destruct (Hc s) as [l1 [E1 [S1 [P1 R1]]]].
  destruct (c s) as [[a|e] s0]; simpl in *.
  - exists l1. rewrite Hk. split; [exact E1|]. split; [exact S1|].
    split; [exact P1|]. intros H. discriminate H.
  - exists l1. split; [exact E1|]. split; [exact S1|].
    split; [exact P1|]. intros H. discriminate H.
Qed.

(** A handler that makes no call: what it answers need not say whether
    the gateway carried out the last call. *)
Lemma calls_try_except {A} stripe strict (lo hi : nat) (c : Op A)
    (h : Exn -> Op A) :
  calls_between stripe strict lo hi c -> (forall e, no_calls (h e)) ->
  calls_between stripe false lo hi (try_except c h).
Proof.
  intros Hc Hh s. unfold try_except. destruct (Hc s) as [l1 [E1 [S1 [P1 R1]]]].
  destruct (c s) as [[a|e] s0]; simpl in *.
  - exists l1. split; [exact E1|]. split; [exact S1|]. split; [exact P1|].
    intros H. discriminate H.
  - exists l1. rewrite Hh. split; [exact E1|]. split; [exact S1|].
    split; [exact P1|]. intros H. discriminate H.
Qed.

(** A handler that makes no call and always raises keeps a computation
    strict. *)
Lemma calls_try_except_raising {A} stripe (lo hi : nat) (c : Op A)
    (h : Exn -> Op A) :
  calls_between stripe true lo hi c -> (forall e, no_calls (h e)) ->
  (forall e s, returned (fst (h e s)) = false) ->
  calls_between stripe true lo hi (try_except c h).
Proof.
  intros Hc Hh Hr s. unfold try_except.
  destruct (Hc s) as [l1 [E1 [S1 [P1 R1]]]].
  destruct (c s) as [[a|e] s0]; simpl in *.
  - exists l1. split; [exact E1|]. split; [exact S1|]. split; [exact P1|].
    exact R1.
  - exists l1. rewrite Hh. split; [exact E1|]. split; [exact S1|].
    split; [exact P1|]. intros _ H. rewrite Hr in H. discriminate H.
Qed.

Lemma no_calls_ret {A} (a : A) : no_calls (ret a : Op A).
Proof. intros s. reflexivity. Qed.

Lemma no_calls_raise {A} (e : Exn) : no_calls (raise e : Op A).
Proof. intros s. reflexivity. Qed.

Lemma no_calls_bind {A B} (c : Op A) (k : A -> Op B) :
  no_calls c -> (forall a, no_calls (k a)) -> no_calls (bind c k).
Proof.
  intros Hc Hk s. unfold bind. specialize (Hc s).
  destruct (c s) as [[a|e] s0]; simpl in *; [|exact Hc].
  rewrite Hk. exact Hc.
Qed.

Lemma no_calls_try_except {A} (c : Op A) (h : Exn -> Op A) :
  no_calls c -> (forall e, no_calls (h e)) -> no_calls (try_except c h).
Proof.
  intros Hc Hh s. unfold try_except. specialize (Hc s).
  destruct (c s) as [[a|e] s0]; simpl in *; [exact Hc|].
  rewrite Hh. exact Hc.
Qed.

Lemma no_calls_utcnow : no_calls utcnow.
Proof. intros s. reflexivity. Qed.

Lemma no_calls_assert condition msg : no_calls (assert_ condition msg).
Proof. intros s. destruct condition; reflexivity. Qed.

Lemma no_calls_get_transfer_by_id id : no_calls (get_transfer_by_id id).
Proof. intros s. reflexivity. Qed.

Lemma no_calls_update_transfer_by_id id data :
  no_calls (update_transfer_by_id id data).
Proof. intros s. reflexivity. Qed.

Lemma no_calls_get_payment_account_by_id id :
  no_calls (get_payment_account_by_id id).
Proof. intros s. reflexivity. Qed.

Lemma no_calls_get_stripe_managed_account_by_id id :
  no_calls (get_stripe_managed_account_by_id id).
Proof. intros s. reflexivity. Qed.

Lemma no_calls_get_latest_stripe_transfer_by_transfer_id id :
  no_calls (get_latest_stripe_transfer_by_transfer_id id).
Proof. intros s. reflexivity. Qed.

Lemma no_calls_create_stripe_transfer data : no_calls (create_stripe_transfer data).
Proof. intros s. reflexivity. Qed.

Lemma no_calls_update_stripe_transfer_by_id id data :
  no_calls (update_stripe_transfer_by_id id data).
Proof. intros s. reflexivity. Qed.

Lemma no_calls_get_managed_account_transfer_by_transfer_id id :
  no_calls (get_managed_account_transfer_by_transfer_id id).
Proof. intros s. reflexivity. Qed.

Lemma no_calls_create_managed_account_transfer data :
  no_calls (create_managed_account_transfer data).
Proof. intros s. reflexivity. Qed.

Lemma no_calls_update_managed_account_transfer_by_id id data :
  no_calls (update_managed_account_transfer_by_id id data).
Proof. intros s. reflexivity. Qed.

Lemma no_calls_get_all_ongoing K id :
  no_calls (get_all_ongoing_stripe_transfers_by_transfer_id K id).
Proof. intros s. reflexivity. Qed.

Create HintDb no_calls.

#[local] Hint Resolve no_calls_ret no_calls_raise no_calls_utcnow no_calls_assert
  no_calls_get_transfer_by_id no_calls_update_transfer_by_id
  no_calls_get_payment_account_by_id no_calls_get_stripe_managed_account_by_id
  no_calls_get_latest_stripe_transfer_by_transfer_id
  no_calls_create_stripe_transfer no_calls_update_stripe_transfer_by_id
  no_calls_get_managed_account_transfer_by_transfer_id
  no_calls_create_managed_account_transfer
  no_calls_update_managed_account_transfer_by_id no_calls_get_all_ongoing
  : no_calls.

(** Walks through a computation that makes no call. *)
Ltac no_calls_step :=
  cbv zeta;
  match goal with
  | |- no_calls (bind _ _) => apply no_calls_bind; [|intros ?]
  | |- no_calls (try_except _ _) => apply no_calls_try_except; [|intros ?]
  | |- no_calls (if ?b then _ else _) => destruct b
  | |- no_calls (match ?x with _ => _ end) => destruct x
  | |- no_calls _ => solve [auto with no_calls]
  end.

Ltac no_calls_tac := repeat no_calls_step.

Lemma no_calls_stripe_managed_account_of payment_account :
  no_calls (stripe_managed_account_of payment_account).
Proof. unfold stripe_managed_account_of. no_calls_tac. Qed.

Lemma no_calls_get_country_shortname payment_account :
  no_calls (get_country_shortname payment_account).
Proof. unfold get_country_shortname. no_calls_tac. Qed.

Lemma no_calls_get_stripe_transfer_metadata K id payment_account target_type
    target_id :
  no_calls (get_stripe_transfer_metadata K id payment_account target_type target_id).
Proof. unfold get_stripe_transfer_metadata. no_calls_tac. Qed.

#[local] Hint Resolve no_calls_stripe_managed_account_of
  no_calls_get_country_shortname no_calls_get_stripe_transfer_metadata : no_calls.

Lemma no_calls_get_stripe_account_id payment_account :
  no_calls (get_stripe_account_id payment_account).
Proof. unfold get_stripe_account_id. no_calls_tac. Qed.

Lemma no_calls_handle_dummy_transfer id method :
  no_calls (handle_dummy_transfer id method).
Proof. unfold handle_dummy_transfer. no_calls_tac. Qed.

Lemma no_calls_has_stripe_managed_account payment_account id :
  no_calls (has_stripe_managed_account payment_account id).
Proof. unfold has_stripe_managed_account. no_calls_tac. Qed.

Lemma no_calls_validate payment_account id record :
  no_calls (validate_payment_account_of_managed_account_transfer payment_account id
              record).
Proof.
  unfold validate_payment_account_of_managed_account_transfer. no_calls_tac.
Qed.

Lemma no_calls_is_processing K id method :
  no_calls (is_processing_or_processed_for_method K id method).
Proof. unfold is_processing_or_processed_for_method. no_calls_tac. Qed.

#[local] Hint Resolve no_calls_get_stripe_account_id no_calls_handle_dummy_transfer
  no_calls_has_stripe_managed_account no_calls_validate no_calls_is_processing
  : no_calls.

Lemma calls_get_account_balance stripe account (lo hi : nat) :
  (lo < 1)%nat -> (1 <= hi)%nat ->
  calls_between stripe true lo hi (get_account_balance stripe account).
Proof.
  intros Hlo Hhi s. exists [RetrieveBalance account]. split; [reflexivity|].
  split; [|split; [reflexivity | intros _ _; reflexivity]].
  repeat split; simpl.
  - apply andb_true_iff. split; [apply Nat.ltb_lt; lia | reflexivity].
  - repeat constructor. simpl. lia.
  - lia.
Qed.

Lemma calls_create_transfer stripe amount currency destination country (lo hi : nat) :
  (lo < 2)%nat -> (2 <= hi)%nat ->
  calls_between stripe true lo hi
    (create_transfer stripe amount currency destination country).
Proof.
  intros Hlo Hhi s.
  exists [CreateTransfer amount currency destination country].
  split; [reflexivity|]. split; [|split; [reflexivity|]].
  - repeat split; simpl.
    + apply andb_true_iff. split; [apply Nat.ltb_lt; lia | reflexivity].
    + repeat constructor. simpl. lia.
    + lia.
  - intros _. unfold create_transfer. simpl.
    destruct (create_transfer_result stripe amount currency destination country);
      simpl; intros H; [reflexivity | discriminate H].
Qed.

Lemma calls_create_payout stripe amount currency country account descriptor metadata
    (lo hi : nat) :
  (lo < 3)%nat -> (3 <= hi)%nat ->
  calls_between stripe true lo hi
    (create_payout stripe amount currency country account descriptor metadata).
Proof.
  intros Hlo Hhi s.
  exists [CreatePayout amount currency country account descriptor metadata].
  split; [reflexivity|]. split; [|split; [reflexivity|]].
  - repeat split; simpl.
    + apply andb_true_iff. split; [apply Nat.ltb_lt; lia | reflexivity].
    + repeat constructor. simpl. lia.
    + lia.
  - intros _. unfold create_payout. simpl.
    destruct (create_payout_result stripe amount currency country account
                descriptor metadata);
      simpl; intros H; [reflexivity | discriminate H].
Qed.

(** Walks through a computation whose calls stay between two stages: a
    step that makes no call does not move the lower stage. *)
Ltac calls_step :=
  cbv zeta;
  match goal with
  | |- calls_between ?stripe ?strict ?lo ?hi (bind ?c _) =>
      apply (@calls_bind _ _ stripe strict lo lo hi);
      [apply no_calls_between; [solve [no_calls_tac] | lia] | intros ? | lia]
  | |- calls_between _ _ _ _ (if ?b then _ else _) => destruct b
  | |- calls_between _ _ _ _ (match ?x with _ => _ end) => destruct x
  | |- calls_between _ _ _ _ _ =>
      first [ apply no_calls_between; [solve [no_calls_tac] | lia]
            | apply calls_create_payout; lia
            | apply calls_create_transfer; lia
            | apply calls_get_account_balance; lia ]
  end.

Lemma calls_submit_managed_account_transfer K stripe record payment_account :
  calls_between stripe true 1 2
    (submit_managed_account_transfer K stripe record payment_account).
Proof.
  unfold submit_managed_account_transfer. repeat calls_step.
  apply (@calls_bind _ _ stripe true 1%nat 2%nat 2%nat);
    [calls_step | intros ? | lia].
  repeat calls_step.
Qed.

Lemma calls_create_for_managed_account K stripe amount transfer_id payment_account
    stripe_account_id statement_descriptor target_type target_id :
  calls_between stripe true 1 3
    (create_for_managed_account K stripe amount transfer_id payment_account
       stripe_account_id statement_descriptor target_type target_id).
Proof.
  unfold create_for_managed_account. calls_step.
  apply (@calls_bind _ _ stripe true 1%nat 2%nat 3%nat); [| intros ? | lia].
  - destruct a as [record|]; [destruct (0 <? mat_amount record)|].
    + apply calls_submit_managed_account_transfer.
    + apply no_calls_between; [no_calls_tac | lia].
    + apply no_calls_between; [no_calls_tac | lia].
  - repeat calls_step.
Qed.

Lemma calls_managed_account_balance_check K stripe payment_account transfer_id amount :
  calls_between stripe true 0 1
    (managed_account_balance_check K stripe payment_account transfer_id amount).
Proof.
  unfold managed_account_balance_check.
  apply (@calls_bind _ _ stripe true 0%nat 1%nat 1%nat); [| intros ? | lia].
  - destruct (str_eq (pa_entity payment_account) (PayoutAccountTargetType_DASHER K)).
    + calls_step.
    + calls_step.
      apply (@calls_bind _ _ stripe true 0%nat 1%nat 1%nat);
        [calls_step | intros ? | lia].
      calls_step.
  - repeat calls_step.
Qed.

Lemma except_StripeError_handler_no_calls {A} (h : StripeErrorData -> Op A) e :
  (forall d, no_calls (h d)) ->
  no_calls (match e with StripeError d => h d | _ => raise e end).
Proof. intros H. destruct e; auto with no_calls. Qed.

Lemma except_StripeError_handler_raises {A} (h : StripeErrorData -> Op A) e s :
  (forall d s, returned (fst (h d s)) = false) ->
  returned (fst (match e with StripeError d => h d | _ => raise e end s)) = false.
Proof. intros H. destruct e; try reflexivity. apply H. Qed.

Lemma calls__submit_stripe_transfer K stripe stripe_transfer payment_account amount
    transfer_id statement_descriptor target_type target_id :
  calls_between stripe true 1 3
    (_submit_stripe_transfer K stripe stripe_transfer payment_account amount
       transfer_id statement_descriptor target_type target_id).
Proof.
  unfold _submit_stripe_transfer.
  destruct (truthy_str (st_stripe_id stripe_transfer)); [calls_step|].
  calls_step.
  destruct (negb (str_eq (pa_account_type payment_account)
                    (ACCOUNT_TYPE_STRIPE_MANAGED_ACCOUNT K))); [calls_step|].
  unfold except_StripeError. apply calls_try_except_raising.
  - apply (@calls_bind _ _ stripe true 1%nat 3%nat 3%nat);
      [apply calls_create_for_managed_account | intros ? | lia].
    apply no_calls_between; [no_calls_tac | lia].
  - intros e. apply except_StripeError_handler_no_calls. intros d. no_calls_tac.
  - intros e s. apply except_StripeError_handler_raises. clear. intros d s.
    destruct (error_info_of d) as [error_info|msg]; [|reflexivity].
    cbv zeta. unfold bind at 1.
    destruct (get_country_shortname payment_account s) as [[c|x] s1];
      [|reflexivity].
    cbv beta iota. unfold bind at 1.
    match goal with
    | |- context [update_stripe_transfer_by_id ?i ?u s1] =>
        destruct (update_stripe_transfer_by_id i u s1) as [[[updated|]|x] s2]
    end; try reflexivity.
    cbv beta iota.
    repeat match goal with
           | |- context [if ?b then _ else _] => destruct b
           end; reflexivity.
Qed.

Lemma calls_submit_stripe_transfer K stripe transfer_id payment_account amount
    statement_descriptor target_type target_id submitted_by :
  calls_between stripe false 1 3
    (submit_stripe_transfer K stripe transfer_id payment_account amount
       statement_descriptor target_type target_id submitted_by).
Proof.
  unfold submit_stripe_transfer. calls_step.
  apply (@calls_try_except _ stripe true).
  - unfold submit_stripe_transfer_try. calls_step.
    apply (@calls_bind _ _ stripe true 1%nat 3%nat 3%nat);
      [apply calls__submit_stripe_transfer | intros ? | lia].
    apply no_calls_between; [no_calls_tac | lia].
  - intros e. no_calls_tac.
Qed.

Lemma calls__execute_with K stripe request transactions :
  calls_between stripe false 0 3 (_execute_with K stripe request transactions).
Proof.
  unfold _execute_with. repeat calls_step.
  all: apply (@calls_bind _ _ stripe false 0%nat 1%nat 3%nat); [| intros ? | lia].
  all: try (apply calls_bind_no_calls; [|intros ?; auto with no_calls];
            eapply calls_between_weaken;
            [apply calls_submit_stripe_transfer | lia | lia]).
  all: repeat calls_step.
  all: apply calls_managed_account_balance_check.
Qed.

(** X14. The gateway calls of [create_for_managed_account], in the order
    they are made: at most one creation of a funds transfer, followed by at
    most one creation of a payout, and no balance query. The payout is
    requested only after the gateway created the funds transfer, when there
    is one; and the function returns only when the gateway carried out every
    call it made. *)
Theorem create_for_managed_account_gateway_calls
    (K : PayoutTypes) (stripe : StripeAsyncClient) (amount transfer_id : Z)
    (payment_account : PaymentAccount) (stripe_account_id : string)
    (statement_descriptor : string) (target_type target_id : option string)
    (s : Store) :
  let res := create_for_managed_account K stripe amount transfer_id payment_account
               stripe_account_id statement_descriptor target_type target_id s in
  exists calls,
    gateway_calls (snd res) = (gateway_calls s ++ calls)%list
    /\ ordered_from 1 calls = true
    /\ forallb (call_succeeded stripe) (removelast calls) = true
    /\ (returned (fst res) = true ->
        forallb (call_succeeded stripe) calls = true).
Proof.
  intros res. subst res.
  destruct (@calls_create_for_managed_account K stripe amount transfer_id
              payment_account stripe_account_id statement_descriptor target_type
              target_id s) as [calls [E [[O _] [P R]]]].
  exists calls. split; [exact E|]. split; [exact O|]. split; [exact P|].
  intros H. apply R; [reflexivity | exact H].
Qed.

Lemma bind_returned {A B} (c : Op A) (k : A -> Op B) s b s' :
  bind c k s = (Returned b, s') ->
  exists a s1, c s = (Returned a, s1) /\ k a s1 = (Returned b, s').
Proof.
  unfold bind. destruct (c s) as [[a|e] s1]; intros H; [|discriminate H].
  exists a, s1. split; [reflexivity | exact H].
Qed.

(** X15. A payout that [create_for_managed_account] returns is the one the
    gateway created in the last call made: a payout of the amount asked
    for, out of the gateway account and with the statement descriptor that
    were passed, in the currency of the country of the linked account. *)
Theorem create_for_managed_account_returns_gateway_payout
    (K : PayoutTypes) (stripe : StripeAsyncClient) (amount transfer_id : Z)
    (payment_account : PaymentAccount) (stripe_account_id : string)
    (statement_descriptor : string) (target_type target_id : option string)
    (s s' : Store) (payout : Payout) :
  create_for_managed_account K stripe amount transfer_id payment_account
    stripe_account_id statement_descriptor target_type target_id s
  = (Returned payout, s') ->
  exists country metadata,
    option_map sma_country_shortname (linked_account payment_account s')
    = Some country
    /\ last (gateway_calls s') (RetrieveBalance None)
       = CreatePayout amount (get_currency_code K country) country
           stripe_account_id statement_descriptor metadata
    /\ create_payout_result stripe amount (get_currency_code K country) country
         stripe_account_id statement_descriptor metadata = Returned payout.
Proof.
  intros H. unfold create_for_managed_account in H.
  apply bind_returned in H. destruct H as [mat [s1 [_ H]]].
  apply bind_returned in H. destruct H as [u [s2 [_ H]]].
  apply bind_returned in H. destruct H as [cs [s3 [Hc H]]].
  rewrite PayoutSpec.get_country_shortname_reads in Hc.
  injection Hc as Hc Hs. subst s3.
  destruct cs as [country|]; [|discriminate H].
  destruct (truthy_str (Some country)); [|discriminate H].
  apply bind_returned in H. destruct H as [metadata [s4 [Hm H]]].
  assert (s4 = s2) as ->.
  { clear H. unfold get_stripe_transfer_metadata in Hm. cbv zeta in Hm.
    destruct target_id as [i|]; [|injection Hm as _ Hm; symmetry; exact Hm].
    destruct (truthy_str (Some i));
      [|injection Hm as _ Hm; symmetry; exact Hm].
    destruct (py_int K i); [injection Hm as _ Hm; symmetry; exact Hm|].
    discriminate Hm. }
  cbv zeta in H.
  apply bind_returned in H. destruct H as [u1 [s5 [H1 H]]].
  assert (s5 = s2) as ->.
  { destruct (is_Currency K (Some (get_currency_code K country)));
      [injection H1 as _ H1; symmetry; exact H1 | discriminate H1]. }
  apply bind_returned in H. destruct H as [u2 [s6 [H2 H]]].
  assert (s6 = s2) as ->.
  { destruct (is_CountryCode K (Some country));
      [injection H2 as _ H2; symmetry; exact H2 | discriminate H2]. }
  unfold create_payout in H. injection H as Hp Hs.
  exists country, metadata. subst s'. split; [|split].
  - exact Hc.
  - simpl. apply last_last.
  - exact Hp.
Qed.

(** A transfer of 200 into the account and a payout of 500 out of it. *)
Lemma create_for_managed_account_returns_gateway_payout_witness :
  let s := store_of (transfer_1 500 NEW None) (account_7 "merchant" true)
             [managed_transfer_1 200 (Some 7)] in
  let s' := snd (create_for_managed_account K0 gateway_ok 500 1
                   (account_7 "merchant" true) "acct_1" "payout" None (Some "42")
                   s) in
  exists country metadata,
    option_map sma_country_shortname (linked_account (account_7 "merchant" true) s')
    = Some country
    /\ last (gateway_calls s') (RetrieveBalance None)
       = CreatePayout 500 (get_currency_code K0 country) country "acct_1" "payout"
           metadata
    /\ create_payout_result gateway_ok 500 (get_currency_code K0 country) country
         "acct_1" "payout" metadata = Returned payout_po_1.
Proof.
  intros s s'.
  apply (@create_for_managed_account_returns_gateway_payout K0 gateway_ok 500 1
           (account_7 "merchant" true) "acct_1" "payout" None (Some "42") s s'
           payout_po_1).
  vm_compute. reflexivity.
Defined.

(** X16. The gateway calls of [submit_stripe_transfer], in the order they
    are made: at most one creation of a funds transfer, followed by at most
    one creation of a payout, and no balance query. A call is made only
    after the gateway carried out the ones before: no payout is requested
    after a funds transfer that the gateway refused. *)
Theorem submit_stripe_transfer_gateway_calls
    (K : PayoutTypes) (stripe : StripeAsyncClient) (transfer_id : Z)
    (payment_account : PaymentAccount) (amount : Z) (statement_descriptor : string)
    (target_type target_id : option string) (submitted_by : option Z) (s : Store) :
  let res := submit_stripe_transfer K stripe transfer_id payment_account amount
               statement_descriptor target_type target_id submitted_by s in
  exists calls,
    gateway_calls (snd res) = (gateway_calls s ++ calls)%list
    /\ ordered_from 1 calls = true
    /\ forallb (call_succeeded stripe) (removelast calls) = true.
Proof.
  intros res. subst res.
  destruct (@calls_submit_stripe_transfer K stripe transfer_id payment_account
              amount statement_descriptor target_type target_id submitted_by s)
    as [calls [E [[O _] [P _]]]].
  exists calls. split; [exact E|]. split; [exact O|]. exact P.
Qed.

(** X17. The gateway calls of the body of [_execute], whatever the
    constituent transactions, in the order they are made: at most one
    balance query, then at most one creation of a funds transfer, then at
    most one creation of a payout. A call is made only after the gateway
    carried out the ones before. *)
Theorem execute_with_gateway_calls
    (K : PayoutTypes) (stripe : StripeAsyncClient) (request : SubmitTransferRequest)
    (transactions : list TransactionDBEntity) (s : Store) :
  let res := _execute_with K stripe request transactions s in
  exists calls,
    gateway_calls (snd res) = (gateway_calls s ++ calls)%list
    /\ ordered_calls calls = true
    /\ forallb (call_succeeded stripe) (removelast calls) = true.
Proof.
  intros res. subst res.
  destruct (@calls__execute_with K stripe request transactions s)
    as [calls [E [[O _] [P _]]]].
  exists calls. split; [exact E|]. split; [exact O|]. exact P.
Qed.

(** *** What a submission leaves alone *)

Section Preserves.

Variable R : Store -> Store -> Prop.
Hypothesis R_refl : forall s, R s s.
Hypothesis R_trans : forall a b c, R a b -> R b c -> R a c.

Lemma preserves_reads {A} (c : Op A) :
  (forall s, snd (c s) = s) -> preserves R c.
Proof. intros H s. rewrite H. apply R_refl. Qed.

Lemma preserves_bind {A B} (c : Op A) (k : A -> Op B) :
  preserves R c -> (forall a, preserves R (k a)) -> preserves R (bind c k).
Proof.
  intros Hc Hk s. unfold bind. specialize (Hc s).
  destruct (c s) as [[a|e] s0]; simpl in *; [|exact Hc].
  eapply R_trans; [exact Hc | apply Hk].
Qed.

Lemma preserves_try_except {A} (c : Op A) (h : Exn -> Op A) :
  preserves R c -> (forall e, preserves R (h e)) -> preserves R (try_except c h).
Proof.
  intros Hc Hh s. unfold try_except. specialize (Hc s).
  destruct (c s) as [[a|e] s0]; simpl in *; [exact Hc|].
  eapply R_trans; [exact Hc | apply Hh].
Qed.

(** What follows a step that raises is not run. *)
Lemma preserves_bind_raise {A B} (e : Exn) (k : A -> Op B) :
  preserves R (bind (raise e) k).
Proof. intros s. apply R_refl. Qed.

End Preserves.

Lemma same_transfer_refl transfer_id r : same_transfer transfer_id r r.
Proof. repeat split. Qed.

Lemma same_transfer_trans transfer_id a b c :
  same_transfer transfer_id a b -> same_transfer transfer_id b c ->
  same_transfer transfer_id a c.
Proof.
  intros [A1 [A2 [A3 [A4 [A5 [A6 [A7 A8]]]]]]] [B1 [B2 [B3 [B4 [B5 [B6 [B7 B8]]]]]]].
  repeat split; try congruence.
  intros H. rewrite B8 by congruence. apply A8. exact H.
Qed.

Lemma Forall2_refl {A} (P : A -> A -> Prop) (l : list A) :
  (forall a, P a a) -> Forall2 P l l.
Proof. intros H. induction l; constructor; auto. Qed.

Lemma Forall2_trans {A} (P : A -> A -> Prop) (l1 l2 l3 : list A) :
  (forall a b c, P a b -> P b c -> P a c) ->
  Forall2 P l1 l2 -> Forall2 P l2 l3 -> Forall2 P l1 l3.
Proof.
  intros H H12. revert l3. induction H12 as [|a b l1 l2 Hab _ IH]; intros l3 H23.
  - inversion H23. constructor.
  - inversion H23 as [|? c ? l3' Hbc H23']; subst. constructor; eauto.
Qed.

Lemma only_transfer_refl transfer_id s : only_transfer transfer_id s s.
Proof.
  repeat split. apply Forall2_refl. apply same_transfer_refl.
Qed.

Lemma only_transfer_trans transfer_id a b c :
  only_transfer transfer_id a b -> only_transfer transfer_id b c ->
  only_transfer transfer_id a c.
Proof.
  intros [A1 [A2 A3]] [B1 [B2 B3]]. repeat split; try congruence.
  eapply Forall2_trans; [apply same_transfer_trans | exact A3 | exact B3].
Qed.

(** A step that writes neither the transfers nor the accounts. *)
Lemma only_transfer_frame transfer_id s s' :
  payment_accounts s' = payment_accounts s ->
  stripe_managed_accounts s' = stripe_managed_accounts s ->
  transfers s' = transfers s -> only_transfer transfer_id s s'.
Proof.
  intros H1 H2 H3. repeat split; [exact H1 | exact H2 |].
  rewrite H3. apply Forall2_refl. apply same_transfer_refl.
Qed.

(** An update of the transfer that leaves its currency alone. *)
Lemma only_transfer_update_transfer_by_id transfer_id data :
  u_currency data = None ->
  preserves (only_transfer transfer_id) (update_transfer_by_id transfer_id data).
Proof.
  intros Hc s. repeat split. simpl.
  eapply Forall2_impl; [|apply sql_update_rows].
  intros r r' [[Hp E]|[Hp E]]; subst r'.
  - unfold same_transfer, apply_TransferUpdate. simpl. rewrite Hc. simpl.
    repeat split. intros Hne. apply Z.eqb_eq in Hp. contradiction.
  - apply same_transfer_refl.
Qed.

Create HintDb frame.

#[local] Hint Resolve only_transfer_refl only_transfer_trans : frame.

(** Walks through a computation that keeps a relation between the stores;
    [leaf] settles the steps that write. *)
Ltac preserves_step leaf :=
  cbv zeta;
  match goal with
  | |- preserves _ (bind (TransferUpdate_currency_of_coroutine _) _) =>
      apply preserves_bind_raise; solve [auto with frame]
  | |- preserves _ (bind _ _) =>
      apply preserves_bind; [solve [eauto with frame] | | intros ?]
  | |- preserves _ (try_except _ _) =>
      apply preserves_try_except; [solve [eauto with frame] | | intros ?]
  | |- preserves _ (if ?b then _ else _) => destruct b
  | |- preserves _ (match ?x with _ => _ end) => destruct x
  | |- preserves _ _ => solve [leaf]
  end.

Ltac only_transfer_leaf :=
  first [ apply only_transfer_update_transfer_by_id; reflexivity
        | intros ?; apply only_transfer_frame; reflexivity
        | intros ?; unfold assert_;
          match goal with |- context [if ?b then _ else _] => destruct b end;
          apply only_transfer_frame; reflexivity
        | auto with frame ].

Lemma only_transfer_stripe_managed_account_of transfer_id payment_account :
  preserves (only_transfer transfer_id) (stripe_managed_account_of payment_account).
Proof.
  unfold stripe_managed_account_of. repeat preserves_step only_transfer_leaf.
Qed.

Lemma only_transfer_get_country_shortname transfer_id payment_account :
  preserves (only_transfer transfer_id) (get_country_shortname payment_account).
Proof.
  unfold get_country_shortname. repeat preserves_step only_transfer_leaf.
Qed.

#[local] Hint Resolve only_transfer_stripe_managed_account_of
  only_transfer_get_country_shortname : frame.

Lemma only_transfer_get_stripe_transfer_metadata transfer_id K id payment_account
    target_type target_id :
  preserves (only_transfer transfer_id)
    (get_stripe_transfer_metadata K id payment_account target_type target_id).
Proof.
  unfold get_stripe_transfer_metadata. repeat preserves_step only_transfer_leaf.
Qed.

Lemma only_transfer_get_stripe_account_id transfer_id payment_account :
  preserves (only_transfer transfer_id) (get_stripe_account_id payment_account).
Proof.
  unfold get_stripe_account_id. repeat preserves_step only_transfer_leaf.
Qed.

Lemma only_transfer_submit_managed_account_transfer transfer_id K stripe record
    payment_account :
  preserves (only_transfer transfer_id)
    (submit_managed_account_transfer K stripe record payment_account).
Proof.
  unfold submit_managed_account_transfer. repeat preserves_step only_transfer_leaf.
Qed.

#[local] Hint Resolve only_transfer_get_stripe_transfer_metadata
  only_transfer_get_stripe_account_id
  only_transfer_submit_managed_account_transfer : frame.

Lemma only_transfer_create_for_managed_account transfer_id K stripe amount
    payment_account stripe_account_id statement_descriptor target_type target_id :
  preserves (only_transfer transfer_id)
    (create_for_managed_account K stripe amount transfer_id payment_account
       stripe_account_id statement_descriptor target_type target_id).
Proof.
  unfold create_for_managed_account. repeat preserves_step only_transfer_leaf.
Qed.

#[local] Hint Resolve only_transfer_create_for_managed_account : frame.

Lemma only_transfer__submit_stripe_transfer transfer_id K stripe stripe_transfer
    payment_account amount statement_descriptor target_type target_id :
  preserves (only_transfer transfer_id)
    (_submit_stripe_transfer K stripe stripe_transfer payment_account amount
       transfer_id statement_descriptor target_type target_id).
Proof.
  unfold _submit_stripe_transfer, except_StripeError.
  repeat preserves_step only_transfer_leaf.
Qed.

#[local] Hint Resolve only_transfer__submit_stripe_transfer : frame.

Lemma only_transfer_submit_stripe_transfer K stripe transfer_id payment_account
    amount statement_descriptor target_type target_id submitted_by :
  preserves (only_transfer transfer_id)
    (submit_stripe_transfer K stripe transfer_id payment_account amount
       statement_descriptor target_type target_id submitted_by).
Proof.
  unfold submit_stripe_transfer, submit_stripe_transfer_try.
  repeat preserves_step only_transfer_leaf.
Qed.

Lemma only_transfer_managed_account_balance_check transfer_id K stripe
    payment_account amount :
  preserves (only_transfer transfer_id)
    (managed_account_balance_check K stripe payment_account transfer_id amount).
Proof.
  unfold managed_account_balance_check,
    validate_payment_account_of_managed_account_transfer.
  repeat preserves_step only_transfer_leaf.
Qed.

#[local] Hint Resolve only_transfer_submit_stripe_transfer
  only_transfer_managed_account_balance_check : frame.

(** X18. The body of [_execute], whatever the constituent transactions,
    neither adds nor deletes a transfer, and leaves the payment accounts and
    the gateway accounts as they are. A transfer other than the requested
    one is left as it is; of the requested one the payment account, the
    amounts, the currency and the time of deletion are never rewritten. *)
Theorem execute_with_touches_only_the_transfer
    (K : PayoutTypes) (stripe : StripeAsyncClient) (request : SubmitTransferRequest)
    (transactions : list TransactionDBEntity) (s : Store) :
  let s' := snd (_execute_with K stripe request transactions s) in
  payment_accounts s' = payment_accounts s
  /\ stripe_managed_accounts s' = stripe_managed_accounts s
  /\ Forall2 (same_transfer (req_transfer_id request)) (transfers s) (transfers s').
Proof.
  assert (H : preserves (only_transfer (req_transfer_id request))
                (_execute_with K stripe request transactions)).
  { unfold _execute_with, handle_dummy_transfer,
      is_processing_or_processed_for_method, has_stripe_managed_account.
    repeat preserves_step only_transfer_leaf. }
  exact (H s).
Qed.

Lemma same_submission_refl id r : same_submission id r r.
Proof. repeat split. Qed.

Lemma same_submission_trans id a b c :
  same_submission id a b -> same_submission id b c -> same_submission id a c.
Proof.
  intros [A1 [A2 [A3 A4]]] [B1 [B2 [B3 B4]]].
  repeat split; try congruence.
  intros H. rewrite B4 by congruence. apply A4. exact H.
Qed.

Lemma only_submission_refl id s : only_submission id s s.
Proof. apply Forall2_refl. apply same_submission_refl. Qed.

Lemma only_submission_trans id a b c :
  only_submission id a b -> only_submission id b c -> only_submission id a c.
Proof. apply Forall2_trans. apply same_submission_trans. Qed.

Lemma only_submission_frame id s s' :
  stripe_transfers s' = stripe_transfers s -> only_submission id s s'.
Proof.
  intros H. unfold only_submission. rewrite H. apply Forall2_refl.
  apply same_submission_refl.
Qed.

Lemma only_submission_update_stripe_transfer_by_id id data :
  preserves (only_submission id) (update_stripe_transfer_by_id id data).
Proof.
  intros s. unfold only_submission. simpl.
  eapply Forall2_impl; [|apply sql_update_rows].
  intros r r' [[Hp E]|[Hp E]]; subst r'.
  - repeat split. intros Hne. apply Z.eqb_eq in Hp. contradiction.
  - apply same_submission_refl.
Qed.

#[local] Hint Resolve only_submission_refl only_submission_trans : frame.

Ltac only_submission_leaf :=
  first [ apply only_submission_update_stripe_transfer_by_id
        | intros ?; apply only_submission_frame; reflexivity
        | intros ?; unfold assert_;
          match goal with |- context [if ?b then _ else _] => destruct b end;
          apply only_submission_frame; reflexivity
        | auto with frame ].

Lemma only_submission_get_country_shortname id payment_account :
  preserves (only_submission id) (get_country_shortname payment_account).
Proof.
  unfold get_country_shortname. repeat preserves_step only_submission_leaf.
Qed.

Lemma only_submission_create_for_managed_account id K stripe amount transfer_id
    payment_account stripe_account_id statement_descriptor target_type target_id :
  preserves (only_submission id)
    (create_for_managed_account K stripe amount transfer_id payment_account
       stripe_account_id statement_descriptor target_type target_id).
Proof.
  intros s. apply only_submission_frame.
  apply PayoutSpec.keeps_create_for_managed_account.
Qed.

#[local] Hint Resolve only_submission_get_country_shortname
  only_submission_create_for_managed_account : frame.

Lemma only_submission__submit_stripe_transfer K stripe stripe_transfer
    payment_account amount transfer_id statement_descriptor target_type target_id :
  preserves (only_submission (st_id stripe_transfer))
    (_submit_stripe_transfer K stripe stripe_transfer payment_account amount
       transfer_id statement_descriptor target_type target_id).
Proof.
  unfold _submit_stripe_transfer, except_StripeError, get_stripe_account_id,
    stripe_managed_account_of.
  repeat preserves_step only_submission_leaf.
Qed.

Lemma Forall2_app_inv_new {A} (P : A -> A -> Prop) (old : list A) (row : A)
    (l : list A) :
  Forall2 P (old ++ [row])%list l ->
  exists old' row', l = (old' ++ [row'])%list /\ Forall2 P old old' /\ P row row'.
Proof.
  intros H. apply Forall2_app_inv_l in H.
  destruct H as [old' [new' [H1 [H2 E]]]]. inversion H2 as [|? row' ? ? Hr Hn]; subst.
  inversion Hn; subst. exists old', row'. repeat split; assumption.
Qed.

Lemma Forall2_eq_of {A} (P : A -> A -> Prop) (l l' : list A) :
  Forall2 P l l' -> (forall r r', In r l -> P r r' -> r' = r) -> l' = l.
Proof.
  intros H. induction H as [|a b l l' Hab _ IH]; intros Heq; [reflexivity|].
  rewrite (Heq a b (or_introl eq_refl) Hab). f_equal.
  apply IH. intros r r' Hin. apply Heq. right. exact Hin.
Qed.

(** X19. Every call of [submit_stripe_transfer] adds exactly one submission
    record, the last of the table, under a new key and for the transfer
    that is submitted; the records that were there are left as they
    were. *)
Theorem submit_stripe_transfer_adds_one_record
    (K : PayoutTypes) (stripe : StripeAsyncClient) (transfer_id : Z)
    (payment_account : PaymentAccount) (amount : Z) (statement_descriptor : string)
    (target_type target_id : option string) (submitted_by : option Z) (s : Store) :
  let s' := snd (submit_stripe_transfer K stripe transfer_id payment_account amount
                   statement_descriptor target_type target_id submitted_by s) in
  exists row,
    stripe_transfers s' = (stripe_transfers s ++ [row])%list
    /\ st_transfer_id row = transfer_id
    /\ st_id row = next_id st_id (stripe_transfers s)
    /\ st_created_at row = clock s.
Proof.
  cbv zeta.
  assert (Htry : forall s0,
    exists row,
      stripe_transfers
        (snd (submit_stripe_transfer_try K stripe transfer_id payment_account
                amount statement_descriptor target_type target_id submitted_by s0))
      = (stripe_transfers s0 ++ [row])%list
      /\ st_transfer_id row = transfer_id
      /\ st_id row = next_id st_id (stripe_transfers s0)
      /\ st_created_at row = clock s0).
  { intros s0. unfold submit_stripe_transfer_try. unfold bind at 1.
    unfold create_stripe_transfer at 1. cbv beta iota zeta.
    match goal with
    | |- context [bind ?c ?k (set_stripe_transfers (_ ++ [?r])%list s0)] =>
        set (new := r);
        assert (H : preserves (only_submission (st_id new)) (bind c k))
    end.
    { repeat preserves_step only_submission_leaf.
      apply only_submission__submit_stripe_transfer. }
    specialize (H (set_stripe_transfers (stripe_transfers s0 ++ [new])%list s0)).
    unfold only_submission in H. simpl stripe_transfers at 1 in H.
    apply Forall2_app_inv_new in H.
    destruct H as [old' [row' [E [Hold [H1 [H2 [H3 _]]]]]]].
    assert (Eold : old' = stripe_transfers s0).
    { eapply Forall2_eq_of; [exact Hold|].
      intros r r' Hin [_ [_ [_ Hr]]]. apply Hr.
      apply (PayoutSpec.next_id_above st_id) in Hin. simpl. lia. }
    unfold new in *. clear new. exists row'.
    split; [rewrite Eold in E; exact E|].
    split; [exact H2 | split; [exact H1 | exact H3]]. }
  unfold submit_stripe_transfer. unfold bind at 1.
  unfold update_transfer_by_id at 1. cbv beta iota zeta.
  match goal with
  | |- context [try_except _ _ ?s0] => set (s1 := s0)
  end.
  destruct (Htry s1) as [row [E [H1 [H2 H3]]]]. exists row.
  split; [|split; [exact H1 | split; [exact H2 | exact H3]]].
  unfold try_except.
  destruct (submit_stripe_transfer_try K stripe transfer_id payment_account amount
              statement_descriptor target_type target_id submitted_by s1)
    as [[u|e] s2]; simpl in E; [exact E|].
  rewrite <- E. destruct e; unfold bind; simpl;
    try reflexivity.
  destruct (existsb _ _); reflexivity.
Qed.

(** *** The state a submission leaves the transfer in *)

(** When [_submit_stripe_transfer] returns, the last thing written to the
    transfers is the mark PENDING. *)
Lemma _submit_stripe_transfer_returned K stripe stripe_transfer payment_account
    amount transfer_id statement_descriptor target_type target_id s s' u :
  _submit_stripe_transfer K stripe stripe_transfer payment_account amount
    transfer_id statement_descriptor target_type target_id s = (Returned u, s') ->
  exists s0,
    transfers s'
    = sql_update (transfer_with_id transfer_id)
        (apply_TransferUpdate (TransferUpdate_status PENDING None)) (transfers s0).
Proof.
  unfold _submit_stripe_transfer. intros H.
  destruct (truthy_str (st_stripe_id stripe_transfer)); [discriminate H|].
  apply bind_returned in H. destruct H as [account [s1 [_ H]]].
  destruct (negb (str_eq (pa_account_type payment_account)
                    (ACCOUNT_TYPE_STRIPE_MANAGED_ACCOUNT K))); [discriminate H|].
  unfold except_StripeError, try_except in H.
  match type of H with
  | (match ?body s1 with _ => _ end) = _ =>
      destruct (body s1) as [[v|e] s2] eqn:Hb
  end.
  - injection H as _ <-. cbv zeta in Hb.
    apply bind_returned in Hb. destruct Hb as [payout [s3 [_ Hb]]].
    apply bind_returned in Hb. destruct Hb as [country [s4 [_ Hb]]].
    apply bind_returned in Hb. destruct Hb as [now [s5 [_ Hb]]].
    apply bind_returned in Hb. destruct Hb as [updated [s6 [_ Hb]]].
    apply bind_returned in Hb. destruct Hb as [u1 [s7 [_ Hb]]].
    apply bind_returned in Hb. destruct Hb as [t [s8 [Hu Hb]]].
    injection Hb as _ <-. unfold update_transfer_by_id in Hu.
    injection Hu as _ <-. exists s7. reflexivity.
  - exfalso. destruct e as [|d| | | | |]; try discriminate H.
    destruct (error_info_of d) as [error_info|msg]; [|discriminate H].
    cbv zeta in H. unfold bind at 1 in H.
    destruct (get_country_shortname payment_account s2) as [[c|x] s3];
      [|discriminate H].
    cbv beta iota in H. unfold bind at 1 in H.
    match type of H with
    | context [update_stripe_transfer_by_id ?i ?d s3] =>
        destruct (update_stripe_transfer_by_id i d s3) as [[[updated|]|x] s4]
    end; try discriminate H.
    cbv beta iota in H.
    repeat match type of H with
           | context [if ?b then _ else _] => destruct b
           end; discriminate H.
Qed.

Lemma submit_stripe_transfer_try_returned K stripe transfer_id payment_account
    amount statement_descriptor target_type target_id submitted_by s s' u :
  submit_stripe_transfer_try K stripe transfer_id payment_account amount
    statement_descriptor target_type target_id submitted_by s = (Returned u, s') ->
  forall r, In r (transfers s') -> t_id r = transfer_id ->
    t_status r = PENDING /\ t_status_code r = None
    /\ t_submitted_by_id r = submitted_by
    /\ exists submitted_at, t_submitted_at r = Some submitted_at.
Proof.
  unfold submit_stripe_transfer_try. intros H.
  apply bind_returned in H. destruct H as [record [s1 [_ H]]].
  apply bind_returned in H. destruct H as [u1 [s2 [Hs H]]].
  apply _submit_stripe_transfer_returned in Hs. destruct Hs as [s0 Hs].
  apply bind_returned in H. destruct H as [now [s3 [Hn H]]].
  unfold utcnow in Hn. injection Hn as _ <-.
  apply bind_returned in H. destruct H as [t [s4 [Hu H]]].
  injection H as _ <-. unfold update_transfer_by_id in Hu. injection Hu as _ <-.
  intros r Hin Hid. simpl in Hin. rewrite Hs in Hin.
  apply in_sql_update in Hin. destruct Hin as [r1 [Hin [[_ E]|[Hp E]]]]; subst r.
  - apply in_sql_update in Hin. destruct Hin as [r0 [_ [[_ E]|[Hp E]]]]; subst r1.
    + repeat split. eexists. reflexivity.
    + unfold transfer_with_id in Hp. apply Z.eqb_neq in Hp. simpl in Hid.
      contradiction.
  - apply Z.eqb_neq in Hp. contradiction.
Qed.

(** X20. [submit_stripe_transfer] returns normally or raises a
    [PayoutError], nothing else. When it returns, the transfer is PENDING
    with no status code and with the time and the user of the submission,
    or it is marked ERROR / UNKNOWN_ERROR. When it raises, the transfer is
    FAILED under the code of the error, with the time and the user of the
    submission, for the codes of TRANSFER_ERROR_TYPE_TO_FAILED_STATUS, and
    ERROR / ERROR_SUBMISSION for the others. *)
Theorem submit_stripe_transfer_final_state
    (K : PayoutTypes) (stripe : StripeAsyncClient) (transfer_id : Z)
    (payment_account : PaymentAccount) (amount : Z) (statement_descriptor : string)
    (target_type target_id : option string) (submitted_by : option Z) (s : Store) :
  let res := submit_stripe_transfer K stripe transfer_id payment_account amount
               statement_descriptor target_type target_id submitted_by s in
  (fst res = Returned tt
   /\ ((forall r, In r (transfers (snd res)) -> t_id r = transfer_id ->
          t_status r = PENDING /\ t_status_code r = None
          /\ t_submitted_by_id r = submitted_by
          /\ exists submitted_at, t_submitted_at r = Some submitted_at)
       \/ (forall r, In r (transfers (snd res)) -> t_id r = transfer_id ->
             t_status r = ERROR /\ t_status_code r = Some UNKNOWN_ERROR)))
  \/ (exists d,
        fst res = Raised (PayoutError d)
        /\ forall r, In r (transfers (snd res)) -> t_id r = transfer_id ->
             if existsb (PayoutErrorCode_eqb (error_code d))
                  (TRANSFER_ERROR_TYPE_TO_FAILED_STATUS K)
             then t_status r = FAILED
                  /\ t_status_code r
                     = Some (error_code_as_status_code (error_code d))
                  /\ t_submitted_by_id r = submitted_by
                  /\ exists submitted_at, t_submitted_at r = Some submitted_at
             else t_status r = ERROR /\ t_status_code r = Some ERROR_SUBMISSION).
Proof.
  intros res.
  assert (E : res = submit_stripe_transfer K stripe transfer_id payment_account
                      amount statement_descriptor target_type target_id
                      submitted_by s) by reflexivity.
  clearbody res. unfold submit_stripe_transfer in E. unfold bind at 1 in E.
  unfold update_transfer_by_id at 1 in E. cbv beta iota zeta in E.
  match type of E with
  | context [try_except _ _ ?s0] => set (s1 := s0) in E
  end.
  unfold try_except in E.
  destruct (submit_stripe_transfer_try K stripe transfer_id payment_account amount
              statement_descriptor target_type target_id submitted_by s1)
    as [[[]|e] s2] eqn:Htry.
  - subst res. left. split; [reflexivity|]. left. simpl snd.
    eapply submit_stripe_transfer_try_returned. exact Htry.
  - assert (Hother :
      forall r, In r (sql_update (transfer_with_id transfer_id)
                        (marked ERROR UNKNOWN_ERROR) (transfers s2)) ->
                t_id r = transfer_id ->
                t_status r = ERROR /\ t_status_code r = Some UNKNOWN_ERROR).
    { intros r Hin Hid. eapply PayoutSpec.marked_rows; eassumption. }
    destruct e as [d| | | | | |];
      try (subst res; left; split; [reflexivity|]; right; exact Hother).
    right. exists d. unfold bind in E. simpl in E.
    destruct (existsb (PayoutErrorCode_eqb (error_code d))
                (TRANSFER_ERROR_TYPE_TO_FAILED_STATUS K)); simpl in E; subst res.
    + split; [reflexivity|]. intros r Hin Hid.
      apply in_sql_update in Hin. destruct Hin as [r0 [_ [[_ E]|[Hp E]]]]; subst r.
      * repeat split. eexists. reflexivity.
      * apply Z.eqb_neq in Hp. contradiction.
    + split; [reflexivity|]. intros r Hin Hid.
      exact (@PayoutSpec.marked_rows transfer_id ERROR ERROR_SUBMISSION
               (transfers s2) r Hin Hid).
Qed.

(** X21. The guards of [_submit_stripe_transfer]. A submission record that
    already carries the id of a gateway payout is not submitted again:
    DUPLICATE_STRIPE_TRANSFER. A payment account that links to no gateway
    account, or that is not of the type of a managed account, is refused:
    INVALID_STRIPE_ACCOUNT. In both cases nothing is written and the gateway
    is not called. *)
Theorem submit_stripe_transfer_guards
    (K : PayoutTypes) (stripe : StripeAsyncClient) (stripe_transfer : StripeTransfer)
    (payment_account : PaymentAccount) (amount transfer_id : Z)
    (statement_descriptor : string) (target_type target_id : option string)
    (s : Store) :
  let res := _submit_stripe_transfer K stripe stripe_transfer payment_account
               amount transfer_id statement_descriptor target_type target_id s in
  (truthy_str (st_stripe_id stripe_transfer) = true ->
   res = (Raised (payout_error DUPLICATE_STRIPE_TRANSFER None), s))
  /\ (truthy_str (st_stripe_id stripe_transfer) = false ->
      linked_account payment_account s = None
      \/ str_eq (pa_account_type payment_account)
           (ACCOUNT_TYPE_STRIPE_MANAGED_ACCOUNT K) = false ->
      res = (Raised (payout_error INVALID_STRIPE_ACCOUNT None), s)).
Proof.
  intros res. subst res. unfold _submit_stripe_transfer. split.
  - intros ->. reflexivity.
  - intros -> H. unfold bind at 1. unfold get_stripe_account_id.
    unfold bind at 1. rewrite PayoutSpec.stripe_managed_account_of_linked.
    destruct (linked_account payment_account s) as [sma|] eqn:Hl; [|reflexivity].
    destruct H as [H|H]; [discriminate H|].
    cbv beta iota. unfold ret at 1. cbv beta iota. rewrite H. reflexivity.
Qed.

End PayoutMore.

(* ===================================================================== *)
(** ** Payin: how the statements of the repository compose               *)
(* ===================================================================== *)

Module PayinMore.
Import Payin PayinData PayinQueries.

(** *** A transition is applied once *)

(** X22. When [update_payment_intent_status] has moved an intent from one
    status to a different one, the intent it returned is among the intents
    [find_payment_intents_with_status] finds in the new status, no intent of
    that id is found in the previous status any more, and the same
    transition, asked for again, raises
    [PaymentIntentCouldNotBeUpdatedError] and writes nothing. *)
Theorem update_payment_intent_status_not_twice
    (id : UUID) (new_status previous_status : IntentStatus) (now later : datetime)
    (db db' : Database) (i : PaymentIntent) :
  new_status <> previous_status ->
  update_payment_intent_status id new_status previous_status now db
  = (Returned i, db') ->
  update_payment_intent_status id new_status previous_status later db'
  = (Raised PaymentIntentCouldNotBeUpdatedError, db')
  /\ (exists found, find_payment_intents_with_status new_status db'
                    = (Returned found, db')
                    /\ In i found /\ pi_id i = id)
  /\ (exists found, find_payment_intents_with_status previous_status db'
                    = (Returned found, db')
                    /\ forall r, In r found -> pi_id r <> id).
Proof.
  intros Hne H. rewrite PayinSpec.update_payment_intent_status_unfold in H.
  destruct (find (guarded_match id previous_status) (payment_intents db))
    as [r|] eqn:Hf; [|discriminate H].
  injection H as <- <-.
  set (f := pi_values (Some new_status) None None now).
  set (t' := sql_update (guarded_match id previous_status) f (payment_intents db)).
  assert (Hnone : forall r', In r' t' -> guarded_match id previous_status r' = false).
  { intros r' Hin. apply in_sql_update in Hin.
    destruct Hin as [r0 [_ [[_ E]|[Hp E]]]]; subst r'; [|exact Hp].
    apply PayinSpec.guarded_match_false. intros [_ Hs]. apply Hne. exact Hs. }
  apply find_some in Hf. destruct Hf as [Hin Hp].
  apply PayinSpec.guarded_match_true in Hp. destruct Hp as [Hid Hst].
  split; [|split].
  - rewrite PayinSpec.update_payment_intent_status_unfold.
    cbn [payment_intents set_payment_intents]. fold f t'.
    rewrite (all_false_find_none _ _ Hnone).
    rewrite (sql_update_none _ _ _ Hnone).
    destruct db; reflexivity.
  - eexists. split; [reflexivity|]. split; [|exact Hid].
    cbn [payment_intents set_payment_intents]. unfold sql_select.
    apply filter_In. split.
    + unfold sql_update. apply in_map_iff. exists r. split; [|exact Hin].
      assert (Hg : guarded_match id previous_status r = true)
        by (apply PayinSpec.guarded_match_true; split; assumption).
      rewrite Hg. reflexivity.
    + simpl. apply PayinSpec.IntentStatus_eqb_refl.
  - eexists. split; [reflexivity|].
    intros r' Hr'. cbn [payment_intents set_payment_intents] in Hr'.
    unfold sql_select in Hr'. apply filter_In in Hr'. destruct Hr' as [Hr' Hs].
    apply PayinSpec.IntentStatus_eqb_eq in Hs.
    specialize (Hnone r' Hr'). apply PayinSpec.guarded_match_false in Hnone.
    intros Hid'. apply Hnone. split; assumption.
Qed.

(** An authorised intent starts to be captured. *)
Lemma update_payment_intent_status_not_twice_witness :
  update_payment_intent_status 1 CAPTURING REQUIRES_CAPTURE 30
    (snd (update_payment_intent_status 1 CAPTURING REQUIRES_CAPTURE 20
            (db_with [intent 1 REQUIRES_CAPTURE 500] [])))
  = (Raised PaymentIntentCouldNotBeUpdatedError,
     snd (update_payment_intent_status 1 CAPTURING REQUIRES_CAPTURE 20
            (db_with [intent 1 REQUIRES_CAPTURE 500] []))).
Proof.
  destruct (@update_payment_intent_status_not_twice 1 CAPTURING REQUIRES_CAPTURE
              20 30 (db_with [intent 1 REQUIRES_CAPTURE 500] [])
              (snd (update_payment_intent_status 1 CAPTURING REQUIRES_CAPTURE 20
                      (db_with [intent 1 REQUIRES_CAPTURE 500] [])))
              (pi_values (Some CAPTURING) None None 20
                 (intent 1 REQUIRES_CAPTURE 500)))
    as [H _]; [discriminate | reflexivity | exact H].
Defined.

(** *** The alert on intents that wait for their capture *)

Lemma update_payment_intent_capture_state_table id status captured_at now db :
  payment_intents
    (snd (update_payment_intent_capture_state id status captured_at now db))
  = sql_update (fun r => pi_id r =? id)
      (pi_values (Some status) None (Some captured_at) now) (payment_intents db).
Proof.
  unfold update_payment_intent_capture_state, bind, execute_update_payment_intents,
    to_payment_intent.
  destruct (fetch_one _); reflexivity.
Qed.

Lemma count_after_update (q p : PaymentIntent -> bool)
    (f : PaymentIntent -> PaymentIntent) (t : list PaymentIntent) :
  (forall r, q (f r) = false) ->
  (List.length (filter q (sql_update p f t))
   + List.length (filter (fun r => p r && q r) t))%nat
  = List.length (filter q t).
Proof.
  intros Hq. unfold sql_update. induction t as [|r t IH]; [reflexivity|].
  cbn [map filter]. destruct (p r) eqn:Hp; cbn [andb].
  - rewrite Hq. destruct (q r); cbn [List.length]; lia.
  - destruct (q r); cbn [List.length]; lia.
Qed.

(** X23. Recording the capture of an intent as SUCCEEDED or CANCELLED
    takes it out of the count of the intents that wait for their capture:
    the count goes down by the number of the rows of that id that were
    counted, and afterwards no row of that id is counted. *)
Theorem count_payment_intents_that_require_capture_after_capture
    (id : UUID) (status : IntentStatus) (captured_at now : datetime)
    (problematic_threshold : Z) (at_time : datetime) (db : Database) :
  status = SUCCEEDED \/ status = CANCELLED ->
  let db' := snd (update_payment_intent_capture_state id status captured_at now db) in
  let of_id :=
    Z.of_nat (List.length
                (filter (fun r => (pi_id r =? id)
                                  && counted problematic_threshold at_time r)
                   (payment_intents db))) in
  exists before,
    count_payment_intents_that_require_capture problematic_threshold at_time db
    = (Returned before, db)
    /\ count_payment_intents_that_require_capture problematic_threshold at_time db'
       = (Returned (before - of_id), db')
    /\ 0 <= of_id <= before
    /\ forall r, In r (payment_intents db') -> pi_id r = id ->
                 counted problematic_threshold at_time r = false.
Proof.
  intros Hs db' of_id.
  exists (Z.of_nat (List.length (filter (counted problematic_threshold at_time)
                                   (payment_intents db)))).
  split; [reflexivity|].
  unfold count_payment_intents_that_require_capture.
  fold (counted problematic_threshold at_time).
  assert (Hq : forall r,
    counted problematic_threshold at_time
      (pi_values (Some status) None (Some captured_at) now r) = false).
  { intros r. unfold counted. simpl. destruct Hs as [-> | ->]; reflexivity. }
  pose proof (count_after_update (counted problematic_threshold at_time)
                (fun r => pi_id r =? id)
                (pi_values (Some status) None (Some captured_at) now)
                (payment_intents db) Hq) as Hc. cbv beta in Hc.
  subst db' of_id. rewrite update_payment_intent_capture_state_table.
  unfold sql_select. split; [|split].
  - f_equal. f_equal. lia.
  - lia.
  - intros r Hin Hid. apply in_sql_update in Hin.
    destruct Hin as [r0 [_ [[_ E]|[Hp E]]]]; subst r; [apply Hq|].
    apply Z.eqb_neq in Hp. contradiction.
Qed.

(** Two intents are overdue; one of them is captured. *)
Lemma count_payment_intents_that_require_capture_after_capture_witness :
  fst (count_payment_intents_that_require_capture 5 100
         (snd (update_payment_intent_capture_state 1 SUCCEEDED 60 60
                 (db_with [intent_due 1 CAPTURING (Some 50);
                           intent_due 2 REQUIRES_CAPTURE (Some 50)] []))))
  = Returned 1.
Proof.
  destruct (@count_payment_intents_that_require_capture_after_capture
              1 SUCCEEDED 60 60 5 100
              (db_with [intent_due 1 CAPTURING (Some 50);
                        intent_due 2 REQUIRES_CAPTURE (Some 50)] [])
              (or_introl eq_refl))
    as [before [Hb [Ha _]]].
  injection Hb as <-. rewrite Ha. reflexivity.
Defined.

(** *** The updates of the provider side of an intent *)

(** An update by id of [pgp_payment_intents], whatever its values. *)
Lemma update_pgp_by_id (id : UUID) (f : PgpPaymentIntent -> PgpPaymentIntent)
    (db : Database) :
  (forall r, pgpi_id (f r) = pgpi_id r) ->
  let res := (row <- execute_update_pgp_payment_intents (fun r => pgpi_id r =? id) f ;;
              to_pgp_payment_intent row) db in
  payment_intents (snd res) = payment_intents db
  /\ payment_intents_adjustment_history (snd res)
     = payment_intents_adjustment_history db
  /\ Forall2 (fun r r' => (pgpi_id r = id /\ r' = f r) \/ (pgpi_id r <> id /\ r' = r))
       (pgp_payment_intents db) (pgp_payment_intents (snd res))
  /\ match find (fun r => pgpi_id r =? id) (pgp_payment_intents db) with
     | None => res = (Raised TypeError, db)
     | Some r =>
         fst res = Returned (f r)
         /\ find (fun r => pgpi_id r =? id) (pgp_payment_intents (snd res))
            = Some (f r)
     end.
Proof.
  intros Hid res. subst res.
  unfold bind, execute_update_pgp_payment_intents. rewrite fetch_one_returning.
  assert (Hrows :
    Forall2 (fun r r' => (pgpi_id r = id /\ r' = f r) \/ (pgpi_id r <> id /\ r' = r))
      (pgp_payment_intents db)
      (sql_update (fun r => pgpi_id r =? id) f (pgp_payment_intents db))).
  { eapply Forall2_impl; [|apply sql_update_rows].
    intros r r' [[Hp E]|[Hp E]]; [left | right]; split; try exact E.
    - apply Z.eqb_eq. exact Hp.
    - apply Z.eqb_neq. exact Hp. }
  destruct (find (fun r => pgpi_id r =? id) (pgp_payment_intents db)) as [r|] eqn:Hf;
    simpl.
  - repeat split; try exact Hrows.
    rewrite find_sql_update by (intros r0; rewrite Hid; reflexivity).
    rewrite Hf. simpl. apply find_some in Hf. destruct Hf as [_ Hp].
    rewrite Hp. reflexivity.
  - repeat split; try exact Hrows.
    rewrite sql_update_none by (apply find_none_all; exact Hf).
    destruct db; reflexivity.
Qed.

(** X24. [update_pgp_payment_intent], [update_pgp_payment_intent_status]
    and [update_pgp_payment_intent_amount] are keyed on the id alone. For an
    id that is not in the table they raise the [TypeError] of the conversion
    of no row, and the database is as it was. Otherwise they return the
    first row of that id with the new values, which is also the first row
    of that id in the table afterwards; every row of that id is rewritten,
    the rows of another id and the other tables are kept. *)
Theorem update_pgp_payment_intent_by_id
    (id : UUID) (status : IntentStatus) (resource_id charge_resource_id : string)
    (amount_capturable amount_received amount : Z) (now : datetime)
    (db : Database) :
  let outcome_of (f : PgpPaymentIntent -> PgpPaymentIntent)
                 (res : outcome Exn PgpPaymentIntent * Database) :=
    payment_intents (snd res) = payment_intents db
    /\ payment_intents_adjustment_history (snd res)
       = payment_intents_adjustment_history db
    /\ Forall2 (fun r r' => (pgpi_id r = id /\ r' = f r)
                            \/ (pgpi_id r <> id /\ r' = r))
         (pgp_payment_intents db) (pgp_payment_intents (snd res))
    /\ match find (fun r => pgpi_id r =? id) (pgp_payment_intents db) with
       | None => res = (Raised TypeError, db)
       | Some r =>
           fst res = Returned (f r)
           /\ find (fun r => pgpi_id r =? id) (pgp_payment_intents (snd res))
              = Some (f r)
       end in
  outcome_of (pgp_details_values status resource_id charge_resource_id
                amount_capturable amount_received now)
    (update_pgp_payment_intent id status resource_id charge_resource_id
       amount_capturable amount_received now db)
  /\ outcome_of (pgp_values status now)
       (update_pgp_payment_intent_status id status now db)
  /\ outcome_of (pgp_amount_values amount now)
       (update_pgp_payment_intent_amount id amount now db).
Proof.
  cbv zeta. split; [|split]; apply update_pgp_by_id; intros r; reflexivity.
Qed.

(** *** The pair of intents of a provider charge *)

Lemma in_join_intents db i g :
  In (i, g) (join_intents db) <->
  In i (payment_intents db) /\ In g (pgp_payment_intents db)
  /\ pi_id i = pgpi_payment_intent_id g.
Proof.
  unfold join_intents. rewrite in_flat_map. split.
  - intros [i0 [Hi H]]. apply in_map_iff in H. destruct H as [g0 [E Hg]].
    injection E as -> ->. apply filter_In in Hg. destruct Hg as [Hg Hid].
    apply Z.eqb_eq in Hid. repeat split; assumption.
  - intros [Hi [Hg Hid]]. exists i. split; [exact Hi|].
    apply in_map_iff. exists g. split; [reflexivity|].
    apply filter_In. split; [exact Hg|]. apply Z.eqb_eq. exact Hid.
Qed.

(** X25. [get_intent_pair_by_provider_charge_id] reads only. It answers
    with both intents or with neither. The two it answers with are rows of
    their tables, the provider side belongs to the intent, and its charge
    is the given one; it answers with neither exactly when no provider side
    with that charge belongs to an intent of the table. *)
Theorem get_intent_pair_by_provider_charge_id_linked
    (provider_charge_id : string) (db : Database) :
  let res := get_intent_pair_by_provider_charge_id provider_charge_id db in
  snd res = db
  /\ ((fst res = Returned (None, None)
       /\ forall i g, In i (payment_intents db) -> In g (pgp_payment_intents db) ->
                      pgpi_payment_intent_id g = pi_id i ->
                      pgpi_charge_resource_id g <> Some provider_charge_id)
      \/ exists i g,
           fst res = Returned (Some i, Some g)
           /\ In i (payment_intents db) /\ In g (pgp_payment_intents db)
           /\ pgpi_payment_intent_id g = pi_id i
           /\ pgpi_charge_resource_id g = Some provider_charge_id).
Proof.
  intros res. subst res. unfold get_intent_pair_by_provider_charge_id.
  rewrite fetch_one_select.
  match goal with
  | |- context [find ?q (join_intents db)] =>
      destruct (find q (join_intents db)) as [[i g]|] eqn:Hf
  end.
  - split; [reflexivity|]. right. exists i, g.
    apply find_some in Hf. destruct Hf as [Hin Hq].
    apply in_join_intents in Hin. destruct Hin as [Hi [Hg Hid]].
    split; [reflexivity|]. repeat split; try assumption; [congruence|].
    simpl in Hq. destruct (pgpi_charge_resource_id g) as [c|]; [|discriminate Hq].
    simpl in Hq. apply String.eqb_eq in Hq. congruence.
  - split; [reflexivity|]. left. split; [reflexivity|].
    intros i g Hi Hg Hid Hc.
    assert (Hin : In (i, g) (join_intents db))
      by (apply in_join_intents; repeat split; congruence).
    pose proof (find_none _ _ Hf _ Hin) as Hq. simpl in Hq.
    rewrite Hc in Hq. simpl in Hq. rewrite String.eqb_refl in Hq.
    discriminate Hq.
Qed.

(** *** Writing and reading back *)

(** X26. What [update_payment_intent_amount] returns is what
    [get_payment_intent_by_id] finds afterwards: the intent with the new
    amount and the time of the update, its status and its other columns as
    they were. For an id that is not in the table the update raises the
    [TypeError] of the conversion of no row and the database is as it
    was. *)
Theorem update_payment_intent_amount_then_get
    (id : UUID) (amount : Z) (now : datetime) (db : Database) :
  let res := update_payment_intent_amount id amount now db in
  pgp_payment_intents (snd res) = pgp_payment_intents db
  /\ payment_intents_adjustment_history (snd res)
     = payment_intents_adjustment_history db
  /\ match get_payment_intent_by_id id db with
     | (Returned (Some old), _) =>
         fst res = Returned (pi_values None (Some amount) None now old)
         /\ get_payment_intent_by_id id (snd res)
            = (Returned (Some (pi_values None (Some amount) None now old)), snd res)
         /\ pi_amount (pi_values None (Some amount) None now old) = amount
         /\ pi_status (pi_values None (Some amount) None now old) = pi_status old
         /\ pi_updated_at (pi_values None (Some amount) None now old) = now
     | _ => res = (Raised TypeError, db)
     end.
Proof.
  intros res. subst res.
  unfold update_payment_intent_amount, get_payment_intent_by_id, bind,
    execute_update_payment_intents.
  rewrite fetch_one_returning, fetch_one_select.
  destruct (find (fun r => pi_id r =? id) (payment_intents db)) as [old|] eqn:Hf;
    simpl.
  - repeat split. rewrite fetch_one_select.
    rewrite find_sql_update by reflexivity. rewrite Hf. simpl.
    apply find_some in Hf. destruct Hf as [_ Hp]. rewrite Hp. reflexivity.
  - repeat split. rewrite sql_update_none by (apply find_none_all; exact Hf).
    destruct db; reflexivity.
Qed.

Lemma find_app_some {R} (q : R -> bool) (l l' : list R) (x : R) :
  find q l = Some x -> find q (l ++ l') = Some x.
Proof.
  induction l as [|a l IH]; simpl; intros H; [discriminate H|].
  destruct (q a); [exact H | apply IH; exact H].
Qed.

(** X27. A lookup of the adjustment of an intent under an idempotency key,
    made after an adjustment was inserted for that intent and key, finds a
    row: the row that was there for them before the insert, or else the
    inserted row. The insert itself never raises and appends exactly its
    row; its statement carries no check on the key. *)
Theorem insert_payment_intent_adjustment_history_then_get
    (id : UUID) (payer_id : option UUID) (payment_intent_id : UUID)
    (amount amount_original amount_delta : Z) (currency idempotency_key : string)
    (now : datetime) (db : Database) :
  let res := insert_payment_intent_adjustment_history id payer_id payment_intent_id
               amount amount_original amount_delta currency idempotency_key now db in
  exists row,
    fst res = Returned row
    /\ adj_id row = id /\ adj_payment_intent_id row = payment_intent_id
    /\ adj_idempotency_key row = idempotency_key
    /\ adj_amount row = amount /\ adj_amount_original row = amount_original
    /\ adj_amount_delta row = amount_delta
    /\ payment_intents_adjustment_history (snd res)
       = (payment_intents_adjustment_history db ++ [row])%list
    /\ payment_intents (snd res) = payment_intents db
    /\ pgp_payment_intents (snd res) = pgp_payment_intents db
    /\ get_payment_intent_adjustment_history payment_intent_id idempotency_key
         (snd res)
       = (Returned
            (Some match fst (get_payment_intent_adjustment_history payment_intent_id
                               idempotency_key db) with
                  | Returned (Some earlier) => earlier
                  | _ => row
                  end), snd res).
Proof.
  intros res. subst res. eexists. split; [reflexivity|].
  repeat split.
  unfold get_payment_intent_adjustment_history.
  cbn [fst snd insert_payment_intent_adjustment_history bind modify
       to_payment_intent_adjustment_history ret
       payment_intents_adjustment_history set_adjustment_history].
  rewrite !fetch_one_select. f_equal. f_equal.
  match goal with
  | |- find ?q (?t ++ [?r])%list = _ =>
      destruct (find q t) as [earlier|] eqn:Hf
  end.
  - rewrite (find_app_some _ _ _ Hf). reflexivity.
  - rewrite find_app_none by exact Hf. simpl.
    rewrite Z.eqb_refl, String.eqb_refl. reflexivity.
Qed.

End PayinMore.
